(** * A/B experiment engine, provider fallback and request override of the
      customer-support chat API

    Shallow embedding of
      - [ab_testing.py]        (class [ABTestingManager]),
      - [provider_manager.py]  (class [ProviderManager]),
      - [main.py]              (the variant override of [create_chat_completion]),
      - [models.py]            (the pydantic records these use),
    with the properties of the design document stated on the embedding,
    followed by the start-up and look-up of [ProviderManager], the context
    truncation of [cost_optimizer.py] and the metrics bookkeeping of the
    two chat handlers of [main.py], with properties read off the code.

    Conventions.
      - A Python [str] is a Rocq [string] holding the UTF-8 bytes of its
        code points; a lone surrogate, which a [str] can hold and UTF-8
        cannot, is held as the three bytes the generalized encoding gives
        it, and [str.encode()] raises on it.
      - A Python [float] is an IEEE-754 binary64 [float] of the kernel
        ([PrimFloat]); arithmetic and comparisons are the hardware ones.
      - A Python [int] is a [Z].
      - A [dict] that is iterated ([traffic_split], the metrics rows of an
        experiment) is an insertion-ordered association list ([odict]);
        a [dict] that is only looked up by key is a [gmap].
      - A [datetime] is naive or aware (it carries a UTC offset);
        [datetime.utcnow()] is naive and is an argument of the function
        that reads the clock. Comparing a naive with an aware value
        raises [TypeError].
      - Calls to [logger] are left out, except in [create_experiment],
        where the record that is logged tells which check failed. *)

From Stdlib Require Import ZArith Lia Bool List Ascii String.
From Stdlib Require Import Floats.PrimFloat Floats.SpecFloat Floats.FloatOps.

#[local] Set Warnings "-inexact-float".
From stdpp Require Import gmap strings list.

Local Open Scope Z_scope.

(* ===================================================================== *)
(** * [hashlib.sha256]                                                    *)
(* ===================================================================== *)

Module SHA256.

Definition word_mask : Z := 2 ^ 32 - 1.
Definition trunc32 (x : Z) : Z := Z.land x word_mask.
Definition plus32 (x y : Z) : Z := trunc32 (x + y).
Definition rot_right (x n : Z) : Z :=
  Z.lor (Z.shiftr x n) (trunc32 (Z.shiftl x (32 - n))).
Definition neg32 (x : Z) : Z := Z.lxor x word_mask.

Definition choose (e f g : Z) : Z := Z.lxor (Z.land e f) (Z.land (neg32 e) g).
Definition majority (a b c : Z) : Z :=
  Z.lxor (Z.lxor (Z.land a b) (Z.land a c)) (Z.land b c).
Definition big_sigma0 (a : Z) : Z :=
  Z.lxor (Z.lxor (rot_right a 2) (rot_right a 13)) (rot_right a 22).
Definition big_sigma1 (e : Z) : Z :=
  Z.lxor (Z.lxor (rot_right e 6) (rot_right e 11)) (rot_right e 25).
Definition small_sigma0 (w : Z) : Z :=
  Z.lxor (Z.lxor (rot_right w 7) (rot_right w 18)) (Z.shiftr w 3).
Definition small_sigma1 (w : Z) : Z :=
  Z.lxor (Z.lxor (rot_right w 17) (rot_right w 19)) (Z.shiftr w 10).

(** The round constants are the first 32 fractional bits of the cube
    roots of the first 64 primes, the initial state those of the square
    roots of the first 8. *)
Definition primes64 : list Z :=
  [   2;   3;   5;   7;  11;  13;  17;  19;  23;  29;  31;  37;  41;
     43;  47;  53;  59;  61;  67;  71;  73;  79;  83;  89;  97; 101;
    103; 107; 109; 113; 127; 131; 137; 139; 149; 151; 157; 163; 167;
    173; 179; 181; 191; 193; 197; 199; 211; 223; 227; 229; 233; 239;
    241; 251; 257; 263; 269; 271; 277; 281; 283; 293; 307; 311 ].

Definition cube_root_floor (n : Z) : Z :=
  fold_left
    (fun r i => let c := r + 2 ^ Z.of_nat i in
                if c * c * c <=? n then c else r)
    (rev (seq 0 40)) 0.

Definition round_constants : list Z :=
  Eval vm_compute in
    map (fun p => trunc32 (cube_root_floor (p * 2 ^ 96))) primes64.

Definition initial_state : list Z :=
  Eval vm_compute in
    map (fun p => trunc32 (Z.sqrt (p * 2 ^ 64))) (firstn 8 primes64).

(** Padding: a [0x80] byte, zero bytes up to 56 modulo 64, and the bit
    length as a 64-bit big-endian integer. *)
Definition be_bytes (n : nat) (x : Z) : list Z :=
  map (fun i => Z.land (Z.shiftr x (8 * Z.of_nat i)) 255) (rev (seq 0 n)).

Definition pad (msg : list Z) : list Z :=
  let len := Z.of_nat (length msg) in
  msg ++ [128] ++ repeat 0 (Z.to_nat ((55 - len) mod 64))
      ++ be_bytes 8 (8 * len).

Fixpoint be_words (bs : list Z) : list Z :=
  match bs with
  | b0 :: b1 :: b2 :: b3 :: rest =>
      (b0 * 2 ^ 24 + b1 * 2 ^ 16 + b2 * 2 ^ 8 + b3) :: be_words rest
  | _ => []
  end.

(** The message schedule, most recent word first while it is built. *)
Fixpoint extend_schedule (k : nat) (w : list Z) : list Z :=
  match k with
  | O => w
  | S k' =>
      let nw := plus32 (plus32 (small_sigma1 (nth 1 w 0)) (nth 6 w 0))
                       (plus32 (small_sigma0 (nth 14 w 0)) (nth 15 w 0)) in
      extend_schedule k' (nw :: w)
  end.

Definition schedule (block : list Z) : list Z :=
  rev (extend_schedule 48 (rev block)).

Definition regs : Type := (Z * Z * Z * Z * Z * Z * Z * Z)%type.

Definition round (s : regs) (kw : Z * Z) : regs :=
  let '(a, b, c, d, e, f, g, h) := s in
  let t1 := plus32 (plus32 (plus32 h (big_sigma1 e)) (choose e f g))
                   (plus32 (fst kw) (snd kw)) in
  let t2 := plus32 (big_sigma0 a) (majority a b c) in
  (plus32 t1 t2, a, b, c, plus32 d t1, e, f, g).

Definition regs_of (l : list Z) : regs :=
  (nth 0 l 0, nth 1 l 0, nth 2 l 0, nth 3 l 0,
   nth 4 l 0, nth 5 l 0, nth 6 l 0, nth 7 l 0).

Definition list_of (s : regs) : list Z :=
  let '(a, b, c, d, e, f, g, h) := s in [a; b; c; d; e; f; g; h].

Definition compress (st : list Z) (block : list Z) : list Z :=
  let out := fold_left round (combine round_constants (schedule block))
                       (regs_of st) in
  map (fun p => plus32 (fst p) (snd p)) (combine st (list_of out)).

(** The padded message is consumed sixteen words at a time. *)
Fixpoint absorb (n : nat) (st : list Z) (ws : list Z) : list Z :=
  match n with
  | O => st
  | S n' => absorb n' (compress st (firstn 16 ws)) (skipn 16 ws)
  end.

Definition digest_words (msg : list Z) : list Z :=
  let ws := be_words (pad msg) in
  absorb (length ws / 16)%nat initial_state ws.

Definition hex_digit (d : Z) : ascii :=
  ascii_of_N (Z.to_N (if d <? 10 then 48 + d else 87 + d)).

Definition hex_of_word (w : Z) : list ascii :=
  map (fun i => hex_digit (Z.land (Z.shiftr w (4 * Z.of_nat i)) 15))
      (rev (seq 0 8)).

Definition bytes_of_string (s : string) : list Z :=
  map (fun c => Z.of_N (N_of_ascii c)) (list_ascii_of_string s).

(** [hashlib.sha256(b).hexdigest()] on the bytes [b] that [encode]
    gives. *)
Definition hexdigest (s : string) : string :=
  string_of_list_ascii
    (concat (map hex_of_word (digest_words (bytes_of_string s)))).

(** The shape of a hash state: eight 32-bit words. *)
Definition is_state (l : list Z) : Prop :=
  length l = 8%nat /\ Forall (fun w => 0 <= w < 2 ^ 32) l.

End SHA256.

(* ===================================================================== *)
(** * Python values                                                       *)
(* ===================================================================== *)

(** Exceptions that the embedded code can raise. *)
Inductive exn : Type :=
| KeyError (key : string)
| IndexError
| ZeroDivisionError
| OverflowError
| ValueError (msg : string)
| TypeError (msg : string)
| UnicodeEncodeError
| Exception (msg : string).

(** A call that only reads the state returns a value or raises. *)
Inductive result (A : Type) : Type :=
| Ok (a : A)
| Error (e : exn).
Arguments Ok {A} a.
Arguments Error {A} e.

(** A lone surrogate, U+D800 to U+DFFF, in a [str]: the byte [ED]
    followed by a byte from [A0] to [BF]. In the encoding of every other
    code point [ED] is followed by a byte from [80] to [9F]. *)
Fixpoint has_surrogate (s : string) : bool :=
  match s with
  | String c (String d _ as rest) =>
      ((Z.of_N (N_of_ascii c) =? 237)
       && (160 <=? Z.of_N (N_of_ascii d)) && (Z.of_N (N_of_ascii d) <=? 191))
      || has_surrogate rest
  | _ => false
  end.

(** [s.encode()]: the UTF-8 bytes, [UnicodeEncodeError] for a [str] that
    holds a lone surrogate. *)
Definition encode (s : string) : result string :=
  if has_surrogate s then Error UnicodeEncodeError else Ok s.

(** [len(s)]: the number of code points, each of which has one byte that
    is not a continuation byte ([80] to [BF]). *)
Fixpoint py_len (s : string) : Z :=
  match s with
  | EmptyString => 0
  | String c rest =>
      (if (128 <=? Z.of_N (N_of_ascii c)) && (Z.of_N (N_of_ascii c) <=? 191)
       then 0 else 1) + py_len rest
  end.

Module datetime.
(** [timestamp] is the reading of the calendar and clock fields;
    [utcoffset] is [None] for a naive value and the offset of the time
    zone for an aware one, both in the same unit. *)
Record t : Type := {
  timestamp : Z;
  utcoffset : option Z
}.

Definition naive (timestamp : Z) : t :=
  {| timestamp := timestamp; utcoffset := None |}.

(** [a > b]: two naive values compare by their fields, two aware values
    by the instants they denote, and one of each cannot be compared. *)
Definition gt (a b : t) : result bool :=
  match utcoffset a, utcoffset b with
  | None, None => Ok (timestamp a >? timestamp b)
  | Some oa, Some ob => Ok (timestamp a - oa >? timestamp b - ob)
  | _, _ =>
      Error (TypeError
               "can't compare offset-naive and offset-aware datetimes")
  end.
End datetime.

(** The float nearest to an integer (ties to even). *)
Definition float_of_int (z : Z) : float :=
  SF2Prim (binary_normalize prec emax z 0 false).

(** [float(z)] for an [int], as every mixed [int]/[float] operation does
    it: the nearest float, and [OverflowError] ([None]) where that is not
    finite. *)
Definition int_to_float (z : Z) : option float :=
  match binary_normalize prec emax z 0 false with
  | S754_infinity _ => None
  | _ => Some (float_of_int z)
  end.

(** [int(s, 16)] on a string of hexadecimal digits; [None] is Python's
    [ValueError]. *)
Definition hex_value (c : ascii) : option Z :=
  let n := Z.of_N (N_of_ascii c) in
  if (48 <=? n) && (n <=? 57) then Some (n - 48)
  else if (97 <=? n) && (n <=? 102) then Some (n - 87)
  else if (65 <=? n) && (n <=? 70) then Some (n - 55)
  else None.

Fixpoint int_base16_from (acc : Z) (s : string) : option Z :=
  match s with
  | EmptyString => Some acc
  | String c s' =>
      match hex_value c with
      | Some d => int_base16_from (16 * acc + d) s'
      | None => None
      end
  end.

Definition int_base16 (s : string) : option Z :=
  match s with
  | EmptyString => None
  | _ => int_base16_from 0 s
  end.

(** An insertion-ordered [dict] with [str] keys: a new key goes to the
    end, an assignment to a key that is present keeps its position. *)
Module odict.
Definition t (V : Type) : Type := list (string * V).

Definition empty {V : Type} : t V := [].

Fixpoint get {V : Type} (d : t V) (k : string) : option V :=
  match d with
  | [] => None
  | (k', v) :: d' => if String.eqb k' k then Some v else get d' k
  end.

Fixpoint set {V : Type} (d : t V) (k : string) (v : V) : t V :=
  match d with
  | [] => [(k, v)]
  | (k', v') :: d' =>
      if String.eqb k' k then (k', v) :: d' else (k', v') :: set d' k v
  end.

Definition keys {V : Type} (d : t V) : list string := map fst d.
Definition values {V : Type} (d : t V) : list V := map snd d.
Definition items {V : Type} (d : t V) : list (string * V) := d.
End odict.

(** [sum(xs)] of floats: the additions run left to right from [0].
    (CPython 3.12 and later carry a compensation term along, which can move
    the total by one unit in the last place.) *)
Definition py_sum (xs : list float) : float :=
  fold_left PrimFloat.add xs 0%float.

(* ===================================================================== *)
(** * [models.py]                                                         *)
(* ===================================================================== *)

Module Message.
Record t : Type := {
  role : string;
  content : string
}.
End Message.

Module ExperimentVariant.
Record t : Type := {
  variant_id : string;
  name : string;
  provider : string;
  model : string;
  temperature : float;
  max_tokens : option Z;
  system_prompt : option string
}.
End ExperimentVariant.

Module Experiment.
Record t : Type := {
  experiment_id : string;
  name : string;
  description : string;
  variants : list ExperimentVariant.t;
  traffic_split : odict.t float;
  start_date : datetime.t;
  end_date : option datetime.t;
  is_active : bool
}.
End Experiment.

Module ExperimentMetrics.
Record t : Type := {
  variant_id : string;
  total_requests : Z;
  total_tokens : Z;
  total_cost : float;
  avg_latency_ms : float;
  error_rate : float;
  user_satisfaction : option float
}.

(** [ExperimentMetrics(variant_id=v)]: every other field at its default. *)
Definition new (v : string) : t :=
  {| variant_id := v; total_requests := 0; total_tokens := 0;
     total_cost := 0%float; avg_latency_ms := 0%float;
     error_rate := 0%float; user_satisfaction := None |}.
End ExperimentMetrics.

Module ChatResponse.
(** The fields of [message] and [usage] that the code under study reads
    are kept flat. *)
Record t : Type := {
  message : Message.t;
  total_tokens : Z;
  estimated_cost : float;
  provider : string;
  model : string;
  finish_reason : option string
}.
End ChatResponse.

Module StreamChunk.
Record t : Type := {
  delta : string;
  finish_reason : option string
}.
End StreamChunk.

(** Objects that are shared by reference live in a heap and are named by
    their address. *)
Definition loc : Type := nat.

Module ChatRequest.
(** [messages] names a list object: [request.messages.insert] updates
    that object, whoever holds it. *)
Record t : Type := {
  messages : loc;
  model : option string;
  provider : option string;
  stream : bool;
  max_tokens : option Z;
  temperature : option float;
  tools : option (list string);
  user_id : option string;
  session_id : option string;
  experiment_id : option string
}.
End ChatRequest.

(* ===================================================================== *)
(** * [ab_testing.py]                                                     *)
(* ===================================================================== *)

Module ABTestingManager.

(** The attributes of the manager. [metrics] is a [defaultdict(dict)]:
    a membership test leaves it alone, an item access creates a missing
    row dictionary. *)
Record t : Type := {
  experiments : gmap string Experiment.t;
  metrics : gmap string (odict.t ExperimentMetrics.t);
  salt : string
}.

(** [ABTestingManager()] with [settings.ab_test_salt = s]. *)
Definition init (s : string) : t :=
  {| experiments := ∅; metrics := ∅; salt := s |}.

Definition with_metrics (self : t)
    (ms : gmap string (odict.t ExperimentMetrics.t)) : t :=
  {| experiments := experiments self; metrics := ms; salt := salt self |}.

(** A call that can write the state ends by returning or by raising; in
    both cases the state is the one it left behind. *)
Inductive effect : Type :=
| Returned (self' : t)
| Raised (e : exn) (self' : t).

(** What [create_experiment] hands to the logger. *)
Inductive log_record : Type :=
| LogInvalidTrafficSplit (total_traffic : float)
| LogVariantIdsMismatch
| LogCreated (experiment_id : string).

(** [self.metrics[experiment_id][variant_id] = m] *)
Definition metrics_setitem (ms : gmap string (odict.t ExperimentMetrics.t))
    (experiment_id variant_id : string) (m : ExperimentMetrics.t)
  : gmap string (odict.t ExperimentMetrics.t) :=
  <[experiment_id := odict.set (default odict.empty (ms !! experiment_id))
                               variant_id m]> ms.

Definition valid_total (total_traffic : float) : bool :=
  (PrimFloat.leb 0.99 total_traffic) && (PrimFloat.leb total_traffic 1.01).

Definition variant_id_set (e : Experiment.t) : gset string :=
  list_to_set (map ExperimentVariant.variant_id (Experiment.variants e)).

Definition split_id_set (e : Experiment.t) : gset string :=
  list_to_set (odict.keys (Experiment.traffic_split e)).

Definition init_metrics (experiment_id : string)
    (vs : list ExperimentVariant.t)
    (ms : gmap string (odict.t ExperimentMetrics.t))
  : gmap string (odict.t ExperimentMetrics.t) :=
  fold_left
    (fun acc variant =>
       metrics_setitem acc experiment_id
         (ExperimentVariant.variant_id variant)
         (ExperimentMetrics.new (ExperimentVariant.variant_id variant)))
    vs ms.

Definition create_experiment (self : t) (experiment : Experiment.t)
  : bool * log_record * t :=
  let total_traffic :=
    py_sum (odict.values (Experiment.traffic_split experiment)) in
  if negb (valid_total total_traffic) then
    (false, LogInvalidTrafficSplit total_traffic, self)
  else if bool_decide (variant_id_set experiment ≠ split_id_set experiment)
  then (false, LogVariantIdsMismatch, self)
  else
    let eid := Experiment.experiment_id experiment in
    (true, LogCreated eid,
     {| experiments := <[eid := experiment]> (experiments self);
        metrics := init_metrics eid (Experiment.variants experiment)
                                (metrics self);
        salt := salt self |}).

(** [hash_int % 10000] for the pair, or what [encode] and
    [int(.., 16)] raise. *)
Definition hash_bucket (self : t) (experiment_id user_id : string)
  : result Z :=
  let hash_input :=
    experiment_id +:+ ":" +:+ user_id +:+ ":" +:+ salt self in
  match encode hash_input with
  | Error e => Error e
  | Ok encoded =>
      let hash_value := SHA256.hexdigest encoded in
      match int_base16 (substring 0 16 hash_value) with
      | Some hash_int => Ok (hash_int mod 10000)
      | None => Error (ValueError "invalid literal for int() with base 16")
      end
  end.

(** The [for variant in experiment.variants] loop; [Ok None] when it
    runs to its end without a [return]. *)
Fixpoint assign_loop (traffic_split : odict.t float)
    (random_value cumulative : float) (vs : list ExperimentVariant.t)
  : result (option ExperimentVariant.t) :=
  match vs with
  | [] => Ok None
  | variant :: rest =>
      match odict.get traffic_split (ExperimentVariant.variant_id variant)
      with
      | None => Error (KeyError (ExperimentVariant.variant_id variant))
      | Some fraction =>
          let cumulative' := PrimFloat.add cumulative fraction in
          if PrimFloat.ltb random_value cumulative' then Ok (Some variant)
          else assign_loop traffic_split random_value cumulative' rest
      end
  end.

(** [experiment.end_date and now > experiment.end_date], [now] being the
    naive reading of [datetime.utcnow()]. *)
Definition ended (now : Z) (experiment : Experiment.t) : result bool :=
  match Experiment.end_date experiment with
  | Some end_date => datetime.gt (datetime.naive now) end_date
  | None => Ok false
  end.

Definition assign_variant (self : t) (now : Z)
    (experiment_id user_id : string)
  : result (option ExperimentVariant.t) :=
  match experiments self !! experiment_id with
  | None => Ok None
  | Some experiment =>
      if negb (Experiment.is_active experiment) then Ok None
      else
        match ended now experiment with
        | Error e => Error e
        | Ok true => Ok None
        | Ok false =>
            match hash_bucket self experiment_id user_id with
            | Error e => Error e
            | Ok bucket =>
                match int_to_float bucket with
                | None => Error OverflowError
                | Some b =>
                    let random_value := PrimFloat.div b 10000%float in
                    match assign_loop (Experiment.traffic_split experiment)
                            random_value 0%float
                            (Experiment.variants experiment)
                    with
                    | Error e => Error e
                    | Ok (Some variant) => Ok (Some variant)
                    | Ok None =>
                        match Experiment.variants experiment with
                        | first :: _ => Ok (Some first)
                        | [] => Error IndexError
                        end
                    end
                end
            end
        end
  end.

(** [self.metrics[experiment_id][variant_id]] written back after the
    object it names was updated in place. *)
Definition store_row (self : t) (experiment_id variant_id : string)
    (row : odict.t ExperimentMetrics.t) (m : ExperimentMetrics.t) : t :=
  with_metrics self
    (<[experiment_id := odict.set row variant_id m]> (metrics self)).

Definition error_increment (error : bool) : float :=
  if error then 1%float else 0%float.

Definition record_metrics (self : t) (experiment_id variant_id : string)
    (tokens : Z) (cost latency_ms : float) (error : bool) : effect :=
  match metrics self !! experiment_id with
  | None => Returned self
  | Some row =>
      match odict.get row variant_id with
      | None => Returned self
      | Some m =>
          let n := ExperimentMetrics.total_requests m in
          let m1 :=
            {| ExperimentMetrics.variant_id := ExperimentMetrics.variant_id m;
               ExperimentMetrics.total_requests := n + 1;
               ExperimentMetrics.total_tokens :=
                 ExperimentMetrics.total_tokens m + tokens;
               ExperimentMetrics.total_cost :=
                 PrimFloat.add (ExperimentMetrics.total_cost m) cost;
               ExperimentMetrics.avg_latency_ms :=
                 ExperimentMetrics.avg_latency_ms m;
               ExperimentMetrics.error_rate := ExperimentMetrics.error_rate m;
               ExperimentMetrics.user_satisfaction :=
                 ExperimentMetrics.user_satisfaction m |} in
          let raised e :=
            Raised e (store_row self experiment_id variant_id row m1) in
          match int_to_float n, int_to_float (n + 1) with
          | None, _ | _, None => raised OverflowError
          | Some fn, Some fn1 =>
              if n + 1 =? 0 then raised ZeroDivisionError
              else
                let avg :=
                  PrimFloat.div
                    (PrimFloat.add
                       (PrimFloat.mul (ExperimentMetrics.avg_latency_ms m) fn)
                       latency_ms)
                    fn1 in
                let error_count :=
                  PrimFloat.add
                    (PrimFloat.mul (ExperimentMetrics.error_rate m) fn)
                    (error_increment error) in
                Returned
                  (store_row self experiment_id variant_id row
                     {| ExperimentMetrics.variant_id :=
                          ExperimentMetrics.variant_id m;
                        ExperimentMetrics.total_requests := n + 1;
                        ExperimentMetrics.total_tokens :=
                          ExperimentMetrics.total_tokens m + tokens;
                        ExperimentMetrics.total_cost :=
                          PrimFloat.add (ExperimentMetrics.total_cost m) cost;
                        ExperimentMetrics.avg_latency_ms := avg;
                        ExperimentMetrics.error_rate :=
                          PrimFloat.div error_count fn1;
                        ExperimentMetrics.user_satisfaction :=
                          ExperimentMetrics.user_satisfaction m |})
          end
      end
  end.

Definition with_satisfaction (m : ExperimentMetrics.t) (s : float)
  : ExperimentMetrics.t :=
  {| ExperimentMetrics.variant_id := ExperimentMetrics.variant_id m;
     ExperimentMetrics.total_requests := ExperimentMetrics.total_requests m;
     ExperimentMetrics.total_tokens := ExperimentMetrics.total_tokens m;
     ExperimentMetrics.total_cost := ExperimentMetrics.total_cost m;
     ExperimentMetrics.avg_latency_ms := ExperimentMetrics.avg_latency_ms m;
     ExperimentMetrics.error_rate := ExperimentMetrics.error_rate m;
     ExperimentMetrics.user_satisfaction := Some s |}.

Definition record_satisfaction (self : t) (experiment_id variant_id : string)
    (score : float) : effect :=
  match metrics self !! experiment_id with
  | None => Returned self
  | Some row =>
      match odict.get row variant_id with
      | None => Returned self
      | Some m =>
          match ExperimentMetrics.user_satisfaction m with
          | None =>
              Returned (store_row self experiment_id variant_id row
                          (with_satisfaction m score))
          | Some old =>
              let n := ExperimentMetrics.total_requests m in
              match int_to_float (n - 1), int_to_float n with
              | None, _ | _, None => Raised OverflowError self
              | Some fp, Some fn =>
                  if n =? 0 then Raised ZeroDivisionError self
                  else
                    Returned
                      (store_row self experiment_id variant_id row
                         (with_satisfaction m
                            (PrimFloat.div
                               (PrimFloat.add (PrimFloat.mul old fp) score)
                               fn)))
              end
          end
      end
  end.

(** The per-variant dictionary that [get_experiment_results] builds. *)
Record variant_result : Type := {
  r_variant_id : string;
  r_total_requests : Z;
  r_total_tokens : Z;
  r_total_cost : float;
  r_avg_latency_ms : float;
  r_error_rate : float;
  r_user_satisfaction : option float
}.

Definition result_of (variant_id : string) (m : ExperimentMetrics.t)
  : variant_result :=
  {| r_variant_id := variant_id;
     r_total_requests := ExperimentMetrics.total_requests m;
     r_total_tokens := ExperimentMetrics.total_tokens m;
     r_total_cost := ExperimentMetrics.total_cost m;
     r_avg_latency_ms := ExperimentMetrics.avg_latency_ms m;
     r_error_rate := ExperimentMetrics.error_rate m;
     r_user_satisfaction := ExperimentMetrics.user_satisfaction m |}.

(** [results["variants"]] of [get_experiment_results], [None] for the
    ["error"] dictionary of an unknown experiment. The keys
    ["cost_per_request"] and ["statistical_analysis"] are left out:
    [get_winner] reads neither, and computing them writes nothing. The
    item access [self.metrics[experiment_id]] creates a missing row
    dictionary, hence the state in the result. *)
Definition get_experiment_results (self : t) (experiment_id : string)
  : option (odict.t variant_result) * t :=
  match experiments self !! experiment_id with
  | None => (None, self)
  | Some _ =>
      let variant_metrics :=
        default odict.empty (metrics self !! experiment_id) in
      let self' :=
        with_metrics self
          (<[experiment_id := variant_metrics]> (metrics self)) in
      (Some (fold_left
               (fun res kv => odict.set res (fst kv)
                                (result_of (fst kv) (snd kv)))
               (odict.items variant_metrics) odict.empty),
       self')
  end.

(** [min(x, 1)] of Python: the second argument replaces the first only
    when it is smaller. *)
Definition py_min_1 (x : float) : float :=
  if PrimFloat.ltb 1%float x then 1%float else x.

(** [metrics.get("user_satisfaction", 0.5) or 0.5]: the key is always
    there, and [or] takes its right operand for every falsy left one,
    that is for [None] and for a zero. *)
Definition satisfaction_or_default (s : option float) : float :=
  match s with
  | None => 0.5%float
  | Some x => if PrimFloat.eqb x 0%float then 0.5%float else x
  end.

Definition score (r : variant_result) : float :=
  PrimFloat.add
    (PrimFloat.add
       (PrimFloat.mul (PrimFloat.sub 1%float (r_error_rate r)) 0.4%float)
       (PrimFloat.mul
          (PrimFloat.sub 1%float
             (py_min_1 (PrimFloat.div (r_avg_latency_ms r) 5000%float)))
          0.3%float))
    (PrimFloat.mul (satisfaction_or_default (r_user_satisfaction r))
                   0.3%float).

Definition winner_step (best : option string * float)
    (kv : string * variant_result) : option string * float :=
  let s := score (snd kv) in
  if PrimFloat.ltb (snd best) s then (Some (fst kv), s) else best.

Definition get_winner (self : t) (experiment_id : string)
  : option string * t :=
  match get_experiment_results self experiment_id with
  | (None, self') => (None, self')
  | (Some variants, self') =>
      (fst (fold_left winner_step (odict.items variants)
                      (None, neg_infinity)),
       self')
  end.

Definition stop_experiment (self : t) (experiment_id : string) : t :=
  match experiments self !! experiment_id with
  | None => self
  | Some e =>
      {| experiments :=
           <[experiment_id :=
               {| Experiment.experiment_id := Experiment.experiment_id e;
                  Experiment.name := Experiment.name e;
                  Experiment.description := Experiment.description e;
                  Experiment.variants := Experiment.variants e;
                  Experiment.traffic_split := Experiment.traffic_split e;
                  Experiment.start_date := Experiment.start_date e;
                  Experiment.end_date := Experiment.end_date e;
                  Experiment.is_active := false |}]> (experiments self);
         metrics := metrics self;
         salt := salt self |}
  end.

End ABTestingManager.

(* ===================================================================== *)
(** * [providers/base.py] and [provider_manager.py]                       *)
(* ===================================================================== *)

Module BaseProvider.

(** What a provider call raises: [RateLimitError] has an [except] clause
    of its own, every other [Exception] falls into the second one. The
    string is [str(e)]. *)
Inductive failure : Type :=
| RateLimitError (msg : string)
| OtherError (msg : string).

Definition str (f : failure) : string :=
  match f with RateLimitError m => m | OtherError m => m end.

(** The keyword arguments of [complete] and [stream_complete]. *)
Record call : Type := {
  messages : list Message.t;
  model : string;
  max_tokens : option Z;
  temperature : float;
  tools : option (list string)
}.

Inductive completion : Type :=
| Completed (response : ChatResponse.t)
| Failed (f : failure).

(** A provider: its two properties, and what its two calls do on given
    arguments. A stream is the chunks it yields, then a normal end
    ([None]) or the exception that ends it. *)
Record t : Type := {
  name : string;
  supported_models : list string;
  complete : call -> completion;
  stream_complete : call -> list StreamChunk.t * option failure
}.

End BaseProvider.

Module ProviderManager.

Record t : Type := {
  providers : gmap string BaseProvider.t;
  fallback_order : list string
}.

(** One block of [_initialize_providers]:
    [self.providers[name] = provider; self.fallback_order.append(name)]. *)
Definition register (self : t) (provider : BaseProvider.t) : t :=
  {| providers :=
       <[BaseProvider.name provider := provider]> (providers self);
     fallback_order := fallback_order self ++ [BaseProvider.name provider] |}.

Definition empty : t := {| providers := ∅; fallback_order := [] |}.

(** What the caller of the two entry points observes besides the result:
    provider calls, the [asyncio.sleep] between them, and chunks handed
    downstream. *)
Inductive event : Type :=
| Call (prov_name provider_model : string)
| Sleep (wait_time : Z)
| Yield (chunk : StreamChunk.t).

Definition truthy (s : option string) : bool :=
  match s with
  | Some EmptyString | None => false
  | Some _ => true
  end.

Definition select_model_for_provider (provider : BaseProvider.t)
    (requested_model : option string) : result string :=
  let supported := BaseProvider.supported_models provider in
  let default :=
    match supported with
    | d :: _ => Ok d
    | [] => Error (ValueError ("No supported models for provider "
                               +:+ BaseProvider.name provider))
    end in
  match requested_model with
  | Some m =>
      if truthy requested_model && existsb (String.eqb m) supported
      then Ok m else default
  | None => default
  end.

Definition provider_order (self : t) (provider_name : option string)
  : list string :=
  match provider_name with
  | Some p =>
      if truthy provider_name
      then p :: List.filter (fun q => negb (String.eqb q p))
                         (fallback_order self)
      else fallback_order self
  | None => fallback_order self
  end.

Fixpoint join (sep : string) (l : list string) : string :=
  match l with
  | [] => ""
  | [x] => x
  | x :: rest => x +:+ sep +:+ join sep rest
  end.

(** [f"{last_error}"] *)
Definition str_last (last_error : option BaseProvider.failure) : string :=
  match last_error with
  | Some f => BaseProvider.str f
  | None => "None"
  end.

Definition all_failed (attempts : list string)
    (last_error : option BaseProvider.failure) : exn :=
  Exception ("All providers failed. Attempts: " +:+ join "; " attempts
             +:+ ". Last error: " +:+ str_last last_error).

Definition all_streaming_failed
    (last_error : option BaseProvider.failure) : exn :=
  Exception ("All streaming providers failed. Last error: "
             +:+ str_last last_error).

Definition wait_time (attempt : Z) : Z := Z.min (2 ^ attempt) 10.

Definition attempt_line (prov_name : string) (f : BaseProvider.failure)
  : string :=
  match f with
  | BaseProvider.RateLimitError _ => prov_name +:+ ": Rate limit exceeded"
  | BaseProvider.OtherError m => prov_name +:+ ": " +:+ m
  end.

(** The providers that were called, in the order of their calls. *)
Fixpoint called (evs : list event) : list string :=
  match evs with
  | [] => []
  | Call prov_name _ :: rest => prov_name :: called rest
  | _ :: rest => called rest
  end.

(** The chunks that went downstream, in order. *)
Fixpoint yielded (evs : list event) : list StreamChunk.t :=
  match evs with
  | [] => []
  | Yield chunk :: rest => chunk :: yielded rest
  | _ :: rest => yielded rest
  end.

Definition before {A : Type} (evs : list event) (r : list event * A)
  : list event * A :=
  (evs ++ fst r, snd r).

Section WithRequest.
Variable self : t.
Variable enable_fallback : bool.
Variable messages : list Message.t.
Variable model : option string.
Variable max_tokens : option Z.
Variable temperature : float.
Variable tools : option (list string).

Definition call_for (provider_model : string) : BaseProvider.call :=
  {| BaseProvider.messages := messages;
     BaseProvider.model := provider_model;
     BaseProvider.max_tokens := max_tokens;
     BaseProvider.temperature := temperature;
     BaseProvider.tools := tools |}.

(** The [for attempt, prov_name in enumerate(provider_order, 1)] loop of
    [complete_with_fallback] from position [attempt] on, followed by
    the [raise] after it; [total] is [len(provider_order)]. *)
Fixpoint complete_loop (total attempt : Z) (order : list string)
    (last_error : option BaseProvider.failure) (attempts : list string)
  : list event * result ChatResponse.t :=
  match order with
  | [] => ([], Error (all_failed attempts last_error))
  | prov_name :: rest =>
      match providers self !! prov_name with
      | None => complete_loop total (attempt + 1) rest last_error attempts
      | Some provider =>
          match select_model_for_provider provider model with
          | Error e => ([], Error e)
          | Ok provider_model =>
              match BaseProvider.complete provider (call_for provider_model)
              with
              | BaseProvider.Completed response =>
                  ([Call prov_name provider_model], Ok response)
              | BaseProvider.Failed f =>
                  let attempts' := attempts ++ [attempt_line prov_name f] in
                  if enable_fallback && (attempt <? total) then
                    before
                      (Call prov_name provider_model ::
                       match f with
                       | BaseProvider.RateLimitError _ =>
                           [Sleep (wait_time attempt)]
                       | BaseProvider.OtherError _ => []
                       end)
                      (complete_loop total (attempt + 1) rest (Some f)
                                     attempts')
                  else
                    ([Call prov_name provider_model],
                     Error (all_failed attempts' (Some f)))
              end
          end
      end
  end.

Definition complete_with_fallback (provider_name : option string)
  : list event * result ChatResponse.t :=
  let order := provider_order self provider_name in
  complete_loop (Z.of_nat (length order)) 1 order None [].

(** The same loop of [stream_with_fallback], the generator run to its
    end by its consumer. *)
Fixpoint stream_loop (total attempt : Z) (order : list string)
    (last_error : option BaseProvider.failure)
  : list event * result unit :=
  match order with
  | [] => ([], Error (all_streaming_failed last_error))
  | prov_name :: rest =>
      match providers self !! prov_name with
      | None => stream_loop total (attempt + 1) rest last_error
      | Some provider =>
          match select_model_for_provider provider model with
          | Error e => ([], Error e)
          | Ok provider_model =>
              let '(chunks, ending) :=
                BaseProvider.stream_complete provider
                  (call_for provider_model) in
              let sent := Call prov_name provider_model
                          :: map Yield chunks in
              match ending with
              | None => (sent, Ok tt)
              | Some f =>
                  if enable_fallback && (attempt <? total) then
                    before
                      (sent ++
                       match f with
                       | BaseProvider.RateLimitError _ =>
                           [Sleep (wait_time attempt)]
                       | BaseProvider.OtherError _ => []
                       end)
                      (stream_loop total (attempt + 1) rest (Some f))
                  else (sent, Error (all_streaming_failed (Some f)))
              end
          end
      end
  end.

Definition stream_with_fallback (provider_name : option string)
  : list event * result unit :=
  let order := provider_order self provider_name in
  stream_loop (Z.of_nat (length order)) 1 order None.

End WithRequest.

End ProviderManager.

(* ===================================================================== *)
(** * [main.py]: the variant override of [create_chat_completion]         *)
(* ===================================================================== *)

Module Main.

(** The objects the handler works on: request objects, and the list
    objects their [messages] attributes name. *)
Record heap : Type := {
  requests : gmap loc ChatRequest.t;
  lists : gmap loc (list Message.t)
}.

Definition truthy_int (z : option Z) : bool :=
  match z with
  | Some n => negb (n =? 0)
  | None => false
  end.

(** The four attribute assignments on [request]. *)
Definition set_fields (variant : ExperimentVariant.t) (req : ChatRequest.t)
  : ChatRequest.t :=
  {| ChatRequest.messages := ChatRequest.messages req;
     ChatRequest.model := Some (ExperimentVariant.model variant);
     ChatRequest.provider := Some (ExperimentVariant.provider variant);
     ChatRequest.stream := ChatRequest.stream req;
     ChatRequest.max_tokens :=
       if truthy_int (ExperimentVariant.max_tokens variant)
       then ExperimentVariant.max_tokens variant
       else ChatRequest.max_tokens req;
     ChatRequest.temperature := Some (ExperimentVariant.temperature variant);
     ChatRequest.tools := ChatRequest.tools req;
     ChatRequest.user_id := ChatRequest.user_id req;
     ChatRequest.session_id := ChatRequest.session_id req;
     ChatRequest.experiment_id := ChatRequest.experiment_id req |}.

Definition system_message (text : string) : Message.t :=
  {| Message.role := "system"; Message.content := text |}.

(** [request.messages.insert(0, system_msg)] when the variant has a
    system prompt, on the list object itself. *)
Definition insert_system_prompt (variant : ExperimentVariant.t)
    (messages : loc) (ls : gmap loc (list Message.t))
  : gmap loc (list Message.t) :=
  match ExperimentVariant.system_prompt variant with
  | Some text =>
      if ProviderManager.truthy (Some text)
      then alter (cons (system_message text)) messages ls
      else ls
  | None => ls
  end.

(** The body of [if variant:]. *)
Definition apply_variant (h : heap) (request : loc)
    (variant : ExperimentVariant.t) : heap :=
  match requests h !! request with
  | None => h
  | Some req =>
      {| requests := <[request := set_fields variant req]> (requests h);
         lists := insert_system_prompt variant (ChatRequest.messages req)
                                       (lists h) |}
  end.

(** Lines 185 to 206: the variant that was assigned, if any, and the
    heap the step leaves. An exception of [assign_variant] leaves the
    block before anything was written. *)
Definition assign_and_override (enable_ab_testing : bool)
    (ab_testing_manager : ABTestingManager.t) (now : Z)
    (h : heap) (request : loc)
  : result (option ExperimentVariant.t * heap) :=
  match requests h !! request with
  | None => Ok (None, h)
  | Some req =>
      if enable_ab_testing
         && ProviderManager.truthy (ChatRequest.experiment_id req)
         && ProviderManager.truthy (ChatRequest.user_id req)
      then
        match ABTestingManager.assign_variant ab_testing_manager now
                (default "" (ChatRequest.experiment_id req))
                (default "" (ChatRequest.user_id req))
        with
        | Error e => Error e
        | Ok None => Ok (None, h)
        | Ok (Some variant) =>
            Ok (Some variant, apply_variant h request variant)
        end
      else Ok (None, h)
  end.

End Main.

(* ===================================================================== *)
(** * The design document's wording, as definitions                       *)
(* ===================================================================== *)

Module Spec.

(** ** Variant assignment *)

(** The first 16 hexadecimal digits of a SHA-256 digest are its first
    64 bits: the first two 32-bit words, most significant first. *)
Definition hash_prefix (salt experiment_id user_id : string) : Z :=
  let ws := SHA256.digest_words
              (SHA256.bytes_of_string
                 (experiment_id +:+ ":" +:+ user_id +:+ ":" +:+ salt)) in
  nth 0 ws 0 * 2 ^ 32 + nth 1 ws 0.

(** Reduced modulo 10000 and divided by 10000. *)
Definition normalized (salt experiment_id user_id : string) : float :=
  PrimFloat.div
    (float_of_int (hash_prefix salt experiment_id user_id mod 10000))
    10000%float.


(** A check of the [n] integers from [z] on. *)
Fixpoint all_from (n : nat) (z : Z) (check : Z -> bool) : bool :=
  match n with
  | O => true
  | S n' => check z && all_from n' (z + 1) check
  end.

(** A bucket converts to a float, and its quotient by 10000 is at least 0
    and below 1. *)
Definition bucket_ok (bucket : Z) : bool :=
  match int_to_float bucket with
  | Some b =>
      PrimFloat.leb 0%float (PrimFloat.div b 10000%float)
      && PrimFloat.ltb (PrimFloat.div b 10000%float) 1%float
  | None => false
  end.

Definition fraction (e : Experiment.t) (v : ExperimentVariant.t) : float :=
  default 0%float
    (odict.get (Experiment.traffic_split e) (ExperimentVariant.variant_id v)).

(** The traffic-split fractions of the first [k] declared variants,
    accumulated in declared order. *)
Definition cumulative (e : Experiment.t) (k : nat) : float :=
  fold_left PrimFloat.add
    (map (fraction e) (firstn k (Experiment.variants e))) 0%float.

(** The first declared variant whose cumulative fraction strictly
    exceeds the value. *)
Definition first_exceeding (e : Experiment.t) (value : float)
  : option ExperimentVariant.t :=
  match
    List.find (fun k => PrimFloat.ltb value (cumulative e (S k)))
              (seq 0 (length (Experiment.variants e)))
  with
  | Some k => nth_error (Experiment.variants e) k
  | None => None
  end.

Definition assigned (salt : string) (e : Experiment.t)
    (experiment_id user_id : string) : option ExperimentVariant.t :=
  match first_exceeding e (normalized salt experiment_id user_id) with
  | Some v => Some v
  | None => head (Experiment.variants e)
  end.

(** ** Recording an outcome *)

(** The row after one more outcome: the count goes up by one, tokens and
    cost are added, and the two averages move by the online formulas
    [(old * n + x) / (n + 1)], where [n] is the count before the call and
    [fn], [fn1] are [n] and [n + 1] as floats. *)
Definition updated (m : ExperimentMetrics.t) (tokens : Z)
    (cost latency_ms : float) (is_error : bool) (fn fn1 : float)
  : ExperimentMetrics.t :=
  {| ExperimentMetrics.variant_id := ExperimentMetrics.variant_id m;
     ExperimentMetrics.total_requests :=
       ExperimentMetrics.total_requests m + 1;
     ExperimentMetrics.total_tokens :=
       ExperimentMetrics.total_tokens m + tokens;
     ExperimentMetrics.total_cost :=
       PrimFloat.add (ExperimentMetrics.total_cost m) cost;
     ExperimentMetrics.avg_latency_ms :=
       PrimFloat.div
         (PrimFloat.add
            (PrimFloat.mul (ExperimentMetrics.avg_latency_ms m) fn)
            latency_ms)
         fn1;
     ExperimentMetrics.error_rate :=
       PrimFloat.div
         (PrimFloat.add
            (PrimFloat.mul (ExperimentMetrics.error_rate m) fn)
            (if is_error then 1%float else 0%float))
         fn1;
     ExperimentMetrics.user_satisfaction :=
       ExperimentMetrics.user_satisfaction m |}.

(** ** Provider fail-over *)

(** The caller's provider first when one is given, then the remaining
    providers in registration order; the registration order otherwise. *)
Definition attempt_order (registration_order : list string)
    (preferred : option string) : list string :=
  match preferred with
  | Some p =>
      if ProviderManager.truthy preferred
      then p :: List.filter (fun q => bool_decide (q <> p))
                         registration_order
      else registration_order
  | None => registration_order
  end.

(** Bounded exponential backoff, only after a rate limit. *)
Definition backoff (attempt_number : Z) (f : BaseProvider.failure)
  : list ProviderManager.event :=
  match f with
  | BaseProvider.RateLimitError _ =>
      [ProviderManager.Sleep (Z.min (2 ^ attempt_number) 10)]
  | BaseProvider.OtherError _ => []
  end.

Inductive ending (A : Type) : Type :=
| Succeeds (a : A)
| Fails.
Arguments Succeeds {A} a.
Arguments Fails {A}.

Section Run.
Context {A : Type}.
(** [tries c evs r]: trying candidate [c] shows the events [evs] and
    ends with the result [inl a] or the failure [inr f]. *)
Variable tries :
  string -> list ProviderManager.event -> A + BaseProvider.failure -> Prop.
Variable fallback_enabled : bool.

(** [run n cs evs o]: working through the candidates [cs], the first of
    them being attempt number [n], shows [evs] and ends in [o]. *)
Inductive run : Z -> list string -> list ProviderManager.event ->
                ending A -> Prop :=
| run_success n c rest evs a :
    tries c evs (inl a) ->
    run n (c :: rest) evs (Succeeds a)
| run_next n c rest evs f evs' o :
    tries c evs (inr f) ->
    fallback_enabled = true ->
    rest <> [] ->
    run (n + 1) rest evs' o ->
    run n (c :: rest) (evs ++ backoff n f ++ evs') o
| run_stop n c rest evs f :
    tries c evs (inr f) ->
    fallback_enabled = false \/ rest = [] ->
    run n (c :: rest) evs Fails
| run_none n :
    run n [] [] Fails.
End Run.

(** How a run ends, as the value or the exception of the call. *)
Definition ends_in {A : Type} (o : ending A) (r : result A) : Prop :=
  match o with
  | Succeeds a => r = Ok a
  | Fails => exists msg, r = Error (Exception msg)
  end.

Section Tries.
Variable self : ProviderManager.t.
Variable messages : list Message.t.
Variable model : option string.
Variable max_tokens : option Z.
Variable temperature : float.
Variable tools : option (list string).

(** Trying a candidate for a completion: one call of its [complete], with
    the model chosen for it. *)
Definition tries_complete (c : string) (evs : list ProviderManager.event)
    (r : ChatResponse.t + BaseProvider.failure) : Prop :=
  exists provider provider_model,
    ProviderManager.providers self !! c = Some provider
    /\ ProviderManager.select_model_for_provider provider model
       = Ok provider_model
    /\ evs = [ProviderManager.Call c provider_model]
    /\ r = match BaseProvider.complete provider
                   (ProviderManager.call_for messages max_tokens temperature
                                             tools provider_model)
           with
           | BaseProvider.Completed response => inl response
           | BaseProvider.Failed f => inr f
           end.

(** Trying a candidate for a stream: one call of its [stream_complete],
    and every chunk it yields handed downstream. *)
Definition tries_stream (c : string) (evs : list ProviderManager.event)
    (r : unit + BaseProvider.failure) : Prop :=
  exists provider provider_model,
    ProviderManager.providers self !! c = Some provider
    /\ ProviderManager.select_model_for_provider provider model
       = Ok provider_model
    /\ evs = ProviderManager.Call c provider_model
             :: map ProviderManager.Yield
                    (BaseProvider.stream_complete provider
                       (ProviderManager.call_for messages max_tokens
                          temperature tools provider_model)).1
    /\ r = match (BaseProvider.stream_complete provider
                    (ProviderManager.call_for messages max_tokens
                       temperature tools provider_model)).2
           with
           | None => inl tt
           | Some f => inr f
           end.

(** A candidate that can be tried: it is registered and supports a
    model. *)
Definition usable (c : string) : Prop :=
  exists provider,
    ProviderManager.providers self !! c = Some provider
    /\ BaseProvider.supported_models provider <> [].
End Tries.

(** Every name of the attempt order can be tried: the registered providers
    support a model each and the caller's provider, if the caller names
    one, is registered (the completion handler checks it with
    [get_provider] before it calls the manager). *)
Definition well_configured (self : ProviderManager.t)
    (provider_name : option string) : Prop :=
  Forall (usable self) (ProviderManager.provider_order self provider_name).

(** In a streamed answer, no provider is called once a chunk went
    downstream. *)
Fixpoint no_call_after_yield (evs : list ProviderManager.event) : bool :=
  match evs with
  | [] => true
  | ProviderManager.Yield _ :: rest =>
      forallb (fun ev => match ev with
                         | ProviderManager.Call _ _ => false
                         | _ => true
                         end) rest
      && no_call_after_yield rest
  | _ :: rest => no_call_after_yield rest
  end.

(** ** Winner *)

(** The weighted score with a recorded satisfaction used as it is and
    0.5 standing in for one that was never recorded. *)
Definition score (r : ABTestingManager.variant_result) : float :=
  PrimFloat.add
    (PrimFloat.add
       (PrimFloat.mul 0.4%float
          (PrimFloat.sub 1%float (ABTestingManager.r_error_rate r)))
       (PrimFloat.mul 0.3%float
          (PrimFloat.sub 1%float
             (ABTestingManager.py_min_1
                (PrimFloat.div (ABTestingManager.r_avg_latency_ms r)
                               5000%float)))))
    (PrimFloat.mul 0.3%float
       (default 0.5%float (ABTestingManager.r_user_satisfaction r))).

End Spec.

(* ===================================================================== *)
(** * States of the experiment engine                                     *)
(* ===================================================================== *)

Module Engine.
Import ABTestingManager.

Definition state_of (o : effect) : t :=
  match o with
  | Returned s => s
  | Raised _ s => s
  end.

(** One call of a method of the manager. The engine is the only writer
    of the experiments it stores. *)
Inductive step : t -> t -> Prop :=
| step_create self e :
    step self (snd (create_experiment self e))
| step_record_metrics self eid vid tokens cost latency_ms error :
    step self
      (state_of (record_metrics self eid vid tokens cost latency_ms error))
| step_record_satisfaction self eid vid score :
    step self (state_of (record_satisfaction self eid vid score))
| step_results self eid :
    step self (snd (get_experiment_results self eid))
| step_winner self eid :
    step self (snd (get_winner self eid))
| step_stop self eid :
    step self (stop_experiment self eid).

Inductive reachable : t -> Prop :=
| reachable_init s : reachable (init s)
| reachable_step self self' :
    reachable self -> step self self' -> reachable self'.

(** The rows of one experiment after the metrics loop of
    [create_experiment] went through the variants [vs]. *)
Definition init_row (vs : list ExperimentVariant.t)
    (row : odict.t ExperimentMetrics.t) : odict.t ExperimentMetrics.t :=
  fold_left
    (fun acc v => odict.set acc (ExperimentVariant.variant_id v)
                    (ExperimentMetrics.new (ExperimentVariant.variant_id v)))
    vs row.

(** What registration has checked of an experiment. *)
Definition validated (e : Experiment.t) : Prop :=
  valid_total (py_sum (odict.values (Experiment.traffic_split e))) = true
  /\ variant_id_set e = split_id_set e.

Record inv (self : t) : Prop := {
  inv_validated :
    forall eid e, experiments self !! eid = Some e ->
                  Experiment.experiment_id e = eid /\ validated e;
  inv_rows :
    forall eid e, experiments self !! eid = Some e ->
                  exists row, metrics self !! eid = Some row;
  inv_known :
    forall eid row, metrics self !! eid = Some row ->
                    is_Some (experiments self !! eid);
  inv_counts :
    forall eid row vid m,
      metrics self !! eid = Some row -> odict.get row vid = Some m ->
      0 <= ExperimentMetrics.total_requests m
}.

End Engine.


(* ===================================================================== *)
(** * Sequences of calls, and the fixtures of [tests/test_ab_testing.py]  *)
(* ===================================================================== *)

Module Calls.
Import ABTestingManager.

(** One call after another; an exception ends the sequence. *)
Definition and_then (o : effect) (k : t -> effect) : effect :=
  match o with
  | Returned s => k s
  | Raised e s => Raised e s
  end.

(** The arguments of one [record_metrics] call, after the two ids. *)
Record outcome : Type := {
  tokens : Z;
  cost : float;
  latency_ms : float;
  error : bool
}.

(** [for o in outcomes: manager.record_metrics(experiment_id, variant_id, ..)] *)
Fixpoint record_each (self : t) (experiment_id variant_id : string)
    (outcomes : list outcome) : effect :=
  match outcomes with
  | [] => Returned self
  | o :: rest =>
      and_then
        (record_metrics self experiment_id variant_id
           (tokens o) (cost o) (latency_ms o) (error o))
        (fun self' => record_each self' experiment_id variant_id rest)
  end.

Definition row (self : t) (experiment_id variant_id : string)
  : option ExperimentMetrics.t :=
  match metrics self !! experiment_id with
  | Some r => odict.get r variant_id
  | None => None
  end.

End Calls.

Module Fixtures.
Import ABTestingManager.

Definition variant (variant_id provider model : string) (temperature : float)
    (system_prompt : option string) : ExperimentVariant.t :=
  {| ExperimentVariant.variant_id := variant_id;
     ExperimentVariant.name := variant_id;
     ExperimentVariant.provider := provider;
     ExperimentVariant.model := model;
     ExperimentVariant.temperature := temperature;
     ExperimentVariant.max_tokens := None;
     ExperimentVariant.system_prompt := system_prompt |}.

Definition control : ExperimentVariant.t :=
  variant "control" "openai" "gpt-4" 0.7%float None.

Definition variant_a : ExperimentVariant.t :=
  variant "variant_a" "anthropic" "claude-3-sonnet-20240229" 0.5%float
          (Some "Answer briefly.").

Definition variant_b : ExperimentVariant.t :=
  variant "variant_b" "openai" "gpt-3.5-turbo" 0.5%float None.

Definition experiment (variants : list ExperimentVariant.t)
    (traffic_split : odict.t float) : Experiment.t :=
  {| Experiment.experiment_id := "test_exp_1";
     Experiment.name := "Test Experiment";
     Experiment.description := "Testing different providers";
     Experiment.variants := variants;
     Experiment.traffic_split := traffic_split;
     Experiment.start_date := datetime.naive 1600000000;
     Experiment.end_date := None;
     Experiment.is_active := true |}.

(** [create_test_experiment()] *)
Definition test_experiment : Experiment.t :=
  experiment [control; variant_a]
             [("control", 0.5%float); ("variant_a", 0.5%float)].



(** The same experiment with a split that sums to 0.8, and to 1.2. *)
Definition low_split : Experiment.t :=
  experiment [control; variant_a]
             [("control", 0.3%float); ("variant_a", 0.5%float)].

Definition high_split : Experiment.t :=
  experiment [control; variant_a]
             [("control", 0.7%float); ("variant_a", 0.5%float)].

(** A second configuration under the same id: [variant_a] is gone,
    [variant_b] is new. *)
Definition second_experiment : Experiment.t :=
  experiment [control; variant_b]
             [("control", 0.5%float); ("variant_b", 0.5%float)].

Definition fresh : t := init "default-salt".

(** [setup_method] followed by [create_experiment(create_test_experiment())]. *)
Definition registered : t := (create_experiment fresh test_experiment).2.


Definition request (latency_ms : float) : Calls.outcome :=
  {| Calls.tokens := 100; Calls.cost := 0.01%float;
     Calls.latency_ms := latency_ms; Calls.error := false |}.

Definition five_requests : list Calls.outcome :=
  [request 500; request 600; request 700; request 800; request 900]%float.

(** One request for each variant. *)
Definition measured : t :=
  Engine.state_of
    (Calls.and_then
       (record_metrics registered "test_exp_1" "control"
                       100 0.01%float 400%float false)
       (fun s => record_metrics s "test_exp_1" "variant_a"
                                100 0.01%float 400%float false)).

(** Then a satisfaction score of 0.0 for [control] and of 0.4 for
    [variant_a]. *)
Definition rated : t :=
  Engine.state_of
    (Calls.and_then
       (record_satisfaction measured "test_exp_1" "control" 0%float)
       (fun s => record_satisfaction s "test_exp_1" "variant_a" 0.4%float)).

(** The loop of [test_get_winner]: [k] times an erroneous request of
    800 ms for [control] and a good one of 400 ms for [variant_a]. *)
Fixpoint contest (k : nat) (self : t) : effect :=
  match k with
  | O => Returned self
  | S k' =>
      Calls.and_then
        (record_metrics self "test_exp_1" "control"
                        100 0.01%float 800%float true)
        (fun s =>
           Calls.and_then
             (record_metrics s "test_exp_1" "variant_a"
                             100 0.01%float 400%float false)
             (contest k'))
  end.

Definition contested : t := Engine.state_of (contest 30 registered).

(** An azure provider was asked for, none is registered. *)
Definition preferred_missing : option string := Some "azure".

End Fixtures.

Module ProviderFixtures.
Import ProviderManager.

Definition answer (provider model text : string) : ChatResponse.t :=
  {| ChatResponse.message :=
       {| Message.role := "assistant"; Message.content := text |};
     ChatResponse.total_tokens := 12;
     ChatResponse.estimated_cost := 0.001%float;
     ChatResponse.provider := provider;
     ChatResponse.model := model;
     ChatResponse.finish_reason := Some "stop" |}.

Definition chunk (delta : string) : StreamChunk.t :=
  {| StreamChunk.delta := delta; StreamChunk.finish_reason := None |}.

(** A provider that behaves the same on every call. *)
Definition provider (name : string) (supported_models : list string)
    (completion : BaseProvider.completion)
    (stream : list StreamChunk.t * option BaseProvider.failure)
  : BaseProvider.t :=
  {| BaseProvider.name := name;
     BaseProvider.supported_models := supported_models;
     BaseProvider.complete := fun _ => completion;
     BaseProvider.stream_complete := fun _ => stream |}.

Definition openai_models : list string := ["gpt-4"; "gpt-3.5-turbo"].
Definition anthropic_models : list string :=
  ["claude-3-sonnet-20240229"; "claude-3-haiku-20240307"].

Definition hello : list Message.t :=
  [{| Message.role := "user"; Message.content := "Hello" |}].

(** A is rate limited, B answers. *)
Definition rate_limited_then_ok : t :=
  register
    (register empty
       (provider "openai" openai_models
          (BaseProvider.Failed
             (BaseProvider.RateLimitError "OpenAI rate limit exceeded: 429"))
          ([], Some (BaseProvider.RateLimitError
                       "OpenAI rate limit exceeded: 429"))))
    (provider "anthropic" anthropic_models
       (BaseProvider.Completed
          (answer "anthropic" "claude-3-sonnet-20240229" "Hi."))
       ([chunk "Hi"; chunk "."], None)).

(** Both providers fail, each for its own reason. *)
Definition both_failing : t :=
  register
    (register empty
       (provider "openai" openai_models
          (BaseProvider.Failed
             (BaseProvider.OtherError "OpenAI API error: connection reset"))
          ([], Some (BaseProvider.OtherError
                       "OpenAI API error: connection reset"))))
    (provider "anthropic" anthropic_models
       (BaseProvider.Failed
          (BaseProvider.OtherError "Anthropic API error: overloaded"))
       ([], Some (BaseProvider.OtherError
                    "Anthropic API error: overloaded"))).

(** The first provider's stream breaks after one chunk, the second
    provider streams a whole answer. *)
Definition breaks_mid_stream : t :=
  register
    (register empty
       (provider "openai" openai_models
          (BaseProvider.Failed
             (BaseProvider.OtherError "OpenAI API error: connection reset"))
          ([chunk "Hel"],
           Some (BaseProvider.OtherError
                   "OpenAI API error: connection reset"))))
    (provider "anthropic" anthropic_models
       (BaseProvider.Completed
          (answer "anthropic" "claude-3-sonnet-20240229" "Hello there."))
       ([chunk "Hello"; chunk " there."], None)).

End ProviderFixtures.

Module RequestFixtures.

(** The handler's request object at address 1, its message list at
    address 2, already holding a system message of the caller. *)
Definition request : ChatRequest.t :=
  {| ChatRequest.messages := 2%nat;
     ChatRequest.model := None;
     ChatRequest.provider := None;
     ChatRequest.stream := false;
     ChatRequest.max_tokens := Some 256;
     ChatRequest.temperature := Some 0.7%float;
     ChatRequest.tools := None;
     ChatRequest.user_id := Some "user_123";
     ChatRequest.session_id := None;
     ChatRequest.experiment_id := Some "test_exp_1" |}.

Definition conversation : list Message.t :=
  [{| Message.role := "system"; Message.content := "You are a support agent." |};
   {| Message.role := "user"; Message.content := "Where is my order?" |}].

Definition heap : Main.heap :=
  {| Main.requests := {[ 1%nat := request ]};
     Main.lists := {[ 2%nat := conversation ]} |}.

End RequestFixtures.

(* ===================================================================== *)
(** * More of the experiment engine                                       *)
(* ===================================================================== *)

Module Rows.
Import ABTestingManager.

(** A row dictionary as the engine builds it: no key twice, and every row
    carries the variant id it is stored under. *)
Definition well_formed (row : odict.t ExperimentMetrics.t) : Prop :=
  NoDup (odict.keys row)
  /\ forall k m, odict.get row k = Some m -> ExperimentMetrics.variant_id m = k.

Record inv (self : t) : Prop := {
  inv_cover :
    forall eid e v,
      experiments self !! eid = Some e -> In v (Experiment.variants e) ->
      exists m, Calls.row self eid (ExperimentVariant.variant_id v) = Some m;
  inv_well_formed :
    forall eid row, metrics self !! eid = Some row -> well_formed row
}.

(** Everything a row holds, the satisfaction average apart. *)
Definition counters (m : ExperimentMetrics.t)
  : string * Z * Z * float * float * float :=
  (ExperimentMetrics.variant_id m, ExperimentMetrics.total_requests m,
   ExperimentMetrics.total_tokens m, ExperimentMetrics.total_cost m,
   ExperimentMetrics.avg_latency_ms m, ExperimentMetrics.error_rate m).

(** The rows of an experiment as result dictionaries, one for one. *)
Definition listed (row : odict.t ExperimentMetrics.t)
  : odict.t variant_result :=
  map (fun kv => (kv.1, result_of kv.1 kv.2)) row.

End Rows.

(* ===================================================================== *)
(** * [provider_manager.py]: start-up and look-up                         *)
(* ===================================================================== *)

Module ProviderSetup.
Import ProviderManager.

(** The settings [provider_manager.py] reads. *)
Record settings : Type := {
  openai_api_key : option string;
  anthropic_api_key : option string;
  azure_openai_api_key : option string;
  azure_openai_endpoint : option string;
  default_provider : string
}.

(** The three provider classes as the manager uses them at start: the
    provider a constructor builds from its arguments, or [None] when the
    constructor raises. *)
Record classes : Type := {
  OpenAIProvider : string -> option BaseProvider.t;
  AnthropicProvider : string -> option BaseProvider.t;
  AzureOpenAIProvider : string -> string -> option BaseProvider.t
}.

(** The [try] block of one provider: both attributes are written when the
    constructor returns, none when it raises. *)
Definition try_register (name : string) (built : option BaseProvider.t)
    (self : t) : t :=
  match built with
  | Some provider =>
      {| providers := <[name := provider]> (providers self);
         fallback_order := fallback_order self ++ [name] |}
  | None => self
  end.

Inductive started : Type :=
| Started (self : t)
| RuntimeError (msg : string).

Definition _initialize_providers (s : settings) (c : classes) (self : t)
  : started :=
  let self :=
    match openai_api_key s with
    | Some key =>
        if truthy (Some key)
        then try_register "openai" (OpenAIProvider c key) self
        else self
    | None => self
    end in
  let self :=
    match anthropic_api_key s with
    | Some key =>
        if truthy (Some key)
        then try_register "anthropic" (AnthropicProvider c key) self
        else self
    | None => self
    end in
  let self :=
    match azure_openai_api_key s, azure_openai_endpoint s with
    | Some key, Some endpoint =>
        if truthy (Some key) && truthy (Some endpoint)
        then try_register "azure" (AzureOpenAIProvider c key endpoint) self
        else self
    | _, _ => self
    end in
  if bool_decide (providers self = ∅)
  then RuntimeError "No LLM providers configured"
  else Started self.

(** The name of a block that registered its provider. *)
Definition present (name : string) (built : option BaseProvider.t)
  : list string :=
  match built with Some _ => [name] | None => [] end.

(** [ProviderManager.__init__] *)
Definition init (s : settings) (c : classes) : started :=
  _initialize_providers s c empty.

(** [get_provider]. The keys of [self.providers] come in the order of
    their insertion, which is [fallback_order]: each block of
    [_initialize_providers] writes the two together. *)
Definition get_provider (self : t) (s : settings)
    (provider_name : option string) : result BaseProvider.t :=
  let provider_name :=
    match provider_name with
    | None => default_provider s
    | Some p => p
    end in
  match providers self !! provider_name with
  | None =>
      Error (ValueError
               ("Provider '" +:+ provider_name +:+ "' not available. "
                +:+ "Available providers: "
                +:+ join ", " (fallback_order self)))
  | Some provider => Ok provider
  end.

End ProviderSetup.

(** What a trace of the provider manager holds besides the calls. *)
Module Traces.
Import ProviderManager.

(** The seconds slept, in order. *)
Fixpoint slept (evs : list event) : list Z :=
  match evs with
  | [] => []
  | Sleep wait_time :: rest => wait_time :: slept rest
  | _ :: rest => slept rest
  end.

(** The chunks the provider of a call yields on the arguments of the
    call, up to the end or the failure of its stream. *)
Definition streamed (self : t) (messages : list Message.t)
    (max_tokens : option Z) (temperature : float)
    (tools : option (list string)) (ev : event) : list StreamChunk.t :=
  match ev with
  | Call prov_name provider_model =>
      match providers self !! prov_name with
      | Some provider =>
          (BaseProvider.stream_complete provider
             (call_for messages max_tokens temperature tools
                       provider_model)).1
      | None => []
      end
  | _ => []
  end.

(** What follows a failed call before the next candidate: the sleep of
    a rate limit, nothing otherwise. *)
Definition pause (attempt : Z) (f : BaseProvider.failure) : list event :=
  match f with
  | BaseProvider.RateLimitError _ => [Sleep (wait_time attempt)]
  | BaseProvider.OtherError _ => []
  end.

Definition registered (self : t) (prov_name : string) : Prop :=
  is_Some (providers self !! prov_name).

End Traces.

Module SetupFixtures.
Import ProviderManager ProviderSetup.

(** Only the OpenAI key is set; the default provider is the one of
    [config.py]. *)
Definition openai_only : settings :=
  {| openai_api_key := Some "sk-test";
     anthropic_api_key := None;
     azure_openai_api_key := None;
     azure_openai_endpoint := None;
     default_provider := "anthropic" |}.

Definition both_keys : settings :=
  {| openai_api_key := Some "sk-test";
     anthropic_api_key := Some "sk-ant-test";
     azure_openai_api_key := Some "azure-test";
     azure_openai_endpoint := None;
     default_provider := "anthropic" |}.

Definition working : classes :=
  {| OpenAIProvider := fun _ =>
       Some (ProviderFixtures.provider "openai"
               ProviderFixtures.openai_models
               (BaseProvider.Failed
                  (BaseProvider.RateLimitError
                     "OpenAI rate limit exceeded: 429"))
               ([], Some (BaseProvider.RateLimitError
                            "OpenAI rate limit exceeded: 429")));
     AnthropicProvider := fun _ =>
       Some (ProviderFixtures.provider "anthropic"
               ProviderFixtures.anthropic_models
               (BaseProvider.Completed
                  (ProviderFixtures.answer "anthropic"
                     "claude-3-sonnet-20240229" "Hi."))
               ([ProviderFixtures.chunk "Hi"; ProviderFixtures.chunk "."],
                None));
     AzureOpenAIProvider := fun _ _ => None |}.

Definition manager (s : settings) : t :=
  match init s working with
  | Started self => self
  | RuntimeError _ => empty
  end.

(** A provider whose class has no model at all, placed first. *)
Definition no_models : t :=
  register
    (register empty
       (ProviderFixtures.provider "openai" []
          (BaseProvider.Failed (BaseProvider.OtherError "unused"))
          ([], None)))
    (ProviderFixtures.provider "anthropic"
       ProviderFixtures.anthropic_models
       (BaseProvider.Completed
          (ProviderFixtures.answer "anthropic" "claude-3-sonnet-20240229"
                                   "Hi."))
       ([ProviderFixtures.chunk "Hi"], None)).

End SetupFixtures.

(* ===================================================================== *)
(** * [cost_optimizer.py]                                                 *)
(* ===================================================================== *)

(** [int(x)] of a float: the integer part, [OverflowError] for an
    infinity and [ValueError] for a NaN. *)
Definition int_of_float (x : float) : result Z :=
  match Prim2SF x with
  | S754_zero _ => Ok 0
  | S754_infinity _ => Error OverflowError
  | S754_nan =>
      Error (ValueError "cannot convert float NaN to integer")
  | S754_finite s m e =>
      let magnitude :=
        if 0 <=? e then Z.pos m * 2 ^ e else Z.pos m / 2 ^ (- e) in
      Ok (if s then - magnitude else magnitude)
  end.

(** [a / b] of two integers: the quotient rounded once to the nearest
    float. The quotient of the magnitudes is taken with enough binary
    digits and a sticky last bit, and rounded from there. *)
Definition true_divide (a b : Z) : result float :=
  if b =? 0 then Error ZeroDivisionError
  else
    let negative := xorb (a <? 0) (b <? 0) in
    if a =? 0 then Ok (if negative then (-0)%float else 0%float)
    else
      let k := Z.max 0 (Z.log2 (Z.abs b) - Z.log2 (Z.abs a) + 64) in
      let q := Z.abs a * 2 ^ k / Z.abs b in
      let sticky := if Z.abs a * 2 ^ k mod Z.abs b =? 0 then 0 else 1 in
      let m := 2 * q + sticky in
      match binary_normalize prec emax (if negative then - m else m)
                             (- k - 1) negative with
      | S754_infinity _ => Error OverflowError
      | x => Ok (SF2Prim x)
      end.

Module CostOptimizationResult.
(** The two lines of [recommendations] are texts for the reader and are
    left out. *)
Record t : Type := {
  original_tokens : Z;
  optimized_tokens : Z;
  savings_tokens : Z;
  savings_percent : float;
  action_taken : option string
}.
End CostOptimizationResult.

Module CostOptimizer.

(** [sum(count_tokens_fn(msg.content) for msg in messages)] *)
Definition total_tokens (count_tokens_fn : string -> Z)
    (messages : list Message.t) : Z :=
  fold_left (fun total msg => total + count_tokens_fn (Message.content msg))
            messages 0.

Definition is_system (msg : Message.t) : bool :=
  String.eqb (Message.role msg) "system".

(** [should_summarize] *)
Definition should_summarize (auto_summarize_threshold : Z)
    (messages : list Message.t) (count_tokens_fn : string -> Z) : bool :=
  auto_summarize_threshold <? total_tokens count_tokens_fn messages.

(** The first loop of [truncate_context]: the two lists it fills. *)
Definition separate (keep_system : bool) (messages : list Message.t)
  : list Message.t * list Message.t :=
  fold_left
    (fun lists msg =>
       if is_system msg && keep_system
       then (lists.1 ++ [msg], lists.2)
       else (lists.1, lists.2 ++ [msg]))
    messages ([], []).

(** The second loop, over [reversed(conversation_messages)]:
    [truncated.insert(0, msg)] while the message fits, [break] at the
    first one that does not. *)
Fixpoint keep_recent (count_tokens_fn : string -> Z) (remaining_tokens : Z)
    (reversed : list Message.t) (truncated : list Message.t)
    (current_tokens : Z) : list Message.t :=
  match reversed with
  | [] => truncated
  | msg :: rest =>
      let msg_tokens := count_tokens_fn (Message.content msg) in
      if current_tokens + msg_tokens <=? remaining_tokens
      then keep_recent count_tokens_fn remaining_tokens rest
                       (msg :: truncated) (current_tokens + msg_tokens)
      else truncated
  end.

Definition truncate_context (messages : list Message.t) (max_tokens : Z)
    (count_tokens_fn : string -> Z) (keep_system : bool)
  : list Message.t :=
  let '(system_messages, conversation_messages) :=
    separate keep_system messages in
  let system_tokens := total_tokens count_tokens_fn system_messages in
  let remaining_tokens := max_tokens - system_tokens in
  if remaining_tokens <=? 0 then
    match system_messages with
    | [] => []
    | _ => firstn 1 system_messages
    end
  else
    system_messages
    ++ keep_recent count_tokens_fn remaining_tokens
                   (rev conversation_messages) [] 0.

(** [int(original_tokens * (1 - target_reduction))] *)
Definition target_tokens (original_tokens : Z) (target_reduction : float)
  : result Z :=
  match int_to_float original_tokens with
  | None => Error OverflowError
  | Some original =>
      int_of_float
        (PrimFloat.mul original (PrimFloat.sub 1%float target_reduction))
  end.

(** Strategy 1 of [optimize_messages]: the first system message stays,
    the later ones go. *)
Definition remove_duplicate_system (messages : list Message.t)
  : list Message.t :=
  (fold_left
     (fun state msg =>
        if is_system msg then
          if negb state.2 then (state.1 ++ [msg], true) else state
        else (state.1 ++ [msg], state.2))
     messages ([], false)).1.

Definition optimize_messages (messages : list Message.t)
    (count_tokens_fn : string -> Z) (target_reduction : float)
  : result (list Message.t * CostOptimizationResult.t) :=
  let original_tokens := total_tokens count_tokens_fn messages in
  match target_tokens original_tokens target_reduction with
  | Error e => Error e
  | Ok target =>
      let optimized := remove_duplicate_system messages in
      let current_tokens := total_tokens count_tokens_fn optimized in
      let optimized :=
        if target <? current_tokens
        then truncate_context optimized target count_tokens_fn true
        else optimized in
      let optimized_tokens := total_tokens count_tokens_fn optimized in
      let savings := original_tokens - optimized_tokens in
      let percent :=
        if 0 <? original_tokens then
          match true_divide savings original_tokens with
          | Error e => Error e
          | Ok quotient => Ok (PrimFloat.mul quotient 100%float)
          end
        else Ok 0%float in
      match percent with
      | Error e => Error e
      | Ok savings_percent =>
          Ok (optimized,
              {| CostOptimizationResult.original_tokens := original_tokens;
                 CostOptimizationResult.optimized_tokens := optimized_tokens;
                 CostOptimizationResult.savings_tokens := savings;
                 CostOptimizationResult.savings_percent := savings_percent;
                 CostOptimizationResult.action_taken :=
                   Some "CONTEXT_TRUNCATION" |})
      end
  end.

End CostOptimizer.

Module CostFixtures.

(** [count_tokens] of the two providers: [len(text) // 4], a quarter of
    the number of code points. *)
Definition count_tokens (text : string) : Z := py_len text / 4.

Definition say (role content : string) : Message.t :=
  {| Message.role := role; Message.content := content |}.

Definition chat : list Message.t :=
  [say "system" "You are a support agent for the web shop.";
   say "user" "Where is my order? It was due last week.";
   say "system" "Answer in one short paragraph.";
   say "assistant" "Let me look that up for you right away.";
   say "user" "Thanks, the order number is 12345678."].

End CostFixtures.

(* ===================================================================== *)
(** * [main.py]: the two handlers and the metrics they record             *)
(* ===================================================================== *)

Module Handlers.
Import ABTestingManager.

(** What stands between the variant assignment and the bookkeeping of
    [create_chat_completion], lines 208 to 264 (the provider look-up, the
    context analysis, the cache, the completion with fallback and the
    tool calls), is taken by the way it ends: with the return of a cached
    response, with a response in hand, or with an exception. *)
Inductive middle : Type :=
| CacheHit (cached_response : ChatResponse.t)
| Answered (response : ChatResponse.t)
| Raises (e : exn).

(** How the handler ends: with its response, with the [HTTPException] of
    its [except] clause ([detail] is [str(e)]), or with an exception that
    leaves the [except] clause itself. *)
Inductive reply : Type :=
| Returns (response : ChatResponse.t)
| HTTPException (status_code : Z) (e : exn)
| Unhandled (e : exn).

(** [variant and request.experiment_id]: the two identifiers
    [record_metrics] is called with, when it is called. *)
Definition recorded_for (variant : option ExperimentVariant.t)
    (h : Main.heap) (request : loc) : option (string * string) :=
  match variant, Main.requests h !! request with
  | Some v, Some req =>
      match ChatRequest.experiment_id req with
      | Some experiment_id =>
          if ProviderManager.truthy (Some experiment_id)
          then Some (experiment_id, ExperimentVariant.variant_id v)
          else None
      | None => None
      end
  | _, _ => None
  end.

(** The [except Exception as e] clause, lines 280 to 295. *)
Definition on_exception (ab_testing_manager : t)
    (ids : option (string * string)) (latency_ms : float) (e : exn)
  : reply * t :=
  match ids with
  | Some (experiment_id, variant_id) =>
      match record_metrics ab_testing_manager experiment_id variant_id
                           0 0%float latency_ms true with
      | Returned ab => (HTTPException 500 e, ab)
      | Raised e' ab => (Unhandled e', ab)
      end
  | None => (HTTPException 500 e, ab_testing_manager)
  end.

(** [create_chat_completion] from the variant assignment on (line 185).
    [latency_ms] is the time passed when the response is recorded,
    [latency_ms_error] the time passed when the [except] clause
    records. *)
Definition create_chat_completion (enable_ab_testing : bool)
    (ab_testing_manager : t) (now : Z) (h : Main.heap) (request : loc)
    (rest : Main.heap -> middle) (latency_ms latency_ms_error : float)
  : reply * t * Main.heap :=
  match Main.assign_and_override enable_ab_testing ab_testing_manager now
                                 h request with
  | Error e =>
      (on_exception ab_testing_manager None latency_ms_error e, h)
  | Ok (variant, h') =>
      let ids := recorded_for variant h' request in
      match rest h' with
      | CacheHit cached_response =>
          (Returns cached_response, ab_testing_manager, h')
      | Answered response =>
          match ids with
          | Some (experiment_id, variant_id) =>
              match record_metrics ab_testing_manager experiment_id
                      variant_id (ChatResponse.total_tokens response)
                      (ChatResponse.estimated_cost response) latency_ms
                      false with
              | Returned ab => (Returns response, ab, h')
              | Raised e ab => (on_exception ab ids latency_ms_error e, h')
              end
          | None => (Returns response, ab_testing_manager, h')
          end
      | Raises e =>
          (on_exception ab_testing_manager ids latency_ms_error e, h')
      end
  end.

(** ** The streaming handler *)

(** The three attribute assignments of the generator, lines 328 to
    330. *)
Definition set_stream_fields (variant : ExperimentVariant.t)
    (req : ChatRequest.t) : ChatRequest.t :=
  {| ChatRequest.messages := ChatRequest.messages req;
     ChatRequest.model := Some (ExperimentVariant.model variant);
     ChatRequest.provider := Some (ExperimentVariant.provider variant);
     ChatRequest.stream := ChatRequest.stream req;
     ChatRequest.max_tokens := ChatRequest.max_tokens req;
     ChatRequest.temperature := Some (ExperimentVariant.temperature variant);
     ChatRequest.tools := ChatRequest.tools req;
     ChatRequest.user_id := ChatRequest.user_id req;
     ChatRequest.session_id := ChatRequest.session_id req;
     ChatRequest.experiment_id := ChatRequest.experiment_id req |}.

(** Lines 322 to 330. *)
Definition assign_and_override_stream (enable_ab_testing : bool)
    (ab_testing_manager : t) (now : Z) (h : Main.heap) (request : loc)
  : result (option ExperimentVariant.t * Main.heap) :=
  match Main.requests h !! request with
  | None => Ok (None, h)
  | Some req =>
      if enable_ab_testing
         && ProviderManager.truthy (ChatRequest.experiment_id req)
         && ProviderManager.truthy (ChatRequest.user_id req)
      then
        match assign_variant ab_testing_manager now
                (default "" (ChatRequest.experiment_id req))
                (default "" (ChatRequest.user_id req))
        with
        | Error e => Error e
        | Ok None => Ok (None, h)
        | Ok (Some variant) =>
            Ok (Some variant,
                {| Main.requests :=
                     <[request := set_stream_fields variant req]>
                       (Main.requests h);
                   Main.lists := Main.lists h |})
        end
      else Ok (None, h)
  end.

(** What the generator sends: a chunk, the error event, the done
    event. *)
Inductive sse : Type :=
| Data (chunk : StreamChunk.t)
| ErrorData (e : exn)
| Done.

(** [total_tokens] after the loop: the total of the last chunk that
    carried a usage, 0 when none did. [usage_total] is
    [chunk.usage.total_tokens] of a chunk with a usage. *)
Definition last_usage (usage_total : StreamChunk.t -> option Z)
    (chunks : list StreamChunk.t) : Z :=
  fold_left
    (fun total_tokens chunk =>
       match usage_total chunk with
       | Some total => total
       | None => total_tokens
       end)
    chunks 0.

(** [event_generator] from the variant assignment on, run to its end.
    [stream] is what [provider_manager.stream_with_fallback] yields for
    the request as it stands then, and how it ends. The last component
    is the exception that leaves the generator, if one does. *)
Definition event_generator (enable_ab_testing : bool)
    (ab_testing_manager : t) (now : Z) (h : Main.heap) (request : loc)
    (stream : Main.heap -> list StreamChunk.t * option exn)
    (usage_total : StreamChunk.t -> option Z) (latency_ms : float)
  : list sse * t * Main.heap * option exn :=
  let finally (events : list sse) (variant : option ExperimentVariant.t)
              (h' : Main.heap) (total_tokens : Z) (error_occurred : bool) :=
    match recorded_for variant h' request with
    | Some (experiment_id, variant_id) =>
        match record_metrics ab_testing_manager experiment_id variant_id
                             total_tokens 0%float latency_ms error_occurred
        with
        | Returned ab => (events ++ [Done], ab, h', None)
        | Raised e ab => (events, ab, h', Some e)
        end
    | None => (events ++ [Done], ab_testing_manager, h', None)
    end in
  match assign_and_override_stream enable_ab_testing ab_testing_manager now
                                   h request with
  | Error e => finally [ErrorData e] None h 0 true
  | Ok (variant, h') =>
      let '(chunks, ending) := stream h' in
      let total_tokens := last_usage usage_total chunks in
      match ending with
      | None => finally (map Data chunks) variant h' total_tokens false
      | Some e =>
          finally (map Data chunks ++ [ErrorData e]) variant h'
                  total_tokens true
      end
  end.

(** The request count of a metrics row. *)
Definition counted (self : t) (experiment_id variant_id : string)
  : option Z :=
  option_map ExperimentMetrics.total_requests
             (Calls.row self experiment_id variant_id).

End Handlers.
(* ===================================================================== *)
(** * Facts about the Python values                                       *)
(* ===================================================================== *)

Module odict_facts.
Import odict.

Lemma get_set_eq {V : Type} (d : t V) k v : get (set d k v) k = Some v.
Proof.
  induction d as [|[k' v'] d IH]; simpl.
  - now rewrite String.eqb_refl.
  - destruct (String.eqb k' k) eqn:E; simpl; rewrite E; auto.
Qed.

Lemma get_set_ne {V : Type} (d : t V) k k' v :
  k <> k' -> get (set d k v) k' = get d k'.
Proof.
  intros Hne. induction d as [|[k0 v0] d IH]; simpl.
  - destruct (String.eqb k k') eqn:E; auto.
    apply String.eqb_eq in E. contradiction.
  - destruct (String.eqb k0 k) eqn:E; simpl.
    + apply String.eqb_eq in E. subst k0.
      destruct (String.eqb k k') eqn:E'; auto.
      apply String.eqb_eq in E'. contradiction.
    + now rewrite IH.
Qed.

Lemma get_some_in_keys {V : Type} (d : t V) k v :
  get d k = Some v -> In k (keys d).
Proof.
  induction d as [|[k' v'] d IH]; simpl; [discriminate|].
  destruct (String.eqb k' k) eqn:E; intros H.
  - left. now apply String.eqb_eq.
  - right. auto.
Qed.

Lemma in_keys_get {V : Type} (d : t V) k :
  In k (keys d) -> exists v, get d k = Some v.
Proof.
  induction d as [|[k' v'] d IH]; simpl; [tauto|].
  intros [->|Hin].
  - rewrite String.eqb_refl. eauto.
  - destruct (String.eqb k' k); eauto.
Qed.

(** Assigning to a key that is present keeps the order of the keys. *)
Lemma keys_set_present {V : Type} (d : t V) k v v' :
  get d k = Some v' -> keys (set d k v) = keys d.
Proof.
  induction d as [|[k0 v0] d IH]; simpl; [discriminate|].
  destruct (String.eqb k0 k) eqn:E; simpl; intros H; auto.
  f_equal. auto.
Qed.

(** A new key goes to the end. *)
Lemma keys_set_absent {V : Type} (d : t V) k v :
  get d k = None -> keys (set d k v) = keys d ++ [k].
Proof.
  induction d as [|[k0 v0] d IH]; simpl; auto.
  destruct (String.eqb k0 k) eqn:E; simpl; intros H; [discriminate|].
  f_equal. auto.
Qed.
End odict_facts.

Module hex_facts.

Lemma hex_value_digit d :
  0 <= d < 16 -> hex_value (SHA256.hex_digit d) = Some d.
Proof.
  intros H.
  assert (d = 0 \/ d = 1 \/ d = 2 \/ d = 3 \/ d = 4 \/ d = 5 \/ d = 6
          \/ d = 7 \/ d = 8 \/ d = 9 \/ d = 10 \/ d = 11 \/ d = 12
          \/ d = 13 \/ d = 14 \/ d = 15) as Hd by lia.
  repeat (destruct Hd as [->|Hd]; [reflexivity|]). subst d. reflexivity.
Qed.

Lemma nibble_div w (i : nat) :
  Z.land (Z.shiftr w (4 * Z.of_nat i)) 15 = (w / 16 ^ Z.of_nat i) mod 16.
Proof.
  change 15 with (Z.ones 4). rewrite Z.land_ones by lia.
  rewrite Z.shiftr_div_pow2 by lia.
  rewrite Z.pow_mul_r by lia. reflexivity.
Qed.

Lemma nibble_range w (i : nat) :
  0 <= Z.land (Z.shiftr w (4 * Z.of_nat i)) 15 < 16.
Proof. rewrite nibble_div. apply Z.mod_pos_bound. lia. Qed.

Lemma trunc32_range x : 0 <= SHA256.trunc32 x < 2 ^ 32.
Proof.
  unfold SHA256.trunc32, SHA256.word_mask.
  change (2 ^ 32 - 1) with (Z.ones 32). rewrite Z.land_ones by lia.
  apply Z.mod_pos_bound. lia.
Qed.

(** Eight hexadecimal digits read back as the word they spell. *)
Lemma parse_hex_word acc w l :
  0 <= w < 2 ^ 32 ->
  int_base16_from acc (string_of_list_ascii (SHA256.hex_of_word w ++ l))
  = int_base16_from (acc * 2 ^ 32 + w) (string_of_list_ascii l).
Proof.
  intros Hw. unfold SHA256.hex_of_word.
  cbn [seq rev app map string_of_list_ascii int_base16_from].
  repeat rewrite (hex_value_digit _ (nibble_range w _)).
  f_equal. rewrite !nibble_div.
  change (16 ^ Z.of_nat 0) with 1. change (16 ^ Z.of_nat 1) with 16.
  change (16 ^ Z.of_nat 2) with 256. change (16 ^ Z.of_nat 3) with 4096.
  change (16 ^ Z.of_nat 4) with 65536.
  change (16 ^ Z.of_nat 5) with 1048576.
  change (16 ^ Z.of_nat 6) with 16777216.
  change (16 ^ Z.of_nat 7) with 268435456.
  change (2 ^ 32) with 4294967296 in *.
  rewrite Z.div_1_r.
  pose proof (Z.div_mod w 16 ltac:(lia)) as H0.
  pose proof (Z.div_mod (w / 16) 16 ltac:(lia)) as H1.
  rewrite (Z.div_div w 16 16) in H1 by lia.
  pose proof (Z.div_mod (w / 256) 16 ltac:(lia)) as H2.
  rewrite (Z.div_div w 256 16) in H2 by lia.
  pose proof (Z.div_mod (w / 4096) 16 ltac:(lia)) as H3.
  rewrite (Z.div_div w 4096 16) in H3 by lia.
  pose proof (Z.div_mod (w / 65536) 16 ltac:(lia)) as H4.
  rewrite (Z.div_div w 65536 16) in H4 by lia.
  pose proof (Z.div_mod (w / 1048576) 16 ltac:(lia)) as H5.
  rewrite (Z.div_div w 1048576 16) in H5 by lia.
  pose proof (Z.div_mod (w / 16777216) 16 ltac:(lia)) as H6.
  rewrite (Z.div_div w 16777216 16) in H6 by lia.
  pose proof (Z.div_mod (w / 268435456) 16 ltac:(lia)) as H7.
  rewrite (Z.div_div w 268435456 16) in H7 by lia.
  change (16 * 16) with 256 in *. change (256 * 16) with 4096 in *.
  change (4096 * 16) with 65536 in *.
  change (65536 * 16) with 1048576 in *.
  change (1048576 * 16) with 16777216 in *.
  change (16777216 * 16) with 268435456 in *.
  change (268435456 * 16) with 4294967296 in *.
  rewrite (Z.div_small w 4294967296) in H7 by lia.
  lia.
Qed.

Lemma substring_prefix (l1 l2 : list ascii) :
  substring 0 (length l1) (string_of_list_ascii (l1 ++ l2))
  = string_of_list_ascii l1.
Proof.
  induction l1 as [|c l1 IH]; simpl.
  - now destruct (string_of_list_ascii l2).
  - now rewrite IH.
Qed.

End hex_facts.

(** Test vectors of FIPS 180-4. *)
Example sha256_empty :
  SHA256.hexdigest "" =
  "e3b0c44298fc1c149afbf4c8996fb92427ae41e4649b934ca495991b7852b855"%string.
Proof. vm_compute. reflexivity. Qed.

Example sha256_abc :
  SHA256.hexdigest "abc" =
  "ba7816bf8f01cfea414140de5dae2223b00361a396177a9cb410ff61f20015ad"%string.
Proof. vm_compute. reflexivity. Qed.

Example sha256_two_blocks :
  SHA256.hexdigest "abcdbcdecdefdefgefghfghighijhijkijkljklmklmnlmnomnopnopq" =
  "248d6a61d20638b8e5c026930c3e6039a33ce45964ff2167f6ecedd419db06c1"%string.
Proof. vm_compute. reflexivity. Qed.

(* ===================================================================== *)
(** * The bucket of a user                                                *)
(* ===================================================================== *)

Module hash_facts.
Import SHA256 hex_facts.

Lemma initial_state_ok : is_state initial_state.
Proof.
  split; [reflexivity|].
  repeat constructor; vm_compute; congruence.
Qed.

Lemma compress_state st block : is_state st -> is_state (compress st block).
Proof.
  intros [Hlen _].
  do 9 (destruct st as [|? st]; try discriminate).
  unfold compress.
  destruct (fold_left round _ _) as [[[[[[[r0 r1] r2] r3] r4] r5] r6] r7].
  cbn [list_of combine map fst snd].
  split; [reflexivity|].
  repeat constructor; apply trunc32_range.
Qed.

Lemma absorb_state n : forall st ws, is_state st -> is_state (absorb n st ws).
Proof.
  induction n as [|n IH]; intros st ws H; simpl; auto using compress_state.
Qed.

Lemma digest_words_state msg : is_state (digest_words msg).
Proof. apply absorb_state, initial_state_ok. Qed.

(** Reading the first sixteen digits of the hexadecimal digest gives the
    first two words of the digest. *)
Lemma int_base16_hexdigest s :
  int_base16 (substring 0 16 (hexdigest s))
  = Some (nth 0 (digest_words (bytes_of_string s)) 0 * 2 ^ 32
          + nth 1 (digest_words (bytes_of_string s)) 0).
Proof.
  unfold hexdigest.
  destruct (digest_words_state (bytes_of_string s)) as [Hlen Hall].
  destruct (digest_words (bytes_of_string s)) as [|w0 [|w1 ws]];
    try discriminate.
  inversion Hall as [|? ? H0 Hall']; subst.
  inversion Hall' as [|? ? H1 _]; subst.
  cbn [map concat nth].
  rewrite app_assoc.
  change 16%nat with (length (hex_of_word w0 ++ hex_of_word w1)).
  rewrite substring_prefix.
  change (int_base16 (string_of_list_ascii (hex_of_word w0 ++ hex_of_word w1)))
    with (int_base16_from 0
            (string_of_list_ascii (hex_of_word w0 ++ hex_of_word w1))).
  rewrite parse_hex_word by assumption.
  rewrite <- (app_nil_r (hex_of_word w1)).
  rewrite parse_hex_word by assumption.
  reflexivity.
Qed.

(** A colon between two parts neither makes nor breaks a surrogate. *)
Lemma has_surrogate_after_colon b :
  has_surrogate (String ":" b) = has_surrogate b.
Proof. now destruct b. Qed.

Lemma has_surrogate_colon a b :
  has_surrogate (a +:+ ":" +:+ b) = has_surrogate a || has_surrogate b.
Proof.
  induction a as [|c a IH].
  - apply has_surrogate_after_colon.
  - destruct a as [|d a].
    + change (has_surrogate (String c EmptyString +:+ ":" +:+ b))
        with (((Z.of_N (N_of_ascii c) =? 237) && false && true)
              || has_surrogate (String ":" b)).
      rewrite andb_false_r. apply has_surrogate_after_colon.
    + change (has_surrogate (String c (String d a) +:+ ":" +:+ b))
        with (((Z.of_N (N_of_ascii c) =? 237)
               && (160 <=? Z.of_N (N_of_ascii d))
               && (Z.of_N (N_of_ascii d) <=? 191))
              || has_surrogate (String d a +:+ ":" +:+ b)).
      rewrite IH.
      change (has_surrogate (String c (String d a)))
        with (((Z.of_N (N_of_ascii c) =? 237)
               && (160 <=? Z.of_N (N_of_ascii d))
               && (Z.of_N (N_of_ascii d) <=? 191))
              || has_surrogate (String d a)).
      now rewrite orb_assoc.
Qed.

Lemma encode_hash_input salt experiment_id user_id :
  has_surrogate experiment_id = false ->
  has_surrogate user_id = false ->
  has_surrogate salt = false ->
  encode (experiment_id +:+ ":" +:+ user_id +:+ ":" +:+ salt)
  = Ok (experiment_id +:+ ":" +:+ user_id +:+ ":" +:+ salt).
Proof.
  intros He Hu Hs. unfold encode.
  now rewrite !has_surrogate_colon, He, Hu, Hs.
Qed.

Lemma encode_surrogate salt experiment_id user_id :
  has_surrogate experiment_id || has_surrogate user_id
  || has_surrogate salt = true ->
  encode (experiment_id +:+ ":" +:+ user_id +:+ ":" +:+ salt)
  = Error UnicodeEncodeError.
Proof.
  intros H. unfold encode.
  rewrite !has_surrogate_colon, orb_assoc. now rewrite H.
Qed.

Lemma hash_bucket_prefix self experiment_id user_id :
  has_surrogate experiment_id = false ->
  has_surrogate user_id = false ->
  has_surrogate (ABTestingManager.salt self) = false ->
  ABTestingManager.hash_bucket self experiment_id user_id
  = Ok (Spec.hash_prefix (ABTestingManager.salt self) experiment_id user_id
        mod 10000).
Proof.
  intros He Hu Hs.
  unfold ABTestingManager.hash_bucket, Spec.hash_prefix.
  rewrite (encode_hash_input _ _ _ He Hu Hs).
  now rewrite int_base16_hexdigest.
Qed.

Lemma hash_bucket_surrogate self experiment_id user_id :
  has_surrogate experiment_id || has_surrogate user_id
  || has_surrogate (ABTestingManager.salt self) = true ->
  ABTestingManager.hash_bucket self experiment_id user_id
  = Error UnicodeEncodeError.
Proof.
  intros H. unfold ABTestingManager.hash_bucket.
  now rewrite (encode_surrogate _ _ _ H).
Qed.

End hash_facts.

(* ===================================================================== *)
(** * Variant assignment                                                  *)
(* ===================================================================== *)

Module assign_facts.
Import ABTestingManager.

Lemma all_from_spec check : forall n z,
  Spec.all_from n z check = true ->
  forall k, z <= k < z + Z.of_nat n -> check k = true.
Proof.
  induction n as [|n IH]; intros z H k Hk; [lia|].
  cbn [Spec.all_from] in H. apply andb_true_iff in H. destruct H as [Hz Hn].
  destruct (Z.eq_dec k z) as [->|Hne]; [exact Hz|].
  apply (IH (z + 1) Hn). lia.
Qed.

(** The 10000 buckets, checked one by one. *)
Lemma buckets_ok : Spec.all_from (Z.to_nat 10000) 0 Spec.bucket_ok = true.
Proof. vm_compute. reflexivity. Qed.

Lemma int_to_float_some z f : int_to_float z = Some f -> f = float_of_int z.
Proof.
  unfold int_to_float.
  destruct (binary_normalize _ _ _ _ _); congruence.
Qed.

Lemma bucket_checked b : 0 <= b < 10000 -> Spec.bucket_ok b = true.
Proof.
  intros H. apply (all_from_spec _ _ _ buckets_ok). lia.
Qed.

Lemma int_to_float_bucket b :
  0 <= b < 10000 -> int_to_float b = Some (float_of_int b).
Proof.
  intros H. pose proof (bucket_checked b H) as Hok.
  unfold Spec.bucket_ok in Hok.
  destruct (int_to_float b) as [f|] eqn:E; [|discriminate].
  now rewrite (int_to_float_some b f E).
Qed.



(** Registration has seen a fraction for every declared variant. *)
Lemma validated_fraction e v :
  Engine.validated e -> In v (Experiment.variants e) ->
  exists f, odict.get (Experiment.traffic_split e)
                      (ExperimentVariant.variant_id v) = Some f.
Proof.
  intros [_ Hids] Hin.
  apply odict_facts.in_keys_get.
  apply list_elem_of_In.
  apply (elem_of_list_to_set (C := gset string)).
  fold (split_id_set e). rewrite <- Hids.
  unfold variant_id_set. apply elem_of_list_to_set, list_elem_of_In.
  now apply in_map.
Qed.

Lemma validated_nonempty e :
  Engine.validated e -> Experiment.variants e <> [].
Proof.
  intros [Hsum Hids] Hnil.
  unfold variant_id_set, split_id_set in Hids. rewrite Hnil in Hids.
  destruct (Experiment.traffic_split e) as [|[k f] d] eqn:E.
  - vm_compute in Hsum. discriminate.
  - simpl in Hids. set_solver.
Qed.

Lemma cumulative_snoc e pre v rest :
  Experiment.variants e = pre ++ v :: rest ->
  Spec.cumulative e (S (length pre))
  = PrimFloat.add (Spec.cumulative e (length pre)) (Spec.fraction e v).
Proof.
  intros E. unfold Spec.cumulative. rewrite E.
  replace (firstn (S (length pre)) (pre ++ v :: rest)) with (pre ++ [v]).
  - rewrite firstn_app, firstn_all, Nat.sub_diag. simpl.
    rewrite app_nil_r, map_app, fold_left_app. reflexivity.
  - replace (pre ++ v :: rest) with ((pre ++ [v]) ++ rest)
      by (now rewrite <- app_assoc).
    replace (S (length pre)) with (length (pre ++ [v]))
      by (rewrite length_app; simpl; lia).
    rewrite firstn_app, firstn_all, Nat.sub_diag. simpl.
    now rewrite app_nil_r.
Qed.

(** The loop of the code, started after the variants [pre], finds what a
    search through the remaining positions finds. *)
Lemma assign_loop_find e value : forall rest pre,
  Engine.validated e ->
  Experiment.variants e = pre ++ rest ->
  assign_loop (Experiment.traffic_split e) value
              (Spec.cumulative e (length pre)) rest
  = Ok match List.find
               (fun k => PrimFloat.ltb value (Spec.cumulative e (S k)))
               (seq (length pre) (length rest))
       with
       | Some k => nth_error (Experiment.variants e) k
       | None => None
       end.
Proof.
  induction rest as [|v rest IH]; intros pre Hval E; [reflexivity|].
  destruct (validated_fraction e v Hval) as [f Hf].
  { rewrite E. apply in_or_app. right. now left. }
  cbn [assign_loop length seq List.find]. rewrite Hf.
  assert (Spec.fraction e v = f) as Hfr by (unfold Spec.fraction; now rewrite Hf).
  rewrite (cumulative_snoc e pre v rest E), Hfr.
  destruct (PrimFloat.ltb value _) eqn:Hlt.
  - rewrite E, nth_error_app2, Nat.sub_diag by lia. reflexivity.
  - specialize (IH (pre ++ [v]) Hval).
    rewrite <- app_assoc in IH. specialize (IH E).
    rewrite length_app in IH. simpl in IH.
    rewrite Nat.add_1_r in IH.
    rewrite (cumulative_snoc e pre v rest E), Hfr in IH.
    exact IH.
Qed.

Lemma assign_loop_spec e value :
  Engine.validated e ->
  assign_loop (Experiment.traffic_split e) value 0%float
              (Experiment.variants e)
  = Ok (Spec.first_exceeding e value).
Proof.
  intros Hval.
  exact (assign_loop_find e value (Experiment.variants e) [] Hval eq_refl).
Qed.

(** What [assign_variant] returns for a validated, active experiment
    whose end-date test evaluates to false, on a hash input that can be
    encoded. *)
Lemma assign_variant_validated self now experiment_id user_id e :
  experiments self !! experiment_id = Some e ->
  Engine.validated e ->
  Experiment.is_active e = true ->
  ended now e = Ok false ->
  has_surrogate experiment_id = false ->
  has_surrogate user_id = false ->
  has_surrogate (salt self) = false ->
  exists v,
    assign_variant self now experiment_id user_id = Ok (Some v)
    /\ Spec.assigned (salt self) e experiment_id user_id = Some v.
Proof.
  intros He Hval Hact Hend Heid Huid Hsalt.
  unfold assign_variant. rewrite He, Hact, Hend. cbn [negb].
  rewrite (hash_facts.hash_bucket_prefix _ _ _ Heid Huid Hsalt).
  rewrite int_to_float_bucket by (apply Z.mod_pos_bound; lia).
  rewrite (assign_loop_spec e _ Hval).
  unfold Spec.assigned.
  fold (Spec.normalized (salt self) experiment_id user_id).
  destruct (Spec.first_exceeding e _) as [v|]; [eauto|].
  destruct (Experiment.variants e) as [|v0 vs] eqn:E.
  - now destruct (validated_nonempty e Hval).
  - simpl. eauto.
Qed.

(** The end-date test, case by case. *)
Lemma ended_cases now e :
  match Experiment.end_date e with
  | None => ended now e = Ok false
  | Some d =>
      match datetime.utcoffset d with
      | None => ended now e = Ok (now >? datetime.timestamp d)
      | Some _ =>
          ended now e
          = Error (TypeError
                     "can't compare offset-naive and offset-aware datetimes")
      end
  end.
Proof.
  unfold ended, datetime.gt.
  destruct (Experiment.end_date e) as [d|]; [|reflexivity].
  now destruct (datetime.utcoffset d).
Qed.

End assign_facts.

(* ===================================================================== *)
(** * Registration and the states of the engine                           *)
(* ===================================================================== *)

Module engine_facts.
Import ABTestingManager Engine.

Lemma init_metrics_other eid eid' : forall vs ms,
  eid' <> eid -> init_metrics eid vs ms !! eid' = ms !! eid'.
Proof.
  unfold init_metrics.
  induction vs as [|v vs IH]; intros ms Hne; simpl; [reflexivity|].
  rewrite IH by assumption. unfold metrics_setitem.
  now rewrite lookup_insert_ne.
Qed.

Lemma init_metrics_present eid : forall vs ms row,
  ms !! eid = Some row ->
  init_metrics eid vs ms !! eid = Some (init_row vs row).
Proof.
  unfold init_metrics, init_row.
  induction vs as [|v vs IH]; intros ms row Hrow; simpl; [assumption|].
  apply IH. unfold metrics_setitem. rewrite Hrow. cbn [default].
  apply lookup_insert_eq.
Qed.

(** The first assignment creates the row dictionary if there is none. *)
Lemma init_metrics_cons eid v vs ms :
  init_metrics eid (v :: vs) ms !! eid
  = Some (init_row (v :: vs) (default odict.empty (ms !! eid))).
Proof.
  pose proof (init_metrics_present eid vs
                (metrics_setitem ms eid (ExperimentVariant.variant_id v)
                   (ExperimentMetrics.new (ExperimentVariant.variant_id v)))
                _ (lookup_insert_eq _ _ _)) as H.
  exact H.
Qed.

Lemma init_row_stable k : forall vs row,
  odict.get row k = Some (ExperimentMetrics.new k) ->
  odict.get (init_row vs row) k = Some (ExperimentMetrics.new k).
Proof.
  unfold init_row.
  induction vs as [|v vs IH]; intros row H; simpl; [assumption|]. apply IH.
  destruct (string_dec (ExperimentVariant.variant_id v) k) as [->|Hne].
  - apply odict_facts.get_set_eq.
  - now rewrite odict_facts.get_set_ne.
Qed.

Lemma init_row_in v : forall vs row,
  In v vs ->
  odict.get (init_row vs row) (ExperimentVariant.variant_id v)
  = Some (ExperimentMetrics.new (ExperimentVariant.variant_id v)).
Proof.
  induction vs as [|v' vs IH]; intros row Hin; [destruct Hin|].
  destruct Hin as [->|Hin]; [|now apply IH].
  apply (init_row_stable _ vs), odict_facts.get_set_eq.
Qed.

Lemma init_row_not_in k : forall vs row,
  ~ In k (map ExperimentVariant.variant_id vs) ->
  odict.get (init_row vs row) k = odict.get row k.
Proof.
  induction vs as [|v vs IH]; intros row Hnin; [reflexivity|].
  simpl in Hnin.
  change (init_row (v :: vs) row)
    with (init_row vs (odict.set row (ExperimentVariant.variant_id v)
                         (ExperimentMetrics.new
                            (ExperimentVariant.variant_id v)))).
  rewrite IH by tauto.
  apply odict_facts.get_set_ne. tauto.
Qed.

Lemma init_row_cases vs row k m :
  odict.get (init_row vs row) k = Some m ->
  m = ExperimentMetrics.new k \/ odict.get row k = Some m.
Proof.
  intros H.
  destruct (in_dec string_dec k (map ExperimentVariant.variant_id vs))
    as [Hin|Hnin].
  - apply in_map_iff in Hin. destruct Hin as [v [<- Hin]].
    rewrite (init_row_in v vs row Hin) in H. left. congruence.
  - rewrite init_row_not_in in H by assumption. now right.
Qed.

(** A validated experiment is stored, and its metrics loop runs. *)
Lemma create_experiment_accepts self e :
  validated e ->
  create_experiment self e
  = (true, LogCreated (Experiment.experiment_id e),
     {| experiments :=
          <[Experiment.experiment_id e := e]> (experiments self);
        metrics := init_metrics (Experiment.experiment_id e)
                                (Experiment.variants e) (metrics self);
        salt := salt self |}).
Proof.
  intros [Hsum Hids]. unfold create_experiment.
  rewrite Hsum. cbn [negb].
  rewrite bool_decide_eq_false_2; [reflexivity|]. intros Hne. now apply Hne.
Qed.

Lemma create_experiment_cases self e :
  (create_experiment self e).2 = self
  \/ (validated e /\
      (create_experiment self e).2
      = {| experiments :=
             <[Experiment.experiment_id e := e]> (experiments self);
           metrics := init_metrics (Experiment.experiment_id e)
                                   (Experiment.variants e) (metrics self);
           salt := salt self |}).
Proof.
  destruct (valid_total
              (py_sum (odict.values (Experiment.traffic_split e)))) eqn:Hsum.
  - destruct (decide (variant_id_set e = split_id_set e)) as [Hids|Hids].
    + right. split; [now split|].
      now rewrite create_experiment_accepts by now split.
    + left. unfold create_experiment. rewrite Hsum. cbn [negb].
      now rewrite bool_decide_eq_true_2.
  - left. unfold create_experiment. now rewrite Hsum.
Qed.

Lemma inv_init s : inv (init s).
Proof.
  split; cbn [experiments metrics init]; intros *;
    rewrite ?lookup_empty; discriminate.
Qed.

Lemma inv_create self e : inv self -> inv (create_experiment self e).2.
Proof.
  intros [Hv Hr Hk Hc].
  destruct (create_experiment_cases self e) as [->|[Hval ->]];
    [now split|].
  destruct (Experiment.variants e) as [|v vs] eqn:Evs;
    [now destruct (assign_facts.validated_nonempty e Hval)|].
  split; cbn [experiments metrics].
  - intros eid e0. rewrite lookup_insert.
    case_decide as Heq; [|apply Hv].
    intros [= <-]. subst eid. now split.
  - intros eid e0. rewrite lookup_insert.
    case_decide as Heq.
    + intros _. subst eid. rewrite init_metrics_cons. eauto.
    + intros H. rewrite init_metrics_other by congruence. eauto.
  - intros eid row.
    destruct (decide (eid = Experiment.experiment_id e)) as [->|Hne].
    + intros _. rewrite lookup_insert_eq. eauto.
    + rewrite init_metrics_other, lookup_insert_ne by congruence. apply Hk.
  - intros eid row vid m.
    destruct (decide (eid = Experiment.experiment_id e)) as [->|Hne].
    + rewrite init_metrics_cons. intros [= <-] Hget.
      apply (init_row_cases (v :: vs)) in Hget.
      destruct Hget as [->|Hget]; [simpl; lia|].
      destruct (metrics self !! Experiment.experiment_id e) as [row0|] eqn:E.
      * cbn [default] in Hget. eapply Hc; eauto.
      * discriminate.
    + rewrite init_metrics_other by congruence. apply Hc.
Qed.

(** Writing a row of an experiment that has rows. *)
Lemma inv_store_row self eid vid row m m' :
  inv self ->
  metrics self !! eid = Some row ->
  odict.get row vid = Some m ->
  0 <= ExperimentMetrics.total_requests m' ->
  inv (store_row self eid vid row m').
Proof.
  intros [Hv Hr Hk Hc] Hrow Hget Hn.
  split; cbn [experiments metrics store_row with_metrics].
  - apply Hv.
  - intros eid0 e0 He0. rewrite lookup_insert. case_decide; eauto.
  - intros eid0 row0. rewrite lookup_insert. case_decide as Heq; [|apply Hk].
    intros _. subst eid0. eauto.
  - intros eid0 row0 vid0 m0. rewrite lookup_insert.
    case_decide as Heq; [|apply Hc].
    intros [= <-]. subst eid0.
    destruct (string_dec vid vid0) as [->|Hne].
    + rewrite odict_facts.get_set_eq. intros [= <-]. exact Hn.
    + rewrite odict_facts.get_set_ne by assumption. eapply Hc; eauto.
Qed.

Lemma inv_record_metrics self eid vid tokens cost latency_ms error :
  inv self ->
  inv (state_of (record_metrics self eid vid tokens cost latency_ms error)).
Proof.
  intros Hinv. unfold record_metrics.
  destruct (metrics self !! eid) as [row|] eqn:Hrow; [|assumption].
  destruct (odict.get row vid) as [m|] eqn:Hget; [|assumption].
  pose proof (inv_counts self Hinv eid row vid m Hrow Hget) as Hn.
  destruct (int_to_float (ExperimentMetrics.total_requests m));
    [destruct (int_to_float (ExperimentMetrics.total_requests m + 1));
     [destruct (_ =? 0)|]|];
    cbn [state_of]; eapply inv_store_row; eauto; cbn; lia.
Qed.

Lemma inv_record_satisfaction self eid vid score :
  inv self -> inv (state_of (record_satisfaction self eid vid score)).
Proof.
  intros Hinv. unfold record_satisfaction.
  destruct (metrics self !! eid) as [row|] eqn:Hrow; [|assumption].
  destruct (odict.get row vid) as [m|] eqn:Hget; [|assumption].
  pose proof (inv_counts self Hinv eid row vid m Hrow Hget) as Hn.
  destruct (ExperimentMetrics.user_satisfaction m).
  - destruct (int_to_float (ExperimentMetrics.total_requests m - 1));
      [destruct (int_to_float (ExperimentMetrics.total_requests m));
       [destruct (_ =? 0)|]|];
      cbn [state_of]; try assumption.
    eapply inv_store_row; eauto.
  - cbn [state_of]. eapply inv_store_row; eauto.
Qed.

(** In a state of the engine, reading the results writes nothing. *)
Lemma get_experiment_results_state self eid :
  inv self -> (get_experiment_results self eid).2 = self.
Proof.
  intros Hinv. unfold get_experiment_results.
  destruct (experiments self !! eid) as [e|] eqn:He; [|reflexivity].
  destruct (inv_rows self Hinv eid e He) as [row Hrow].
  cbn [snd]. rewrite Hrow. cbn [default]. unfold with_metrics.
  rewrite insert_id by assumption. now destruct self.
Qed.

Lemma get_winner_state self eid :
  inv self -> (get_winner self eid).2 = self.
Proof.
  intros Hinv. unfold get_winner.
  pose proof (get_experiment_results_state self eid Hinv) as H.
  destruct (get_experiment_results self eid) as [[res|] self']; exact H.
Qed.

Lemma inv_stop self eid : inv self -> inv (stop_experiment self eid).
Proof.
  intros Hinv. unfold stop_experiment.
  destruct (experiments self !! eid) as [e|] eqn:He; [|assumption].
  destruct Hinv as [Hv Hr Hk Hc].
  split; cbn [experiments metrics].
  - intros eid0 e0. rewrite lookup_insert.
    case_decide as Heq; [|apply Hv].
    intros [= <-]. subst eid0. apply (Hv eid e He).
  - intros eid0 e0. rewrite lookup_insert.
    case_decide as Heq; [|apply Hr].
    intros _. subst eid0. eauto.
  - intros eid0 row Hrow. rewrite lookup_insert. case_decide; eauto.
  - apply Hc.
Qed.

Lemma inv_step self self' : inv self -> step self self' -> inv self'.
Proof.
  intros Hinv Hstep. destruct Hstep.
  - now apply inv_create.
  - now apply inv_record_metrics.
  - now apply inv_record_satisfaction.
  - now rewrite get_experiment_results_state.
  - now rewrite get_winner_state.
  - now apply inv_stop.
Qed.

Lemma reachable_inv self : reachable self -> inv self.
Proof.
  induction 1 as [s|self self' _ IH Hstep];
    [apply inv_init | eauto using inv_step].
Qed.

End engine_facts.

(* ===================================================================== *)
(** * The experiment engine: properties                                   *)
(* ===================================================================== *)

Module ab_testing_properties.
Import ABTestingManager Engine.

Lemma fresh_reachable : reachable Fixtures.fresh.
Proof. apply reachable_init. Qed.

Lemma registered_reachable : reachable Fixtures.registered.
Proof.
  eapply reachable_step; [apply fresh_reachable | apply step_create].
Qed.




(** The user of the test suite falls into bucket 8393 and gets the second
    variant. *)
Example assign_user_123 :
  assign_variant Fixtures.registered 1700000000 "test_exp_1" "user_123"
  = Ok (Some Fixtures.variant_a).
Proof. vm_compute. reflexivity. Qed.

(** C5: [create_experiment] checks first that the traffic-split fractions
    sum to a total between 0.99 and 1.01, then that the variant ids of the
    split are exactly those of the variant list. When the first check
    fails it reports the total and returns [False]; when only the second
    fails it reports the mismatch and returns [False]; in both cases the
    state is the one it was called with. Otherwise it returns [True], the
    experiment is stored under its id, and the metrics of that id hold a
    zeroed row for every variant, every other row and every other
    experiment's metrics being as before. *)
Theorem create_experiment_validation self experiment :
  let total :=
    py_sum (odict.values (Experiment.traffic_split experiment)) in
  let eid := Experiment.experiment_id experiment in
  (valid_total total = false ->
   create_experiment self experiment
   = (false, LogInvalidTrafficSplit total, self))
  /\ (valid_total total = true ->
      variant_id_set experiment <> split_id_set experiment ->
      create_experiment self experiment
      = (false, LogVariantIdsMismatch, self))
  /\ (valid_total total = true ->
      variant_id_set experiment = split_id_set experiment ->
      exists self' row,
        create_experiment self experiment = (true, LogCreated eid, self')
        /\ experiments self' = <[eid := experiment]> (experiments self)
        /\ salt self' = salt self
        /\ metrics self' !! eid = Some row
        /\ (forall v, In v (Experiment.variants experiment) ->
              odict.get row (ExperimentVariant.variant_id v)
              = Some (ExperimentMetrics.new (ExperimentVariant.variant_id v)))
        /\ (forall k,
              ~ In k (map ExperimentVariant.variant_id
                          (Experiment.variants experiment)) ->
              odict.get row k
              = odict.get (default odict.empty (metrics self !! eid)) k)
        /\ (forall eid', eid' <> eid ->
              metrics self' !! eid' = metrics self !! eid')).
Proof.
  intros total eid. repeat split.
  - intros Hsum. unfold create_experiment. fold total. now rewrite Hsum.
  - intros Hsum Hids. unfold create_experiment. fold total.
    rewrite Hsum. cbn [negb]. now rewrite bool_decide_eq_true_2.
  - intros Hsum Hids.
    assert (validated experiment) as Hval by now split.
    rewrite (engine_facts.create_experiment_accepts self experiment Hval).
    destruct (Experiment.variants experiment) as [|v vs] eqn:Evs;
      [now destruct (assign_facts.validated_nonempty experiment Hval)|].
    eexists. eexists. split; [reflexivity|].
    cbn [experiments metrics salt].
    split; [reflexivity|]. split; [reflexivity|].
    split; [apply engine_facts.init_metrics_cons|].
    split; [|split].
    + intros v0 Hin. now apply engine_facts.init_row_in.
    + intros k Hk. now apply engine_facts.init_row_not_in.
    + intros eid' Hne. now apply engine_facts.init_metrics_other.
Qed.

(** A split that sums to 0.8 and one that sums to 1.2 are rejected, and
    the engine still has no metrics rows. *)
Example create_experiment_rejects_bad_sums :
  (create_experiment Fixtures.fresh Fixtures.low_split).1.1 = false
  /\ metrics (create_experiment Fixtures.fresh Fixtures.low_split).2 = ∅
  /\ (create_experiment Fixtures.fresh Fixtures.high_split).1.1 = false
  /\ metrics (create_experiment Fixtures.fresh Fixtures.high_split).2 = ∅.
Proof. repeat split; vm_compute; reflexivity. Qed.

(** One call on a row that exists, with a count that converts. *)
Lemma record_metrics_known self eid vid row m tokens cost latency_ms error
    fn fn1 :
  metrics self !! eid = Some row ->
  odict.get row vid = Some m ->
  0 <= ExperimentMetrics.total_requests m ->
  int_to_float (ExperimentMetrics.total_requests m) = Some fn ->
  int_to_float (ExperimentMetrics.total_requests m + 1) = Some fn1 ->
  record_metrics self eid vid tokens cost latency_ms error
  = Returned (store_row self eid vid row
                (Spec.updated m tokens cost latency_ms error fn fn1)).
Proof.
  intros Hrow Hget Hn Hfn Hfn1. unfold record_metrics.
  rewrite Hrow, Hget, Hfn, Hfn1.
  destruct (Z.eqb_spec (ExperimentMetrics.total_requests m + 1) 0) as [E|_];
    [lia|].
  reflexivity.
Qed.

Lemma row_store_row_eq self eid vid row m :
  Calls.row (store_row self eid vid row m) eid vid = Some m.
Proof.
  unfold Calls.row, store_row, with_metrics. cbn [metrics].
  rewrite lookup_insert_eq. apply odict_facts.get_set_eq.
Qed.

Lemma row_store_row_ne self eid vid row m eid' vid' :
  metrics self !! eid = Some row ->
  (eid', vid') <> (eid, vid) ->
  Calls.row (store_row self eid vid row m) eid' vid'
  = Calls.row self eid' vid'.
Proof.
  intros Hrow Hne. unfold Calls.row, store_row, with_metrics. cbn [metrics].
  destruct (decide (eid = eid')) as [<-|Hneq].
  - rewrite lookup_insert_eq, Hrow.
    apply odict_facts.get_set_ne. congruence.
  - now rewrite lookup_insert_ne.
Qed.

Lemma record_metrics_row self eid vid m tokens cost latency_ms error fn fn1 :
  Calls.row self eid vid = Some m ->
  0 <= ExperimentMetrics.total_requests m ->
  int_to_float (ExperimentMetrics.total_requests m) = Some fn ->
  int_to_float (ExperimentMetrics.total_requests m + 1) = Some fn1 ->
  exists self',
    record_metrics self eid vid tokens cost latency_ms error = Returned self'
    /\ Calls.row self' eid vid
       = Some (Spec.updated m tokens cost latency_ms error fn fn1).
Proof.
  unfold Calls.row. intros Hrow Hn Hfn Hfn1.
  destruct (metrics self !! eid) as [row|] eqn:E; [|discriminate].
  eexists. split.
  - eapply record_metrics_known; eauto.
  - apply row_store_row_eq.
Qed.

(** One more call of the loop of [record_each]: the row [R] before it,
    the count before it as the float [fn] and after it as [fn1]; the state
    and the row after it are named [s] and [R']. *)
Ltac record_step o fn fn1 R Hn s R' :=
  let H := fresh in
  destruct (record_metrics_row _ _ _ _ (Calls.tokens o) (Calls.cost o)
              (Calls.latency_ms o) (Calls.error o) fn fn1 R)
    as [s [H R']];
  [ cbn [Spec.updated ExperimentMetrics.total_requests]; rewrite Hn; lia
  | cbn [Spec.updated ExperimentMetrics.total_requests]; rewrite Hn;
    reflexivity
  | cbn [Spec.updated ExperimentMetrics.total_requests]; rewrite Hn;
    reflexivity
  | rewrite H; cbn [Calls.and_then] ].

(** Five outcomes with latencies 500, 600, 700, 800 and 900 on a row that
    starts at zero. *)
Lemma five_latencies self eid vid m outcomes :
  Calls.row self eid vid = Some m ->
  ExperimentMetrics.total_requests m = 0 ->
  ExperimentMetrics.avg_latency_ms m = 0%float ->
  map Calls.latency_ms outcomes = [500; 600; 700; 800; 900]%float ->
  exists self' m',
    Calls.record_each self eid vid outcomes = Returned self'
    /\ Calls.row self' eid vid = Some m'
    /\ ExperimentMetrics.avg_latency_ms m' = 700%float
    /\ ExperimentMetrics.total_requests m' = 5.
Proof.
  intros Hrow Hn Havg Hlat.
  destruct outcomes as [|o1 [|o2 [|o3 [|o4 [|o5 [|? ?]]]]]]; try discriminate.
  injection Hlat as L1 L2 L3 L4 L5.
  cbn [Calls.record_each].
  record_step o1 0%float 1%float Hrow Hn s1 R1.
  record_step o2 1%float 2%float R1 Hn s2 R2.
  record_step o3 2%float 3%float R2 Hn s3 R3.
  record_step o4 3%float 4%float R3 Hn s4 R4.
  record_step o5 4%float 5%float R4 Hn s5 R5.
  eexists. eexists. split; [reflexivity|]. split; [exact R5|].
  cbn [Spec.updated ExperimentMetrics.total_requests
       ExperimentMetrics.avg_latency_ms].
  rewrite Hn, Havg, L1, L2, L3, L4, L5. split; reflexivity.
Qed.

(** C6: on a row that exists, [record_metrics] returns; afterwards the
    request count of the row is one higher, tokens and cost are added to
    the totals, and the average latency and the error rate are
    (old * n + x) / (n + 1) with n the count before the call, x the latency,
    respectively 1 for an error and 0 otherwise (n and n + 1 taken as
    floats). Nothing else changes: not the experiments, not any other row.
    Consequently five calls with latencies 500, 600, 700, 800, 900 on a row
    that starts at zero leave an average latency of exactly 700 and a
    request count of 5. *)
Theorem record_metrics_online_update self eid vid m tokens cost latency_ms
    error fn fn1 :
  reachable self ->
  Calls.row self eid vid = Some m ->
  int_to_float (ExperimentMetrics.total_requests m) = Some fn ->
  int_to_float (ExperimentMetrics.total_requests m + 1) = Some fn1 ->
  (exists self',
     record_metrics self eid vid tokens cost latency_ms error = Returned self'
     /\ Calls.row self' eid vid
        = Some (Spec.updated m tokens cost latency_ms error fn fn1)
     /\ experiments self' = experiments self
     /\ salt self' = salt self
     /\ (forall eid' vid', (eid', vid') <> (eid, vid) ->
           Calls.row self' eid' vid' = Calls.row self eid' vid'))
  /\ (forall outcomes,
        ExperimentMetrics.total_requests m = 0 ->
        ExperimentMetrics.avg_latency_ms m = 0%float ->
        map Calls.latency_ms outcomes = [500; 600; 700; 800; 900]%float ->
        exists self' m',
          Calls.record_each self eid vid outcomes = Returned self'
          /\ Calls.row self' eid vid = Some m'
          /\ ExperimentMetrics.avg_latency_ms m' = 700%float
          /\ ExperimentMetrics.total_requests m' = 5).
Proof.
  intros Hreach Hrow Hfn Hfn1.
  split; [|intros outcomes; now apply five_latencies].
  pose proof (engine_facts.reachable_inv self Hreach) as Hinv.
  unfold Calls.row in Hrow.
  destruct (metrics self !! eid) as [row|] eqn:E; [|discriminate].
  pose proof (inv_counts self Hinv eid row vid m E Hrow) as Hn.
  eexists. split; [eapply record_metrics_known; eauto|].
  split; [apply row_store_row_eq|].
  split; [reflexivity|]. split; [reflexivity|].
  intros eid' vid' Hne. now apply row_store_row_ne.
Qed.

Lemma record_metrics_online_update_witness :
  exists self' m',
    Calls.record_each Fixtures.registered "test_exp_1" "control"
                      Fixtures.five_requests = Returned self'
    /\ Calls.row self' "test_exp_1" "control" = Some m'
    /\ ExperimentMetrics.avg_latency_ms m' = 700%float
    /\ ExperimentMetrics.total_requests m' = 5.
Proof.
  refine (proj2 (record_metrics_online_update
                   Fixtures.registered "test_exp_1" "control"
                   (ExperimentMetrics.new "control")
                   100 0.01%float 500%float false 0%float 1%float
                   registered_reachable _ _ _)
                Fixtures.five_requests _ _ _);
    vm_compute; reflexivity.
Defined.

(** [test_record_multiple_metrics], run. *)
Example five_requests_run :
  match Calls.record_each Fixtures.registered "test_exp_1" "control"
                          Fixtures.five_requests with
  | Returned s =>
      option_map
        (fun m => (ExperimentMetrics.total_requests m,
                   ExperimentMetrics.total_tokens m,
                   ExperimentMetrics.avg_latency_ms m,
                   ExperimentMetrics.error_rate m))
        (Calls.row s "test_exp_1" "control")
  | Raised _ _ => None
  end = Some (5, 500, 700%float, 0%float).
Proof. vm_compute. reflexivity. Qed.

(** C8: for an experiment id that was never registered, and for a variant
    id that has no row in the metrics of its experiment, [record_metrics]
    and [record_satisfaction] return without raising and hand back the
    very state they were called with: no experiment entry, no row
    dictionary and no row is created. *)
Theorem record_unknown_is_noop self eid vid tokens cost latency_ms error
    score :
  reachable self ->
  experiments self !! eid = None \/ Calls.row self eid vid = None ->
  record_metrics self eid vid tokens cost latency_ms error = Returned self
  /\ record_satisfaction self eid vid score = Returned self.
Proof.
  intros Hreach Hunknown.
  pose proof (engine_facts.reachable_inv self Hreach) as Hinv.
  assert (Calls.row self eid vid = None) as Hrow.
  { destruct Hunknown as [He|H]; [|exact H].
    unfold Calls.row.
    destruct (metrics self !! eid) as [row|] eqn:E; [|reflexivity].
    destruct (inv_known self Hinv eid row E) as [e He']. congruence. }
  unfold Calls.row in Hrow. unfold record_metrics, record_satisfaction.
  destruct (metrics self !! eid) as [row|]; [|now split].
  rewrite Hrow. now split.
Qed.

Lemma record_unknown_is_noop_witness :
  (record_metrics Fixtures.registered "no_such_experiment" "control"
                  100 0.01%float 500%float false
   = Returned Fixtures.registered
   /\ record_satisfaction Fixtures.registered "no_such_experiment" "control"
                          0.8%float
      = Returned Fixtures.registered)
  /\ (record_metrics Fixtures.registered "test_exp_1" "no_such_variant"
                     100 0.01%float 500%float false
      = Returned Fixtures.registered
      /\ record_satisfaction Fixtures.registered "test_exp_1"
                             "no_such_variant" 0.8%float
         = Returned Fixtures.registered).
Proof.
  split.
  - apply (record_unknown_is_noop Fixtures.registered "no_such_experiment"
             "control" 100 0.01%float 500%float false 0.8%float
             registered_reachable).
    left. vm_compute. reflexivity.
  - apply (record_unknown_is_noop Fixtures.registered "test_exp_1"
             "no_such_variant" 100 0.01%float 500%float false 0.8%float
             registered_reachable).
    right. vm_compute. reflexivity.
Defined.

(** C10: [create_experiment] with an id that is already registered and an
    experiment that passes validation returns [True] and stores the new
    experiment in place of the old one; every variant of the new
    configuration gets a zeroed row, whatever its row held before, and a
    row whose variant id the new configuration no longer has stays in the
    metrics with what it had accumulated. *)
Theorem create_experiment_replaces self experiment old row :
  experiments self !! Experiment.experiment_id experiment = Some old ->
  metrics self !! Experiment.experiment_id experiment = Some row ->
  validated experiment ->
  exists self' row',
    create_experiment self experiment
    = (true, LogCreated (Experiment.experiment_id experiment), self')
    /\ experiments self' !! Experiment.experiment_id experiment
       = Some experiment
    /\ metrics self' !! Experiment.experiment_id experiment = Some row'
    /\ (forall v, In v (Experiment.variants experiment) ->
          odict.get row' (ExperimentVariant.variant_id v)
          = Some (ExperimentMetrics.new (ExperimentVariant.variant_id v)))
    /\ (forall k m,
          ~ In k (map ExperimentVariant.variant_id
                      (Experiment.variants experiment)) ->
          odict.get row k = Some m -> odict.get row' k = Some m).
Proof.
  intros Hold Hrow Hval.
  rewrite (engine_facts.create_experiment_accepts self experiment Hval).
  eexists. eexists. split; [reflexivity|]. cbn [experiments metrics].
  split; [apply lookup_insert_eq|].
  split; [exact (engine_facts.init_metrics_present _ _ _ _ Hrow)|].
  split.
  - intros v Hin. now apply engine_facts.init_row_in.
  - intros k m Hk Hget. now rewrite engine_facts.init_row_not_in.
Qed.

Lemma create_experiment_replaces_witness :
  exists self' row',
    create_experiment Fixtures.measured Fixtures.second_experiment
    = (true, LogCreated "test_exp_1", self')
    /\ experiments self' !! "test_exp_1" = Some Fixtures.second_experiment
    /\ metrics self' !! "test_exp_1" = Some row'
    /\ odict.get row' "control" = Some (ExperimentMetrics.new "control")
    /\ odict.get row' "variant_b" = Some (ExperimentMetrics.new "variant_b")
    /\ option_map ExperimentMetrics.total_requests
                  (odict.get row' "variant_a") = Some 1.
Proof.
  destruct (create_experiment_replaces
              Fixtures.measured Fixtures.second_experiment
              Fixtures.test_experiment
              (default odict.empty (metrics Fixtures.measured !! "test_exp_1")))
    as [self' [row' [H1 [H2 [H3 [H4 H5]]]]]];
    [vm_compute; reflexivity | vm_compute; reflexivity
     | split; vm_compute; reflexivity |].
  exists self', row'. repeat split; try assumption.
  - apply (H4 Fixtures.control). left. reflexivity.
  - apply (H4 Fixtures.variant_b). right. left. reflexivity.
  - assert (exists m,
              odict.get (default odict.empty
                           (metrics Fixtures.measured !! "test_exp_1"))
                        "variant_a" = Some m
              /\ ExperimentMetrics.total_requests m = 1) as [m [Hm Hn]]
      by (eexists; split; vm_compute; reflexivity).
    rewrite (H5 "variant_a" m); [simpl; now rewrite Hn | | exact Hm].
    vm_compute. intuition discriminate.
Defined.

(** C7, at its failing input: both variants have one request of 400 ms
    without error; a satisfaction of 0.0 was recorded for [control] and of
    0.4 for [variant_a]. With the recorded values used as they are,
    [variant_a] scores strictly higher, yet [get_winner] returns
    [control]: its [or 0.5] replaces the recorded 0.0 by 0.5. *)
Theorem get_winner_drops_zero_satisfaction :
  exists rc ra,
    (get_experiment_results Fixtures.rated "test_exp_1").1
    = Some [("control", rc); ("variant_a", ra)]
    /\ r_user_satisfaction rc = Some 0%float
    /\ r_user_satisfaction ra = Some 0.4%float
    /\ r_error_rate rc = r_error_rate ra
    /\ r_avg_latency_ms rc = r_avg_latency_ms ra
    /\ PrimFloat.ltb (Spec.score rc) (Spec.score ra) = true
    /\ PrimFloat.ltb (score ra) (score rc) = true
    /\ (get_winner Fixtures.rated "test_exp_1").1 = Some "control".
Proof.
  eexists. eexists. split; [vm_compute; reflexivity|].
  repeat split; vm_compute; reflexivity.
Qed.

(** [test_get_winner]: an error rate of 1.0 at 800 ms loses against an
    error rate of 0.0 at 400 ms. *)
Example get_winner_prefers_the_better_variant :
  option_map (fun m => (ExperimentMetrics.error_rate m,
                        ExperimentMetrics.avg_latency_ms m))
             (Calls.row Fixtures.contested "test_exp_1" "control")
  = Some (1%float, 800%float)
  /\ option_map (fun m => (ExperimentMetrics.error_rate m,
                           ExperimentMetrics.avg_latency_ms m))
                (Calls.row Fixtures.contested "test_exp_1" "variant_a")
     = Some (0%float, 400%float)
  /\ (get_winner Fixtures.contested "test_exp_1").1 = Some "variant_a".
Proof. repeat split; vm_compute; reflexivity. Qed.

(** Equal scores: the variant whose row came first wins. *)
Example get_winner_tie_goes_to_the_first :
  (get_winner Fixtures.measured "test_exp_1").1 = Some "control".
Proof. vm_compute. reflexivity. Qed.

(** An unknown experiment has no winner. *)
Example get_winner_unknown_experiment :
  (get_winner Fixtures.measured "no_such_experiment").1 = None.
Proof. vm_compute. reflexivity. Qed.

End ab_testing_properties.

(* ===================================================================== *)
(** * Provider fail-over: properties                                      *)
(* ===================================================================== *)

Module provider_manager_properties.
Import ProviderManager.

Lemma provider_order_spec self provider_name :
  provider_order self provider_name
  = Spec.attempt_order (fallback_order self) provider_name.
Proof.
  unfold provider_order, Spec.attempt_order.
  destruct provider_name as [p|]; [|reflexivity].
  destruct (truthy (Some p)); [|reflexivity].
  f_equal. induction (fallback_order self) as [|q l IH]; [reflexivity|].
  cbn [List.filter]. rewrite IH.
  destruct (String.eqb_spec q p) as [->|Hne].
  - now rewrite bool_decide_eq_false_2 by (intros H; now apply H).
  - now rewrite bool_decide_eq_true_2.
Qed.

Lemma select_model_supported provider model :
  BaseProvider.supported_models provider <> [] ->
  exists provider_model,
    select_model_for_provider provider model = Ok provider_model.
Proof.
  intros Hne. unfold select_model_for_provider.
  destruct (BaseProvider.supported_models provider) as [|d l]; [easy|].
  destruct model as [m|]; [|eauto].
  destruct (_ && _); eauto.
Qed.

Lemma backoff_wait_time n f :
  match f with
  | BaseProvider.RateLimitError _ => [Sleep (wait_time n)]
  | BaseProvider.OtherError _ => []
  end = Spec.backoff n f.
Proof. now destruct f. Qed.

Section Runs.
Variable self : t.
Variable enable_fallback : bool.
Variable messages : list Message.t.
Variable model : option string.
Variable max_tokens : option Z.
Variable temperature : float.
Variable tools : option (list string).

(** From position [n] of an attempt order of [total] candidates, with the
    candidates [order] left: the loop of [complete_with_fallback] is a run
    of the design document. *)
Lemma complete_loop_run total : forall order n last_error attempts,
  Forall (Spec.usable self) order ->
  total = n + Z.of_nat (length order) - 1 ->
  exists o,
    Spec.run (Spec.tries_complete self messages model max_tokens
                                  temperature tools)
             enable_fallback n order
             (complete_loop self enable_fallback messages model max_tokens
                temperature tools total n order last_error attempts).1 o
    /\ Spec.ends_in o
         (complete_loop self enable_fallback messages model max_tokens
            temperature tools total n order last_error attempts).2.
Proof.
  induction order as [|c rest IH]; intros n last_error attempts Huse Htot.
  - exists Spec.Fails. split; [apply Spec.run_none|]. simpl. eauto.
  - inversion Huse as [|? ? [provider [Hp Hm]] Hrest]; subst.
    destruct (select_model_supported provider model Hm) as [pm Hpm].
    assert (forall r,
              r = match BaseProvider.complete provider
                          (call_for messages max_tokens temperature tools pm)
                  with
                  | BaseProvider.Completed response => inl response
                  | BaseProvider.Failed f => inr f
                  end ->
              Spec.tries_complete self messages model max_tokens temperature
                                  tools c [Call c pm] r) as Htries.
    { intros r ->. exists provider, pm. auto. }
    cbn [complete_loop]. rewrite Hp, Hpm.
    destruct (BaseProvider.complete provider _) as [response|f] eqn:Hc.
    + exists (Spec.Succeeds response). split; [|reflexivity].
      apply Spec.run_success. now apply Htries.
    + destruct enable_fallback eqn:Hen; cbn [andb].
      * destruct (Z.ltb_spec n (n + Z.of_nat (length (c :: rest)) - 1))
          as [Hlt|Hge].
        -- destruct (IH (n + 1) (Some f)
                        (attempts ++ [attempt_line c f]) Hrest)
             as [o [Hrun Hend]]; [cbn [length] in *; lia|].
           exists o. split; [|exact Hend].
           unfold before. cbn [fst].
           rewrite backoff_wait_time.
           change (Call c pm :: Spec.backoff n f)
             with ([Call c pm] ++ Spec.backoff n f).
           rewrite <- app_assoc.
           apply Spec.run_next; auto.
           intros ->. cbn [length] in Hlt. lia.
        -- exists Spec.Fails. split; [|cbn [snd Spec.ends_in]; unfold all_failed; eauto].
           apply (Spec.run_stop _ _ n c rest [Call c pm] f); [auto|].
           right. destruct rest; [reflexivity|cbn [length] in Hge; lia].
      * exists Spec.Fails. split; [|cbn [snd Spec.ends_in]; unfold all_failed; eauto].
        apply (Spec.run_stop _ _ n c rest [Call c pm] f); auto.
Qed.

(** The same for the loop of [stream_with_fallback]. *)
Lemma stream_loop_run total : forall order n last_error,
  Forall (Spec.usable self) order ->
  total = n + Z.of_nat (length order) - 1 ->
  exists o,
    Spec.run (Spec.tries_stream self messages model max_tokens
                                temperature tools)
             enable_fallback n order
             (stream_loop self enable_fallback messages model max_tokens
                temperature tools total n order last_error).1 o
    /\ Spec.ends_in o
         (stream_loop self enable_fallback messages model max_tokens
            temperature tools total n order last_error).2.
Proof.
  induction order as [|c rest IH]; intros n last_error Huse Htot.
  - exists Spec.Fails. split; [apply Spec.run_none|]. simpl. eauto.
  - inversion Huse as [|? ? [provider [Hp Hm]] Hrest]; subst.
    destruct (select_model_supported provider model Hm) as [pm Hpm].
    assert (Spec.tries_stream self messages model max_tokens temperature
              tools c
              (Call c pm
               :: map Yield
                    (BaseProvider.stream_complete provider
                       (call_for messages max_tokens temperature tools pm)).1)
              match (BaseProvider.stream_complete provider
                       (call_for messages max_tokens temperature tools pm)).2
              with
              | None => inl tt
              | Some f => inr f
              end) as Htries.
    { exists provider, pm. auto. }
    cbn [stream_loop]. rewrite Hp, Hpm.
    destruct (BaseProvider.stream_complete provider _) as [chunks ending].
    cbn [fst snd] in Htries.
    destruct ending as [f|].
    + destruct enable_fallback eqn:Hen; cbn [andb].
      * destruct (Z.ltb_spec n (n + Z.of_nat (length (c :: rest)) - 1))
          as [Hlt|Hge].
        -- destruct (IH (n + 1) (Some f) Hrest)
             as [o [Hrun Hend]]; [cbn [length] in *; lia|].
           exists o. split; [|exact Hend].
           unfold before. cbn [fst].
           rewrite backoff_wait_time, <- app_assoc.
           apply Spec.run_next; auto.
           intros ->. cbn [length] in Hlt. lia.
        -- exists Spec.Fails.
           split; [|cbn [snd Spec.ends_in]; unfold all_streaming_failed; eauto].
           apply (Spec.run_stop _ _ n c rest _ f); [auto|].
           right. destruct rest; [reflexivity|cbn [length] in Hge; lia].
      * exists Spec.Fails.
        split; [|cbn [snd Spec.ends_in]; unfold all_streaming_failed; eauto].
        apply (Spec.run_stop _ _ n c rest _ f); auto.
    + exists (Spec.Succeeds tt). split; [|reflexivity].
      now apply Spec.run_success.
Qed.

End Runs.

(** A run is determined by what trying its candidates shows. *)
Lemma run_functional {A : Type}
    (tries : string -> list event -> A + BaseProvider.failure -> Prop)
    (fallback_enabled : bool) :
  (forall c evs1 r1 evs2 r2,
     tries c evs1 r1 -> tries c evs2 r2 -> evs1 = evs2 /\ r1 = r2) ->
  forall n cs evs o,
    Spec.run tries fallback_enabled n cs evs o ->
    forall evs' o',
      Spec.run tries fallback_enabled n cs evs' o' ->
      evs = evs' /\ o = o'.
Proof.
  intros Hfun n cs evs o Hrun.
  induction Hrun as [n c rest evs a Ht
                    |n c rest evs f evs1 o Ht Hen Hrest Hrun IH
                    |n c rest evs f Ht Hstop
                    |n];
    intros evs' o' Hrun'; inversion Hrun'; subst;
    try match goal with
        | H1 : tries ?c _ _, H2 : tries ?c _ _ |- _ =>
            destruct (Hfun _ _ _ _ _ H1 H2) as [? ?]; subst
        end;
    try discriminate;
    try match goal with
        | H : inl _ = inl _ |- _ => injection H as ->
        | H : inr _ = inr _ |- _ => injection H as ->
        end;
    try (split; reflexivity);
    try (destruct Hstop as [Hstop|Hstop]; congruence);
    try match goal with
        | H : _ = false \/ _ = [] |- _ => destruct H; congruence
        end.
  match goal with
  | H : Spec.run _ _ _ rest _ _ |- _ =>
      destruct (IH _ _ H) as [-> ->]
  end.
  split; reflexivity.
Qed.

Lemma tries_complete_functional self messages model max_tokens temperature
    tools c evs1 r1 evs2 r2 :
  Spec.tries_complete self messages model max_tokens temperature tools
                      c evs1 r1 ->
  Spec.tries_complete self messages model max_tokens temperature tools
                      c evs2 r2 ->
  evs1 = evs2 /\ r1 = r2.
Proof.
  intros [p1 [m1 [Hp1 [Hm1 [-> ->]]]]] [p2 [m2 [Hp2 [Hm2 [-> ->]]]]].
  rewrite Hp1 in Hp2. injection Hp2 as <-.
  rewrite Hm1 in Hm2. injection Hm2 as <-. split; reflexivity.
Qed.

Lemma tries_stream_functional self messages model max_tokens temperature
    tools c evs1 r1 evs2 r2 :
  Spec.tries_stream self messages model max_tokens temperature tools
                    c evs1 r1 ->
  Spec.tries_stream self messages model max_tokens temperature tools
                    c evs2 r2 ->
  evs1 = evs2 /\ r1 = r2.
Proof.
  intros [p1 [m1 [Hp1 [Hm1 [-> ->]]]]] [p2 [m2 [Hp2 [Hm2 [-> ->]]]]].
  rewrite Hp1 in Hp2. injection Hp2 as <-.
  rewrite Hm1 in Hm2. injection Hm2 as <-. split; reflexivity.
Qed.

(** C2: [complete_with_fallback] works through the caller's provider (when
    one is given) and then the remaining providers in registration order,
    or through the registration order alone. It stops at the first
    candidate that answers and returns its response. After a rate-limit
    error, with fallback enabled and candidates left, it sleeps
    min(2^n, 10) seconds, n the number of the attempt, and goes on; after
    any other provider error, with fallback enabled and candidates left, it
    goes on at once; after every other failure it stops and raises. The
    events of the call (provider calls and sleeps) and its end are the
    only ones that fit these rules. A rate limit at the first attempt is
    followed by a sleep of exactly 2 seconds. *)
Theorem complete_with_fallback_run self enable_fallback messages model
    max_tokens temperature tools provider_name :
  Spec.well_configured self provider_name ->
  provider_order self provider_name
  = Spec.attempt_order (fallback_order self) provider_name
  /\ (exists o,
        Spec.run (Spec.tries_complete self messages model max_tokens
                                      temperature tools)
                 enable_fallback 1 (provider_order self provider_name)
                 (complete_with_fallback self enable_fallback messages model
                    max_tokens temperature tools provider_name).1 o
        /\ Spec.ends_in o
             (complete_with_fallback self enable_fallback messages model
                max_tokens temperature tools provider_name).2
        /\ (forall evs' o',
              Spec.run (Spec.tries_complete self messages model max_tokens
                                            temperature tools)
                       enable_fallback 1 (provider_order self provider_name)
                       evs' o' ->
              evs' = (complete_with_fallback self enable_fallback messages
                        model max_tokens temperature tools provider_name).1
              /\ o' = o))
  /\ (forall msg,
        Spec.backoff 1 (BaseProvider.RateLimitError msg) = [Sleep 2]).
Proof.
  intros Huse. split; [apply provider_order_spec|]. split; [|reflexivity].
  unfold complete_with_fallback.
  destruct (complete_loop_run self enable_fallback messages model max_tokens
              temperature tools
              (Z.of_nat (length (provider_order self provider_name)))
              (provider_order self provider_name) 1 None [] Huse)
    as [o [Hrun Hend]]; [lia|].
  exists o. split; [exact Hrun|]. split; [exact Hend|].
  intros evs' o' Hrun'.
  exact (run_functional _ _
           (tries_complete_functional self messages model max_tokens
                                      temperature tools)
           _ _ _ _ Hrun' _ _ Hrun).
Qed.

Lemma rate_limited_then_ok_configured :
  Spec.well_configured ProviderFixtures.rate_limited_then_ok None.
Proof.
  repeat constructor;
    (eexists; split; [vm_compute; reflexivity | discriminate]).
Qed.

Lemma complete_with_fallback_run_witness :
  exists o,
    Spec.run (Spec.tries_complete ProviderFixtures.rate_limited_then_ok
                ProviderFixtures.hello None None 0.7%float None)
             true 1 ["openai"; "anthropic"]
             [Call "openai" "gpt-4"; Sleep 2;
              Call "anthropic" "claude-3-sonnet-20240229"] o
    /\ Spec.ends_in o
         (Ok (ProviderFixtures.answer "anthropic" "claude-3-sonnet-20240229"
                                      "Hi.")).
Proof.
  destruct (proj1 (proj2 (complete_with_fallback_run
                            ProviderFixtures.rate_limited_then_ok true
                            ProviderFixtures.hello None None 0.7%float None
                            None rate_limited_then_ok_configured)))
    as [o [Hrun [Hend _]]].
  exists o. split; [exact Hrun | exact Hend].
Defined.

(** Provider A is rate limited and provider B answers: B's response comes
    back after two calls and one sleep of two seconds. *)
Example rate_limit_then_success :
  complete_with_fallback ProviderFixtures.rate_limited_then_ok true
    ProviderFixtures.hello None None 0.7%float None None
  = ([Call "openai" "gpt-4"; Sleep 2;
      Call "anthropic" "claude-3-sonnet-20240229"],
     Ok (ProviderFixtures.answer "anthropic" "claude-3-sonnet-20240229"
                                 "Hi.")).
Proof. vm_compute. reflexivity. Qed.

(** With fallback switched off the first failure is the last attempt. *)
Example rate_limit_without_fallback :
  complete_with_fallback ProviderFixtures.rate_limited_then_ok false
    ProviderFixtures.hello None None 0.7%float None None
  = ([Call "openai" "gpt-4"],
     Error (Exception
              ("All providers failed. Attempts: openai: Rate limit exceeded. "
               +:+ "Last error: OpenAI rate limit exceeded: 429"))).
Proof. vm_compute. reflexivity. Qed.

(** The waits of the attempts one to five. *)
Example wait_times :
  map wait_time [1; 2; 3; 4; 5] = [2; 4; 8; 10; 10].
Proof. reflexivity. Qed.

(** A failed [complete_with_fallback] lists, in the order of the calls,
    every provider it called with the reason of its failure. *)
Lemma complete_loop_failure self enable_fallback messages model max_tokens
    temperature tools total :
  forall order n last_error attempts msg,
    Forall (Spec.usable self) order ->
    (complete_loop self enable_fallback messages model max_tokens
       temperature tools total n order last_error attempts).2
    = Error (Exception msg) ->
    exists tried : list (string * BaseProvider.failure),
      Exception msg
      = all_failed
          (attempts ++ map (fun cf => attempt_line cf.1 cf.2) tried)
          (match last tried with
           | Some cf => Some cf.2
           | None => last_error
           end)
      /\ map fst tried
         = called (complete_loop self enable_fallback messages model
                     max_tokens temperature tools total n order last_error
                     attempts).1.
Proof.
  induction order as [|c rest IH]; intros n last_error attempts msg Huse.
  - cbn [complete_loop snd fst]. intros [= <-].
    exists []. cbn [map last called]. now rewrite app_nil_r.
  - inversion Huse as [|? ? [provider [Hp Hm]] Hrest]; subst.
    destruct (select_model_supported provider model Hm) as [pm Hpm].
    cbn [complete_loop]. rewrite Hp, Hpm.
    destruct (BaseProvider.complete provider _) as [response|f];
      [discriminate|].
    destruct (enable_fallback && (n <? total)).
    + unfold before. cbn [fst snd]. intros Hres.
      destruct (IH _ _ _ _ Hrest Hres) as [tried [Hmsg Hcalled]].
      exists ((c, f) :: tried). split.
      * rewrite Hmsg. cbn [map fst snd]. rewrite <- app_assoc.
        cbn [app]. f_equal.
        rewrite last_cons. now destruct (last tried).
      * cbn [map fst]. rewrite Hcalled.
        now destruct f.
    + cbn [fst snd]. intros [= <-].
      exists [(c, f)]. split; reflexivity.
Qed.

(** C3, at its failing input: two registered providers, both failing. The
    completion path raises one error that lists each provider with its
    reason and ends with the last error. The streaming path, on the same
    providers, raises an error that carries the text of the last error
    only: neither the first provider and its reason nor the name of any
    provider is in it. *)
Theorem stream_failure_names_no_provider :
  complete_with_fallback ProviderFixtures.both_failing true
    ProviderFixtures.hello None None 0.7%float None None
  = ([Call "openai" "gpt-4"; Call "anthropic" "claude-3-sonnet-20240229"],
     Error (Exception
              ("All providers failed. Attempts: "
               +:+ "openai: OpenAI API error: connection reset; "
               +:+ "anthropic: Anthropic API error: overloaded. "
               +:+ "Last error: Anthropic API error: overloaded")))
  /\ (exists msg,
        stream_with_fallback ProviderFixtures.both_failing true
          ProviderFixtures.hello None None 0.7%float None None
        = ([Call "openai" "gpt-4";
            Call "anthropic" "claude-3-sonnet-20240229"],
           Error (Exception msg))
        /\ msg = "All streaming providers failed. Last error: "
                 +:+ "Anthropic API error: overloaded"
        /\ String.index 0 "openai" msg = None
        /\ String.index 0 "connection reset" msg = None
        /\ String.index 0 "anthropic" msg = None).
Proof.
  split; [vm_compute; reflexivity|].
  eexists. split; [vm_compute; reflexivity|].
  repeat split; vm_compute; reflexivity.
Qed.

(** C4, as stated, fails: the first provider's stream breaks after the
    chunk "Hel" went downstream; the second provider is called all the
    same, its chunks follow, and the stream ends normally. *)
Lemma stream_restarts_after_chunk :
  stream_with_fallback ProviderFixtures.breaks_mid_stream true
    ProviderFixtures.hello None None 0.7%float None None
  = ([Call "openai" "gpt-4"; Yield (ProviderFixtures.chunk "Hel");
      Call "anthropic" "claude-3-sonnet-20240229";
      Yield (ProviderFixtures.chunk "Hello");
      Yield (ProviderFixtures.chunk " there.")],
     Ok tt)
  /\ Spec.no_call_after_yield
       (stream_with_fallback ProviderFixtures.breaks_mid_stream true
          ProviderFixtures.hello None None 0.7%float None None).1
     = false.
Proof. split; vm_compute; reflexivity. Qed.

(** C4, amended: [stream_with_fallback] goes to the next provider after
    every failure of a provider's stream for which fallback is enabled and
    candidates are left, whether chunks were yielded before the failure or
    not: the chunks already yielded stay downstream, the backoff of a rate
    limit is slept, and the events of the remaining candidates follow. A
    failure ends the stream with an error only when fallback is disabled
    or no candidate is left. The events of the call and its end are the
    only ones that fit these rules. *)
Theorem stream_with_fallback_run self enable_fallback messages model
    max_tokens temperature tools provider_name :
  Spec.well_configured self provider_name ->
  (exists o,
     Spec.run (Spec.tries_stream self messages model max_tokens
                                 temperature tools)
              enable_fallback 1 (provider_order self provider_name)
              (stream_with_fallback self enable_fallback messages model
                 max_tokens temperature tools provider_name).1 o
     /\ Spec.ends_in o
          (stream_with_fallback self enable_fallback messages model
             max_tokens temperature tools provider_name).2
     /\ (forall evs' o',
           Spec.run (Spec.tries_stream self messages model max_tokens
                                       temperature tools)
                    enable_fallback 1 (provider_order self provider_name)
                    evs' o' ->
           evs' = (stream_with_fallback self enable_fallback messages model
                     max_tokens temperature tools provider_name).1
           /\ o' = o))
  /\ (forall c rest provider provider_model chunks f,
        provider_order self provider_name = c :: rest ->
        rest <> [] ->
        enable_fallback = true ->
        providers self !! c = Some provider ->
        select_model_for_provider provider model = Ok provider_model ->
        BaseProvider.stream_complete provider
          (call_for messages max_tokens temperature tools provider_model)
        = (chunks, Some f) ->
        stream_with_fallback self enable_fallback messages model
          max_tokens temperature tools provider_name
        = before (Call c provider_model :: map Yield chunks
                  ++ Spec.backoff 1 f)
                 (stream_loop self enable_fallback messages model max_tokens
                    temperature tools (Z.of_nat (length (c :: rest))) 2 rest
                    (Some f))).
Proof.
  intros Huse. split.
  - unfold stream_with_fallback.
    destruct (stream_loop_run self enable_fallback messages model max_tokens
                temperature tools
                (Z.of_nat (length (provider_order self provider_name)))
                (provider_order self provider_name) 1 None Huse)
      as [o [Hrun Hend]]; [lia|].
    exists o. split; [exact Hrun|]. split; [exact Hend|].
    intros evs' o' Hrun'.
    exact (run_functional _ _
             (tries_stream_functional self messages model max_tokens
                                      temperature tools)
             _ _ _ _ Hrun' _ _ Hrun).
  - intros c rest provider pm chunks f Hord Hrest Hen Hp Hpm Hs.
    unfold stream_with_fallback. rewrite Hord.
    cbn [stream_loop]. rewrite Hp, Hpm, Hs, Hen. cbn [andb].
    destruct (Z.ltb_spec 1 (Z.of_nat (length (c :: rest)))) as [_|Hge].
    + rewrite backoff_wait_time. reflexivity.
    + destruct rest; [easy|cbn [length] in Hge; lia].
Qed.

Lemma breaks_mid_stream_configured :
  Spec.well_configured ProviderFixtures.breaks_mid_stream None.
Proof.
  repeat constructor;
    (eexists; split; [vm_compute; reflexivity | discriminate]).
Qed.

Lemma stream_with_fallback_run_witness :
  stream_with_fallback ProviderFixtures.breaks_mid_stream true
    ProviderFixtures.hello None None 0.7%float None None
  = before ([Call "openai" "gpt-4"; Yield (ProviderFixtures.chunk "Hel")]
            ++ Spec.backoff 1
                 (BaseProvider.OtherError
                    "OpenAI API error: connection reset"))
           (stream_loop ProviderFixtures.breaks_mid_stream true
              ProviderFixtures.hello None None 0.7%float None
              2 2 ["anthropic"]
              (Some (BaseProvider.OtherError
                       "OpenAI API error: connection reset"))).
Proof.
  refine (proj2 (stream_with_fallback_run
                   ProviderFixtures.breaks_mid_stream true
                   ProviderFixtures.hello None None 0.7%float None None
                   breaks_mid_stream_configured)
                "openai" ["anthropic"] _ "gpt-4"
                [ProviderFixtures.chunk "Hel"] _ _ _ _ _ _ _);
    first [discriminate | vm_compute; reflexivity].
Defined.

(** A preferred provider that is not registered is passed over without a
    call, and still counts as attempt number one: the first provider that
    is called is attempt number two, and its rate limit is followed by a
    sleep of four seconds. *)
Example unregistered_preference_is_skipped :
  complete_with_fallback ProviderFixtures.rate_limited_then_ok true
    ProviderFixtures.hello None None 0.7%float None
    Fixtures.preferred_missing
  = ([Call "openai" "gpt-4"; Sleep 4;
      Call "anthropic" "claude-3-sonnet-20240229"],
     Ok (ProviderFixtures.answer "anthropic" "claude-3-sonnet-20240229"
                                 "Hi.")).
Proof. vm_compute. reflexivity. Qed.

End provider_manager_properties.

(* ===================================================================== *)
(** * The variant override of the request: properties                     *)
(* ===================================================================== *)

Module main_properties.
Import Main.

Lemma insert_system_prompt_at variant messages ls msgs :
  ls !! messages = Some msgs ->
  insert_system_prompt variant messages ls !! messages
  = Some match ExperimentVariant.system_prompt variant with
         | Some text =>
             if ProviderManager.truthy (Some text)
             then system_message text :: msgs else msgs
         | None => msgs
         end.
Proof.
  intros Hl. unfold insert_system_prompt.
  destruct (ExperimentVariant.system_prompt variant) as [text|]; [|exact Hl].
  destruct (ProviderManager.truthy (Some text)); [|exact Hl].
  rewrite lookup_alter_eq, Hl. reflexivity.
Qed.

Lemma insert_system_prompt_other variant messages ls l :
  l <> messages ->
  insert_system_prompt variant messages ls !! l = ls !! l.
Proof.
  intros Hne. unfold insert_system_prompt.
  destruct (ExperimentVariant.system_prompt variant) as [text|];
    [|reflexivity].
  destruct (ProviderManager.truthy (Some text)); [|reflexivity].
  now rewrite lookup_alter_ne.
Qed.

(** C9, as stated, fails: the step hands back no copy. After it, the one
    request object of the heap (address 1) has the provider, model and
    temperature of the variant, and the list object its [messages] names
    (address 2) has one element more. *)
Lemma override_writes_the_request :
  exists h',
    assign_and_override true Fixtures.registered 1700000000
                        RequestFixtures.heap 1%nat
    = Ok (Some Fixtures.variant_a, h')
    /\ requests RequestFixtures.heap !! 1%nat = Some RequestFixtures.request
    /\ ChatRequest.provider RequestFixtures.request = None
    /\ requests h'
       = {[ 1%nat := set_fields Fixtures.variant_a RequestFixtures.request ]}
    /\ ChatRequest.provider
         (set_fields Fixtures.variant_a RequestFixtures.request)
       = Some "anthropic"
    /\ lists RequestFixtures.heap !! 2%nat = Some RequestFixtures.conversation
    /\ lists h' !! 2%nat
       = Some (system_message "Answer briefly."
               :: RequestFixtures.conversation).
Proof.
  eexists. split; [vm_compute; reflexivity|].
  repeat split; vm_compute; reflexivity.
Qed.

(** C9, amended: when a variant is assigned, the override step writes the
    request object it was given, in place: provider, model and temperature
    become those of the variant, [max_tokens] becomes the variant's when
    the variant has a non-zero one, and every other attribute stays. A
    non-empty system prompt of the variant is inserted as a new first
    element into the list object that [messages] names; every message that
    was in the list, a system message included, stays behind it in its
    order. No other request object and no other list object changes, and
    no object is created for the request. *)
Theorem override_in_place enable_ab_testing ab_testing_manager now h request
    req msgs variant h' :
  requests h !! request = Some req ->
  lists h !! ChatRequest.messages req = Some msgs ->
  assign_and_override enable_ab_testing ab_testing_manager now h request
  = Ok (Some variant, h') ->
  requests h' = <[request := set_fields variant req]> (requests h)
  /\ (exists req',
        requests h' !! request = Some req'
        /\ ChatRequest.provider req'
           = Some (ExperimentVariant.provider variant)
        /\ ChatRequest.model req' = Some (ExperimentVariant.model variant)
        /\ ChatRequest.temperature req'
           = Some (ExperimentVariant.temperature variant)
        /\ ChatRequest.max_tokens req'
           = (if truthy_int (ExperimentVariant.max_tokens variant)
              then ExperimentVariant.max_tokens variant
              else ChatRequest.max_tokens req)
        /\ ChatRequest.messages req' = ChatRequest.messages req
        /\ ChatRequest.stream req' = ChatRequest.stream req
        /\ ChatRequest.tools req' = ChatRequest.tools req
        /\ ChatRequest.user_id req' = ChatRequest.user_id req
        /\ ChatRequest.session_id req' = ChatRequest.session_id req
        /\ ChatRequest.experiment_id req' = ChatRequest.experiment_id req)
  /\ lists h' !! ChatRequest.messages req
     = Some match ExperimentVariant.system_prompt variant with
            | Some text =>
                if ProviderManager.truthy (Some text)
                then system_message text :: msgs else msgs
            | None => msgs
            end
  /\ (forall l, l <> ChatRequest.messages req -> lists h' !! l = lists h !! l)
  /\ (forall r, r <> request -> requests h' !! r = requests h !! r).
Proof.
  intros Hreq Hmsgs. unfold assign_and_override. rewrite Hreq.
  destruct (_ && _); [|discriminate].
  destruct (ABTestingManager.assign_variant _ _ _ _) as [[v|]|e];
    try discriminate.
  intros [= <- <-]. unfold apply_variant. rewrite Hreq.
  cbn [requests lists].
  split; [reflexivity|]. split; [|split; [|split]].
  - eexists. split; [apply lookup_insert_eq|].
    repeat split.
  - now apply insert_system_prompt_at.
  - intros l Hl. now apply insert_system_prompt_other.
  - intros r Hr. now rewrite lookup_insert_ne.
Qed.

Lemma override_in_place_witness :
  lists (apply_variant RequestFixtures.heap 1%nat Fixtures.variant_a) !! 2%nat
  = Some (system_message "Answer briefly." :: RequestFixtures.conversation).
Proof.
  refine (proj1 (proj2 (proj2
            (override_in_place true Fixtures.registered 1700000000
               RequestFixtures.heap 1%nat RequestFixtures.request
               RequestFixtures.conversation Fixtures.variant_a
               (apply_variant RequestFixtures.heap 1%nat Fixtures.variant_a)
               _ _ _))));
    vm_compute; reflexivity.
Defined.

End main_properties.

(* ===================================================================== *)
(** * The experiment engine: further properties                           *)
(* ===================================================================== *)

Module engine_properties.
Import ABTestingManager Engine.

Lemma get_none_not_in_keys {V : Type} (d : odict.t V) k :
  odict.get d k = None -> ~ In k (odict.keys d).
Proof.
  intros Hnone Hin. destruct (odict_facts.in_keys_get d k Hin) as [v Hv].
  congruence.
Qed.

Lemma set_absent {V : Type} (d : odict.t V) k v :
  odict.get d k = None -> odict.set d k v = d ++ [(k, v)].
Proof.
  induction d as [|[k0 v0] d IH]; simpl; [reflexivity|].
  destruct (String.eqb k0 k); [discriminate|].
  intros H. now rewrite IH.
Qed.

Lemma keys_set_nodup {V : Type} (d : odict.t V) k v :
  NoDup (odict.keys d) -> NoDup (odict.keys (odict.set d k v)).
Proof.
  intros Hnd. destruct (odict.get d k) as [v'|] eqn:E.
  - now rewrite (odict_facts.keys_set_present d k v v' E).
  - rewrite (odict_facts.keys_set_absent d k v E).
    apply NoDup_app. split; [exact Hnd|]. split.
    + intros x Hx Hin. apply list_elem_of_In in Hx, Hin.
      destruct Hin as [<-|[]]. now apply (get_none_not_in_keys d k).
    + apply NoDup_singleton.
Qed.

Lemma set_well_formed row k m :
  Rows.well_formed row ->
  ExperimentMetrics.variant_id m = k ->
  Rows.well_formed (odict.set row k m).
Proof.
  intros [Hnd Hid] Hk. split; [now apply keys_set_nodup|].
  intros k' m'. destruct (string_dec k k') as [<-|Hne].
  - rewrite odict_facts.get_set_eq. now intros [= <-].
  - rewrite odict_facts.get_set_ne by assumption. apply Hid.
Qed.

Lemma init_row_well_formed : forall vs row,
  Rows.well_formed row -> Rows.well_formed (init_row vs row).
Proof.
  unfold init_row.
  induction vs as [|v vs IH]; intros row Hwf; simpl; [assumption|].
  apply IH. now apply set_well_formed.
Qed.

Lemma empty_well_formed : Rows.well_formed odict.empty.
Proof. split; [constructor|]. intros k m. discriminate. Qed.

Lemma rows_init s : Rows.inv (init s).
Proof.
  split; cbn [experiments metrics init]; intros *;
    rewrite ?lookup_empty; discriminate.
Qed.

Lemma rows_create self e :
  Rows.inv self -> Rows.inv (create_experiment self e).2.
Proof.
  intros [Hc Hw].
  destruct (engine_facts.create_experiment_cases self e) as [->|[Hval ->]];
    [now split|].
  destruct (Experiment.variants e) as [|v vs] eqn:Evs;
    [now destruct (assign_facts.validated_nonempty e Hval)|].
  split; cbn [experiments metrics].
  - intros eid e0 v0. unfold Calls.row. cbn [metrics].
    rewrite lookup_insert. case_decide as Heq.
    + intros [= <-] Hin. subst eid. rewrite engine_facts.init_metrics_cons.
      rewrite <- Evs in *. rewrite (engine_facts.init_row_in v0) by assumption.
      eauto.
    + intros He0 Hin.
      rewrite engine_facts.init_metrics_other by congruence.
      exact (Hc eid e0 v0 He0 Hin).
  - intros eid row.
    destruct (decide (eid = Experiment.experiment_id e)) as [->|Hne].
    + rewrite engine_facts.init_metrics_cons. intros [= <-].
      apply (init_row_well_formed (v :: vs)).
      destruct (metrics self !! Experiment.experiment_id e) as [row0|] eqn:E;
        cbn [default]; [eauto | apply empty_well_formed].
    + rewrite engine_facts.init_metrics_other by congruence. apply Hw.
Qed.

Lemma rows_store_row self eid vid row m m' :
  Rows.inv self ->
  metrics self !! eid = Some row ->
  odict.get row vid = Some m ->
  ExperimentMetrics.variant_id m' = ExperimentMetrics.variant_id m ->
  Rows.inv (store_row self eid vid row m').
Proof.
  intros [Hc Hw] Hrow Hget Hid.
  assert (ExperimentMetrics.variant_id m = vid) as Hvid
      by (apply (proj2 (Hw eid row Hrow)); exact Hget).
  split; cbn [experiments metrics store_row with_metrics].
  - intros eid0 e0 v0 He0 Hin.
    destruct (Hc eid0 e0 v0 He0 Hin) as [m0 Hm0].
    unfold Calls.row in *. cbn [metrics store_row with_metrics].
    rewrite lookup_insert. case_decide as Heq; [|eauto].
    subst eid0. rewrite Hrow in Hm0.
    destruct (string_dec vid (ExperimentVariant.variant_id v0)) as [<-|Hne].
    + rewrite odict_facts.get_set_eq. eauto.
    + rewrite odict_facts.get_set_ne by assumption. eauto.
  - intros eid0 row0. rewrite lookup_insert.
    case_decide as Heq; [|apply Hw].
    intros [= <-]. apply set_well_formed; [eauto | congruence].
Qed.

Lemma rows_record_metrics self eid vid tokens cost latency_ms error :
  Rows.inv self ->
  Rows.inv
    (state_of (record_metrics self eid vid tokens cost latency_ms error)).
Proof.
  intros Hinv. unfold record_metrics.
  destruct (metrics self !! eid) as [row|] eqn:Hrow; [|assumption].
  destruct (odict.get row vid) as [m|] eqn:Hget; [|assumption].
  destruct (int_to_float (ExperimentMetrics.total_requests m));
    [destruct (int_to_float (ExperimentMetrics.total_requests m + 1));
     [destruct (_ =? 0)|]|];
    cbn [state_of]; eapply rows_store_row; eauto.
Qed.

Lemma rows_record_satisfaction self eid vid score :
  Rows.inv self ->
  Rows.inv (state_of (record_satisfaction self eid vid score)).
Proof.
  intros Hinv. unfold record_satisfaction.
  destruct (metrics self !! eid) as [row|] eqn:Hrow; [|assumption].
  destruct (odict.get row vid) as [m|] eqn:Hget; [|assumption].
  destruct (ExperimentMetrics.user_satisfaction m).
  - destruct (int_to_float (ExperimentMetrics.total_requests m - 1));
      [destruct (int_to_float (ExperimentMetrics.total_requests m));
       [destruct (_ =? 0)|]|];
      cbn [state_of]; try assumption.
    eapply rows_store_row; eauto.
  - cbn [state_of]. eapply rows_store_row; eauto.
Qed.

Lemma rows_stop self eid : Rows.inv self -> Rows.inv (stop_experiment self eid).
Proof.
  intros [Hc Hw]. unfold stop_experiment.
  destruct (experiments self !! eid) as [e|] eqn:He; [|now split].
  split; cbn [experiments metrics]; [|exact Hw].
  intros eid0 e0 v0. unfold Calls.row. cbn [metrics].
  rewrite lookup_insert. case_decide as Heq.
  - intros [= <-] Hin. subst eid0. exact (Hc eid e v0 He Hin).
  - intros He0 Hin. exact (Hc eid0 e0 v0 He0 Hin).
Qed.

Lemma reachable_rows self : reachable self -> Rows.inv self.
Proof.
  induction 1 as [s|self self' Hreach IH Hstep]; [apply rows_init|].
  pose proof (engine_facts.reachable_inv self Hreach) as Hinv.
  destruct Hstep.
  - now apply rows_create.
  - now apply rows_record_metrics.
  - now apply rows_record_satisfaction.
  - now rewrite engine_facts.get_experiment_results_state.
  - now rewrite engine_facts.get_winner_state.
  - now apply rows_stop.
Qed.

Lemma row_lookup self eid vid m :
  Calls.row self eid vid = Some m ->
  exists row, metrics self !! eid = Some row /\ odict.get row vid = Some m.
Proof.
  unfold Calls.row. destruct (metrics self !! eid) as [row|]; [eauto|].
  discriminate.
Qed.

Lemma in_items_get {V : Type} (d : odict.t V) k v :
  NoDup (odict.keys d) -> In (k, v) (odict.items d) ->
  odict.get d k = Some v.
Proof.
  unfold odict.items.
  induction d as [|[k0 v0] d IH]; intros Hnd Hin; [destruct Hin|].
  cbn [odict.keys map fst] in Hnd. apply NoDup_cons in Hnd.
  destruct Hnd as [Hk0 Hnd]. cbn [odict.get].
  destruct Hin as [[= -> ->]|Hin].
  - now rewrite String.eqb_refl.
  - destruct (String.eqb_spec k0 k) as [->|Hne]; [|now apply IH].
    exfalso. apply Hk0, list_elem_of_In.
    apply (in_map fst) in Hin. exact Hin.
Qed.

(** X1: whatever sequence of calls the engine has served, every stored
    experiment is stored under its own id and has passed validation, and
    it has a metrics dictionary that holds a row for each of its declared
    variants. Every metrics dictionary belongs to a registered experiment
    and has no repeated keys, and every row of it, whether of a declared
    variant or left by an earlier registration, carries the variant id it
    is stored under and a request count that is not negative. *)
Theorem reachable_engine_invariant self :
  reachable self ->
  (forall eid e,
     experiments self !! eid = Some e ->
     Experiment.experiment_id e = eid
     /\ validated e
     /\ exists row,
          metrics self !! eid = Some row
          /\ forall v, In v (Experiment.variants e) ->
               exists m,
                 In (ExperimentVariant.variant_id v, m) (odict.items row))
  /\ (forall eid row,
        metrics self !! eid = Some row ->
        is_Some (experiments self !! eid)
        /\ NoDup (odict.keys row)
        /\ forall vid m,
             In (vid, m) (odict.items row) ->
             ExperimentMetrics.variant_id m = vid
             /\ 0 <= ExperimentMetrics.total_requests m).
Proof.
  intros Hreach.
  pose proof (engine_facts.reachable_inv self Hreach) as [Hv Hr Hk Hc].
  pose proof (reachable_rows self Hreach) as [Hcov Hwf].
  split.
  - intros eid e He. destruct (Hv eid e He) as [Hid Hval].
    split; [exact Hid|]. split; [exact Hval|].
    destruct (Hr eid e He) as [row Hrow]. exists row.
    split; [exact Hrow|].
    intros v Hin. destruct (Hcov eid e v He Hin) as [m Hm].
    unfold Calls.row in Hm. rewrite Hrow in Hm.
    exists m. clear -Hm. unfold odict.items.
    induction row as [|[k0 m0] row IH]; [discriminate|].
    cbn [odict.get] in Hm.
    destruct (String.eqb_spec k0 (ExperimentVariant.variant_id v))
      as [->|Hne].
    + injection Hm as ->. now left.
    + right. now apply IH.
  - intros eid row Hrow. split; [exact (Hk eid row Hrow)|].
    destruct (Hwf eid row Hrow) as [Hnd Hid].
    split; [exact Hnd|].
    intros vid m Hin. pose proof (in_items_get row vid m Hnd Hin) as Hget.
    split; [exact (Hid vid m Hget) | exact (Hc eid row vid m Hrow Hget)].
Qed.

Lemma measured_reachable : reachable Fixtures.measured.
Proof.
  eapply reachable_step;
    [eapply reachable_step;
     [apply ab_testing_properties.registered_reachable|]|].
  - apply (step_record_metrics _ "test_exp_1" "control" 100 0.01%float
                               400%float false).
  - apply (step_record_metrics _ "test_exp_1" "variant_a" 100 0.01%float
                               400%float false).
Qed.

Lemma reachable_engine_invariant_witness :
  validated Fixtures.test_experiment
  /\ exists row,
       metrics Fixtures.measured !! "test_exp_1" = Some row
       /\ NoDup (odict.keys row).
Proof.
  destruct (reachable_engine_invariant Fixtures.measured measured_reachable)
    as [Hexp Hrows].
  destruct (Hexp "test_exp_1" Fixtures.test_experiment)
    as [_ [Hval [row [Hrow _]]]]; [vm_compute; reflexivity|].
  split; [exact Hval|]. exists row. split; [exact Hrow|].
  exact (proj1 (proj2 (Hrows "test_exp_1" row Hrow))).
Defined.

Lemma first_exceeding_declared e value v :
  Spec.first_exceeding e value = Some v -> In v (Experiment.variants e).
Proof.
  unfold Spec.first_exceeding.
  destruct (List.find _ _) as [k|]; [|discriminate].
  apply nth_error_In.
Qed.

Lemma assigned_declared salt e eid uid v :
  Spec.assigned salt e eid uid = Some v -> In v (Experiment.variants e).
Proof.
  unfold Spec.assigned.
  destruct (Spec.first_exceeding e _) as [v0|] eqn:E.
  - intros [= <-]. now apply first_exceeding_declared in E.
  - destruct (Experiment.variants e) as [|v0 vs]; [discriminate|].
    intros [= <-]. now left.
Qed.

(** The six ways through [assign_variant] in a state of the engine. *)
Lemma assign_variant_cases self now experiment_id user_id :
  reachable self ->
  (experiments self !! experiment_id = None
   /\ assign_variant self now experiment_id user_id = Ok None)
  \/ exists e,
       experiments self !! experiment_id = Some e
       /\ ((Experiment.is_active e = false
            /\ assign_variant self now experiment_id user_id = Ok None)
           \/ (Experiment.is_active e = true
               /\ ((exists d offset,
                      Experiment.end_date e = Some d
                      /\ datetime.utcoffset d = Some offset
                      /\ assign_variant self now experiment_id user_id
                         = Error
                             (TypeError
                                "can't compare offset-naive and offset-aware datetimes"))
                   \/ (ended now e = Ok true
                       /\ assign_variant self now experiment_id user_id
                          = Ok None)
                   \/ (ended now e = Ok false
                       /\ has_surrogate experiment_id
                          || has_surrogate user_id
                          || has_surrogate (salt self) = true
                       /\ assign_variant self now experiment_id user_id
                          = Error UnicodeEncodeError)
                   \/ (ended now e = Ok false
                       /\ has_surrogate experiment_id
                          || has_surrogate user_id
                          || has_surrogate (salt self) = false
                       /\ exists v,
                            assign_variant self now experiment_id user_id
                            = Ok (Some v)
                            /\ In v (Experiment.variants e))))).
Proof.
  intros Hreach.
  pose proof (engine_facts.reachable_inv self Hreach) as Hinv.
  destruct (experiments self !! experiment_id) as [e|] eqn:He;
    [right; exists e; split; [reflexivity|]
    |left; split; [reflexivity|]; unfold assign_variant; now rewrite He].
  destruct (Experiment.is_active e) eqn:Hact;
    [right; split; [reflexivity|]
    |left; split; [reflexivity|]; unfold assign_variant;
     now rewrite He, Hact].
  pose proof (assign_facts.ended_cases now e) as Hcases.
  destruct (Experiment.end_date e) as [d|] eqn:Hd.
  - destruct (datetime.utcoffset d) as [offset|] eqn:Hoff.
    + left. exists d, offset.
      split; [reflexivity|]. split; [exact Hoff|].
      unfold assign_variant. now rewrite He, Hact, Hcases.
    + right. destruct (now >? datetime.timestamp d) eqn:Hgt.
      * left. split; [exact Hcases|].
        unfold assign_variant. now rewrite He, Hact, Hcases.
      * right.
        destruct (has_surrogate experiment_id || has_surrogate user_id
                  || has_surrogate (salt self)) eqn:Hsur.
        -- left. split; [exact Hcases|]. split; [reflexivity|].
           unfold assign_variant. rewrite He, Hact, Hcases. cbn [negb].
           now rewrite (hash_facts.hash_bucket_surrogate _ _ _ Hsur).
        -- right. split; [exact Hcases|]. split; [reflexivity|].
           apply orb_false_elim in Hsur. destruct Hsur as [Hsur Hsalt].
           apply orb_false_elim in Hsur. destruct Hsur as [Heid Huid].
           destruct (inv_validated self Hinv experiment_id e He)
             as [_ Hval].
           destruct (assign_facts.assign_variant_validated
                       self now experiment_id user_id e He Hval Hact
                       Hcases Heid Huid Hsalt) as [v [Hv Hs]].
           exists v. split; [exact Hv|]. now apply assigned_declared in Hs.
  - right. right.
    destruct (has_surrogate experiment_id || has_surrogate user_id
              || has_surrogate (salt self)) eqn:Hsur.
    + left. split; [exact Hcases|]. split; [reflexivity|].
      unfold assign_variant. rewrite He, Hact, Hcases. cbn [negb].
      now rewrite (hash_facts.hash_bucket_surrogate _ _ _ Hsur).
    + right. split; [exact Hcases|]. split; [reflexivity|].
      apply orb_false_elim in Hsur. destruct Hsur as [Hsur Hsalt].
      apply orb_false_elim in Hsur. destruct Hsur as [Heid Huid].
      destruct (inv_validated self Hinv experiment_id e He) as [_ Hval].
      destruct (assign_facts.assign_variant_validated
                  self now experiment_id user_id e He Hval Hact
                  Hcases Heid Huid Hsalt) as [v [Hv Hs]].
      exists v. split; [exact Hv|]. now apply assigned_declared in Hs.
Qed.

Lemma aware_end_date_raises now e d offset :
  Experiment.end_date e = Some d ->
  datetime.utcoffset d = Some offset ->
  ended now e
  = Error (TypeError
             "can't compare offset-naive and offset-aware datetimes").
Proof.
  intros Hd Hoff. pose proof (assign_facts.ended_cases now e) as H.
  now rewrite Hd, Hoff in H.
Qed.

(** X2: what [assign_variant] does in every state of the engine. It
    raises for an active experiment only, and then one of two
    exceptions: [TypeError], exactly when the end date of the experiment
    is aware, or [UnicodeEncodeError], exactly when the end-date test
    gives false and the experiment id, the user id or the salt holds a
    lone surrogate. It never raises [KeyError] from the traffic split,
    [IndexError] from an empty variant list, or an error of the hash
    arithmetic. It returns [None] exactly when the experiment is unknown,
    inactive, or past its end date, and a variant it returns is one the
    experiment declares. *)
Theorem assign_variant_outcomes self now experiment_id user_id :
  reachable self ->
  (assign_variant self now experiment_id user_id = Ok None
   <-> (experiments self !! experiment_id = None
        \/ exists e,
             experiments self !! experiment_id = Some e
             /\ (Experiment.is_active e = false
                 \/ ended now e = Ok true)))
  /\ (forall x,
        assign_variant self now experiment_id user_id = Error x
        <-> exists e,
              experiments self !! experiment_id = Some e
              /\ Experiment.is_active e = true
              /\ ((x = TypeError
                         "can't compare offset-naive and offset-aware datetimes"
                   /\ exists d offset,
                        Experiment.end_date e = Some d
                        /\ datetime.utcoffset d = Some offset)
                  \/ (x = UnicodeEncodeError
                      /\ ended now e = Ok false
                      /\ has_surrogate experiment_id
                         || has_surrogate user_id
                         || has_surrogate (salt self) = true)))
  /\ (forall v,
        assign_variant self now experiment_id user_id = Ok (Some v) ->
        exists e,
          experiments self !! experiment_id = Some e
          /\ Experiment.is_active e = true
          /\ ended now e = Ok false
          /\ has_surrogate experiment_id || has_surrogate user_id
             || has_surrogate (salt self) = false
          /\ In v (Experiment.variants e)).
Proof.
  intros Hreach.
  destruct (assign_variant_cases self now experiment_id user_id Hreach)
    as [[He Hr]
       |[e [He [[Hact Hr]
               |[Hact [[d [offset [Hd [Hoff Hr]]]]
                      |[[Hend Hr]
                       |[[Hend [Hsur Hr]]
                        |[Hend [Hsur [v [Hr Hin]]]]]]]]]]]];
    rewrite Hr.
  - split; [split; [now left | reflexivity]|].
    split; [|discriminate].
    intros x. split; [discriminate|].
    intros [e [He' _]]. congruence.
  - split; [split; [right; exists e; auto | reflexivity]|].
    split; [|discriminate].
    intros x. split; [discriminate|].
    intros [e' [He' [Hact' _]]]. congruence.
  - pose proof (aware_end_date_raises now e d offset Hd Hoff) as Hraise.
    split.
    { split; [discriminate|].
      intros [H|[e' [He' [H|H]]]]; congruence. }
    split; [|discriminate].
    intros x. split.
    + intros [= <-]. exists e. split; [exact He|]. split; [exact Hact|].
      left. split; [reflexivity|]. now exists d, offset.
    + intros [e' [He' [_ [[-> _]|[_ [Hend _]]]]]]; [reflexivity|].
      congruence.
  - split; [split; [right; exists e; auto | reflexivity]|].
    split; [|discriminate].
    intros x. split; [discriminate|].
    intros [e' [He' [_ [[_ [d [offset [Hd Hoff]]]]|[_ [Hend' _]]]]]].
    + assert (e' = e) as -> by congruence.
      rewrite (aware_end_date_raises now e d offset Hd Hoff) in Hend.
      discriminate.
    + congruence.
  - split.
    { split; [discriminate|].
      intros [H|[e' [He' [H|H]]]]; congruence. }
    split; [|discriminate].
    intros x. split.
    + intros [= <-]. exists e. split; [exact He|]. split; [exact Hact|].
      right. auto.
    + intros [e' [He' [_ [[_ [d [offset [Hd Hoff]]]]|[-> _]]]]];
        [|reflexivity].
      assert (e' = e) as -> by congruence.
      rewrite (aware_end_date_raises now e d offset Hd Hoff) in Hend.
      discriminate.
  - split.
    { split; [discriminate|].
      intros [H|[e' [He' [H|H]]]]; congruence. }
    split.
    + intros x. split; [discriminate|].
      intros [e' [He' [_ [[_ [d [offset [Hd Hoff]]]]|[_ [_ Hsur']]]]]].
      * assert (e' = e) as -> by congruence.
        rewrite (aware_end_date_raises now e d offset Hd Hoff) in Hend.
        discriminate.
      * congruence.
    + intros v' [= <-]. exists e. auto.
Qed.

Lemma assign_variant_outcomes_witness :
  exists e,
    experiments Fixtures.measured !! "test_exp_1" = Some e
    /\ In Fixtures.variant_a (Experiment.variants e).
Proof.
  destruct (proj2 (proj2 (assign_variant_outcomes Fixtures.measured
                            1700000000 "test_exp_1" "user_123"
                            measured_reachable))
              Fixtures.variant_a)
    as [e [He [_ [_ [_ Hin]]]]]; [vm_compute; reflexivity|].
  now exists e.
Defined.

Lemma assign_some_declared self now experiment_id user_id v :
  reachable self ->
  assign_variant self now experiment_id user_id = Ok (Some v) ->
  exists e,
    experiments self !! experiment_id = Some e
    /\ In v (Experiment.variants e).
Proof.
  intros Hreach Hv.
  destruct (assign_variant_cases self now experiment_id user_id Hreach)
    as [[He Hr]
       |[e [He [[Hact Hr]
               |[Hact [[d [offset [Hd [Hoff Hr]]]]
                      |[[Hend Hr]
                       |[[Hend [Hsur Hr]]
                        |[Hend [Hsur [v' [Hr Hin]]]]]]]]]]]];
    rewrite Hr in Hv; try discriminate.
  injection Hv as <-. now exists e.
Qed.

(** Whether it returns or raises, [record_metrics] on a row that exists
    leaves the count one higher and the tokens added. *)
Lemma record_metrics_counts self eid vid m tokens cost latency_ms error :
  Calls.row self eid vid = Some m ->
  exists m',
    Calls.row
      (state_of (record_metrics self eid vid tokens cost latency_ms error))
      eid vid = Some m'
    /\ ExperimentMetrics.total_requests m'
       = ExperimentMetrics.total_requests m + 1
    /\ ExperimentMetrics.total_tokens m'
       = ExperimentMetrics.total_tokens m + tokens.
Proof.
  intros Hm. destruct (row_lookup self eid vid m Hm) as [row [Hrow Hget]].
  unfold record_metrics. rewrite Hrow, Hget.
  destruct (int_to_float (ExperimentMetrics.total_requests m));
    [destruct (int_to_float (ExperimentMetrics.total_requests m + 1));
     [destruct (_ =? 0)|]|];
    cbn [state_of]; eexists;
    (split; [apply ab_testing_properties.row_store_row_eq|]);
    split; reflexivity.
Qed.

(** X3: the outcome of a request is never lost for the variant that
    [assign_variant] gave it: that variant has a metrics row, and
    [record_metrics] for it leaves the row's request count one higher and
    its token total raised by the tokens of the request. *)
Theorem assigned_outcome_is_counted self now experiment_id user_id v
    tokens cost latency_ms error :
  reachable self ->
  assign_variant self now experiment_id user_id = Ok (Some v) ->
  exists m m',
    Calls.row self experiment_id (ExperimentVariant.variant_id v) = Some m
    /\ Calls.row
         (state_of (record_metrics self experiment_id
                      (ExperimentVariant.variant_id v)
                      tokens cost latency_ms error))
         experiment_id (ExperimentVariant.variant_id v) = Some m'
    /\ ExperimentMetrics.total_requests m'
       = ExperimentMetrics.total_requests m + 1
    /\ ExperimentMetrics.total_tokens m'
       = ExperimentMetrics.total_tokens m + tokens.
Proof.
  intros Hreach Hv.
  destruct (assign_some_declared self now experiment_id user_id v Hreach Hv)
    as [e [He Hin]].
  destruct (Rows.inv_cover self (reachable_rows self Hreach)
                      experiment_id e v He Hin) as [m Hm].
  destruct (record_metrics_counts self experiment_id
              (ExperimentVariant.variant_id v) m tokens cost latency_ms
              error Hm) as [m' H'].
  exists m, m'. split; [exact Hm | exact H'].
Qed.

Lemma assigned_outcome_is_counted_witness :
  exists m m',
    Calls.row Fixtures.measured "test_exp_1" "variant_a" = Some m
    /\ Calls.row
         (state_of (record_metrics Fixtures.measured "test_exp_1" "variant_a"
                      120 0.015%float 450%float false))
         "test_exp_1" "variant_a" = Some m'
    /\ ExperimentMetrics.total_requests m'
       = ExperimentMetrics.total_requests m + 1
    /\ ExperimentMetrics.total_tokens m'
       = ExperimentMetrics.total_tokens m + 120.
Proof.
  refine (assigned_outcome_is_counted Fixtures.measured 1700000000
            "test_exp_1" "user_123" Fixtures.variant_a
            120 0.015%float 450%float false measured_reachable _).
  vm_compute. reflexivity.
Defined.

Lemma assign_variant_same_lookup self self' now experiment_id user_id :
  experiments self' !! experiment_id = experiments self !! experiment_id ->
  salt self' = salt self ->
  assign_variant self' now experiment_id user_id
  = assign_variant self now experiment_id user_id.
Proof.
  intros He Hs. unfold assign_variant, hash_bucket. now rewrite He, Hs.
Qed.

(** X4: after [stop_experiment] no user is assigned a variant of that
    experiment any more, at any time. Stopping twice is stopping once,
    stopping an unknown id changes nothing, and a stop touches neither the
    metrics nor any other experiment, whose assignments stay what they
    were. *)
Theorem stop_experiment_ends_assignment self experiment_id :
  (forall now user_id,
     assign_variant (stop_experiment self experiment_id) now
                    experiment_id user_id = Ok None)
  /\ stop_experiment (stop_experiment self experiment_id) experiment_id
     = stop_experiment self experiment_id
  /\ (experiments self !! experiment_id = None ->
      stop_experiment self experiment_id = self)
  /\ metrics (stop_experiment self experiment_id) = metrics self
  /\ (forall other now user_id,
        other <> experiment_id ->
        experiments (stop_experiment self experiment_id) !! other
        = experiments self !! other
        /\ assign_variant (stop_experiment self experiment_id) now
                          other user_id
           = assign_variant self now other user_id).
Proof.
  unfold stop_experiment.
  destruct (experiments self !! experiment_id) as [e|] eqn:He.
  - repeat split.
    + intros now user_id. unfold assign_variant. cbn [experiments].
      now rewrite lookup_insert_eq.
    + cbn [experiments metrics salt]. rewrite lookup_insert_eq.
      cbn. now rewrite insert_insert_eq.
    + discriminate.
    + cbn [experiments]. now rewrite lookup_insert_ne.
    + apply assign_variant_same_lookup; cbn [experiments salt];
        [now rewrite lookup_insert_ne | reflexivity].
  - rewrite He. repeat split.
    intros now user_id. unfold assign_variant. now rewrite He.
Qed.

(** X5: the first satisfaction score of a row is stored as it is. A
    further score for a row that has a score but no request yet divides by
    the request count 0: [record_satisfaction] raises [ZeroDivisionError]
    and leaves the state as it was. *)
Theorem record_satisfaction_first_and_zero self eid vid m score :
  Calls.row self eid vid = Some m ->
  (ExperimentMetrics.user_satisfaction m = None ->
   exists self' m',
     record_satisfaction self eid vid score = Returned self'
     /\ Calls.row self' eid vid = Some m'
     /\ ExperimentMetrics.user_satisfaction m' = Some score)
  /\ (forall old,
        ExperimentMetrics.user_satisfaction m = Some old ->
        ExperimentMetrics.total_requests m = 0 ->
        record_satisfaction self eid vid score
        = Raised ZeroDivisionError self).
Proof.
  intros Hm. destruct (row_lookup self eid vid m Hm) as [row [Hrow Hget]].
  unfold record_satisfaction. rewrite Hrow, Hget. split.
  - intros ->. eexists. eexists. split; [reflexivity|].
    split; [apply ab_testing_properties.row_store_row_eq | reflexivity].
  - intros old -> ->. reflexivity.
Qed.

Lemma record_satisfaction_first_and_zero_witness :
  record_satisfaction
    (state_of (record_satisfaction Fixtures.registered "test_exp_1"
                                   "control" 0.8%float))
    "test_exp_1" "control" 0.6%float
  = Raised ZeroDivisionError
      (state_of (record_satisfaction Fixtures.registered "test_exp_1"
                                     "control" 0.8%float)).
Proof.
  refine (proj2 (record_satisfaction_first_and_zero
                   (state_of (record_satisfaction Fixtures.registered
                                "test_exp_1" "control" 0.8%float))
                   "test_exp_1" "control"
                   (with_satisfaction (ExperimentMetrics.new "control")
                                      0.8%float)
                   0.6%float _) 0.8%float _ _);
    vm_compute; reflexivity.
Defined.

(** X6: [record_satisfaction] writes the satisfaction average of the row
    it is called for and nothing else: for every row, the request count,
    the token and cost totals, the average latency and the error rate are
    what they were; every other row, the experiments and the salt are
    untouched, whether the call returns or raises. *)
Theorem record_satisfaction_frame self eid vid score :
  experiments (state_of (record_satisfaction self eid vid score))
  = experiments self
  /\ salt (state_of (record_satisfaction self eid vid score)) = salt self
  /\ (forall eid' vid',
        option_map Rows.counters
          (Calls.row (state_of (record_satisfaction self eid vid score))
                     eid' vid')
        = option_map Rows.counters (Calls.row self eid' vid'))
  /\ (forall eid' vid',
        (eid', vid') <> (eid, vid) ->
        Calls.row (state_of (record_satisfaction self eid vid score))
                  eid' vid'
        = Calls.row self eid' vid').
Proof.
  assert (forall row m s,
            metrics self !! eid = Some row ->
            odict.get row vid = Some m ->
            forall eid' vid',
              option_map Rows.counters
                (Calls.row (store_row self eid vid row
                              (with_satisfaction m s)) eid' vid')
              = option_map Rows.counters (Calls.row self eid' vid'))
    as Hcounters.
  { intros row m s Hrow Hget eid' vid'.
    destruct (decide ((eid', vid') = (eid, vid))) as [[= -> ->]|Hne].
    - rewrite ab_testing_properties.row_store_row_eq.
      unfold Calls.row. now rewrite Hrow, Hget.
    - now rewrite ab_testing_properties.row_store_row_ne. }
  unfold record_satisfaction.
  destruct (metrics self !! eid) as [row|] eqn:Hrow; [|now repeat split].
  destruct (odict.get row vid) as [m|] eqn:Hget; [|now repeat split].
  destruct (ExperimentMetrics.user_satisfaction m).
  - destruct (int_to_float (ExperimentMetrics.total_requests m - 1));
      [destruct (int_to_float (ExperimentMetrics.total_requests m));
       [destruct (_ =? 0)|]|];
      cbn [state_of]; try (now repeat split).
    repeat split; [now apply Hcounters|].
    intros eid' vid' Hne.
    now apply ab_testing_properties.row_store_row_ne.
  - cbn [state_of]. repeat split; [now apply Hcounters|].
    intros eid' vid' Hne.
    now apply ab_testing_properties.row_store_row_ne.
Qed.

Lemma fold_results : forall (items acc : odict.t _),
  NoDup (odict.keys acc ++ odict.keys items) ->
  fold_left (fun res kv => odict.set res kv.1 (result_of kv.1 kv.2))
            items acc
  = acc ++ Rows.listed items.
Proof.
  induction items as [|[k m] items IH]; intros acc Hnd.
  - simpl. now rewrite app_nil_r.
  - cbn [fold_left fst snd Rows.listed map].
    assert (odict.get acc k = None) as Hnone.
    { destruct (odict.get acc k) as [r|] eqn:E; [|reflexivity].
      apply odict_facts.get_some_in_keys in E.
      apply NoDup_app in Hnd. destruct Hnd as [_ [Hdis _]].
      destruct (Hdis k); [now apply list_elem_of_In | now left]. }
    rewrite (set_absent acc k _ Hnone).
    rewrite IH.
    + now rewrite <- app_assoc.
    + unfold odict.keys in *. rewrite map_app, <- app_assoc. exact Hnd.
Qed.

Lemma get_experiment_results_known self experiment_id e row :
  Rows.inv self ->
  experiments self !! experiment_id = Some e ->
  metrics self !! experiment_id = Some row ->
  get_experiment_results self experiment_id
  = (Some (Rows.listed row), self).
Proof.
  intros Hrows He Hrow. unfold get_experiment_results.
  rewrite He, Hrow. cbn [default from_option]. unfold odict.items, id.
  rewrite (fold_results row odict.empty)
    by exact (proj1 (Rows.inv_well_formed self Hrows _ row Hrow)).
  cbn [app]. f_equal. unfold with_metrics.
  rewrite insert_id by assumption. now destruct self.
Qed.



Lemma winner_among : forall items best w,
  (fold_left winner_step items best).1 = Some w ->
  best.1 = Some w \/ In w (map fst items).
Proof.
  induction items as [|kv items IH]; intros best w H; [now left|].
  cbn [fold_left] in H. apply IH in H. destruct H as [H|H].
  - unfold winner_step in H.
    destruct (PrimFloat.ltb _ _); [|now left].
    cbn [fst] in H. injection H as <-. right. now left.
  - right. now right.
Qed.

(** X8: in every state of the engine [get_winner] writes nothing, has no
    winner for an unknown experiment, and a winner it names is always the
    key of a metrics row of that experiment. *)
Theorem get_winner_names_a_row self experiment_id :
  reachable self ->
  (get_winner self experiment_id).2 = self
  /\ (experiments self !! experiment_id = None ->
      (get_winner self experiment_id).1 = None)
  /\ (forall w,
        (get_winner self experiment_id).1 = Some w ->
        exists m, Calls.row self experiment_id w = Some m).
Proof.
  intros Hreach.
  pose proof (engine_facts.reachable_inv self Hreach) as Hinv.
  pose proof (reachable_rows self Hreach) as Hrows.
  split; [now apply engine_facts.get_winner_state|].
  unfold get_winner.
  destruct (experiments self !! experiment_id) as [e|] eqn:He.
  - split; [discriminate|].
    destruct (inv_rows self Hinv experiment_id e He) as [row Hrow].
    rewrite (get_experiment_results_known self experiment_id e row
               Hrows He Hrow).
    intros w Hw.
    apply winner_among in Hw. destruct Hw as [Hw|Hw]; [discriminate|].
    unfold Rows.listed, odict.items in Hw. rewrite map_map in Hw.
    cbn [fst] in Hw.
    unfold Calls.row. rewrite Hrow.
    now apply odict_facts.in_keys_get.
  - unfold get_experiment_results. rewrite He.
    split; [reflexivity|]. discriminate.
Qed.

Lemma get_winner_names_a_row_witness :
  exists m, Calls.row Fixtures.contested "test_exp_1" "variant_a" = Some m.
Proof.
  refine (proj2 (proj2 (get_winner_names_a_row Fixtures.contested
                          "test_exp_1" _)) "variant_a" _).
  - assert (forall k s, reachable s ->
              reachable (state_of (Fixtures.contest k s))) as H.
    { induction k as [|k IH]; intros s Hs; [exact Hs|].
      cbn [Fixtures.contest].
      pose proof (reachable_step _ _ Hs
                    (step_record_metrics s "test_exp_1" "control" 100
                       0.01%float 800%float true)) as H1.
      destruct (record_metrics s "test_exp_1" "control" 100 0.01%float
                               800%float true) as [s1|e1 s1];
        cbn [Calls.and_then state_of] in *; [|exact H1].
      pose proof (reachable_step _ _ H1
                    (step_record_metrics s1 "test_exp_1" "variant_a" 100
                       0.01%float 400%float false)) as H2.
      destruct (record_metrics s1 "test_exp_1" "variant_a" 100 0.01%float
                               400%float false) as [s2|e2 s2];
        cbn [Calls.and_then state_of] in *; [|exact H2].
      now apply IH. }
    apply H, ab_testing_properties.registered_reachable.
  - vm_compute. reflexivity.
Defined.

Lemma record_metrics_keeps_experiments self eid vid tokens cost latency_ms
    error :
  experiments (state_of (record_metrics self eid vid tokens cost latency_ms
                                        error)) = experiments self
  /\ salt (state_of (record_metrics self eid vid tokens cost latency_ms
                                    error)) = salt self.
Proof.
  unfold record_metrics.
  destruct (metrics self !! eid) as [row|]; [|now split].
  destruct (odict.get row vid) as [m|]; [|now split].
  destruct (int_to_float (ExperimentMetrics.total_requests m));
    [destruct (int_to_float (ExperimentMetrics.total_requests m + 1));
     [destruct (_ =? 0)|]|];
    now split.
Qed.

Lemma record_satisfaction_keeps_experiments self eid vid score :
  experiments (state_of (record_satisfaction self eid vid score))
  = experiments self
  /\ salt (state_of (record_satisfaction self eid vid score)) = salt self.
Proof.
  unfold record_satisfaction.
  destruct (metrics self !! eid) as [row|]; [|now split].
  destruct (odict.get row vid) as [m|]; [|now split].
  destruct (ExperimentMetrics.user_satisfaction m); [|now split].
  destruct (int_to_float (ExperimentMetrics.total_requests m - 1));
    [destruct (int_to_float (ExperimentMetrics.total_requests m));
     [destruct (_ =? 0)|]|];
    now split.
Qed.

(** X25: a user's variant does not move while the experiment stands. No
    recording of metrics or of a satisfaction score, no reading of
    results or of the winner, and no registration or stop of another
    experiment changes what [assign_variant] gives for an experiment and
    a user at a given time. *)
Theorem assignment_is_sticky self now experiment_id user_id :
  (forall eid vid tokens cost latency_ms error,
     assign_variant
       (state_of (record_metrics self eid vid tokens cost latency_ms error))
       now experiment_id user_id
     = assign_variant self now experiment_id user_id)
  /\ (forall eid vid score,
        assign_variant (state_of (record_satisfaction self eid vid score))
                       now experiment_id user_id
        = assign_variant self now experiment_id user_id)
  /\ (forall eid,
        assign_variant (get_experiment_results self eid).2 now
                       experiment_id user_id
        = assign_variant self now experiment_id user_id
        /\ assign_variant (get_winner self eid).2 now
                          experiment_id user_id
           = assign_variant self now experiment_id user_id)
  /\ (forall experiment,
        Experiment.experiment_id experiment <> experiment_id ->
        assign_variant (create_experiment self experiment).2 now
                       experiment_id user_id
        = assign_variant self now experiment_id user_id)
  /\ (forall other,
        other <> experiment_id ->
        assign_variant (stop_experiment self other) now
                       experiment_id user_id
        = assign_variant self now experiment_id user_id).
Proof.
  assert (forall eid,
            experiments (get_experiment_results self eid).2
            = experiments self
            /\ salt (get_experiment_results self eid).2 = salt self)
    as Hresults.
  { intros eid. unfold get_experiment_results.
    destruct (experiments self !! eid); now split. }
  split; [|split; [|split; [|split]]].
  - intros eid vid tokens cost latency_ms error.
    destruct (record_metrics_keeps_experiments self eid vid tokens cost
                latency_ms error) as [He Hs].
    apply assign_variant_same_lookup; [now rewrite He | exact Hs].
  - intros eid vid score.
    destruct (record_satisfaction_keeps_experiments self eid vid score)
      as [He Hs].
    apply assign_variant_same_lookup; [now rewrite He | exact Hs].
  - intros eid. destruct (Hresults eid) as [He Hs]. split.
    + apply assign_variant_same_lookup; [now rewrite He | exact Hs].
    + unfold get_winner.
      destruct (get_experiment_results self eid) as [[res|] self'];
        cbn [snd] in *;
        (apply assign_variant_same_lookup; [now rewrite He | exact Hs]).
  - intros experiment Hne. unfold create_experiment.
    destruct (negb _); [reflexivity|].
    destruct (bool_decide _); [reflexivity|].
    cbn [snd]. apply assign_variant_same_lookup; cbn [experiments salt];
      [now rewrite lookup_insert_ne | reflexivity].
  - intros other Hne. unfold stop_experiment.
    destruct (experiments self !! other); [|reflexivity].
    apply assign_variant_same_lookup; cbn [experiments salt];
      [now rewrite lookup_insert_ne | reflexivity].
Qed.

Lemma set_keeps_new (row : odict.t ExperimentMetrics.t) k :
  Forall (fun kv => kv.2 = ExperimentMetrics.new kv.1) row ->
  Forall (fun kv => kv.2 = ExperimentMetrics.new kv.1)
         (odict.set row k (ExperimentMetrics.new k)).
Proof.
  induction 1 as [|[k0 m0] row Hkv Hrow IH]; cbn [odict.set].
  - now repeat constructor.
  - destruct (String.eqb k0 k) eqn:E.
    + apply String.eqb_eq in E. subst. now constructor.
    + now constructor.
Qed.

Lemma init_row_keeps_new : forall vs row,
  Forall (fun kv => kv.2 = ExperimentMetrics.new kv.1) row ->
  Forall (fun kv => kv.2 = ExperimentMetrics.new kv.1) (init_row vs row).
Proof.
  unfold init_row.
  induction vs as [|v vs IH]; intros row H; cbn [fold_left];
    [assumption|].
  apply IH. now apply set_keeps_new.
Qed.

Lemma init_row_keeps_head : forall vs k m row,
  exists m' rest, init_row vs ((k, m) :: row) = (k, m') :: rest.
Proof.
  unfold init_row.
  induction vs as [|v vs IH]; intros k m row; cbn [fold_left odict.set].
  - now exists m, row.
  - destruct (String.eqb k (ExperimentVariant.variant_id v)); apply IH.
Qed.

Lemma winner_stays_among_new k : forall l,
  Forall (fun kv => kv.2 = ExperimentMetrics.new kv.1) l ->
  fold_left winner_step (Rows.listed l)
            (Some k, score (result_of k (ExperimentMetrics.new k)))
  = (Some k, score (result_of k (ExperimentMetrics.new k))).
Proof.
  induction 1 as [|[k0 m0] l Hkv _ IH]; [reflexivity|].
  cbn [Rows.listed map fold_left fst snd] in *. subst m0.
  unfold winner_step at 2. cbn [fst snd].
  change (PrimFloat.ltb (score (result_of k (ExperimentMetrics.new k)))
                        (score (result_of k0 (ExperimentMetrics.new k0))))
    with false.
  exact IH.
Qed.

(** X26: an experiment that has just been registered under an id without
    metrics already has a winner, before any request was recorded: all its
    rows score alike, and [get_winner] names the variant that is declared
    first. *)
Theorem untested_experiment_has_a_winner self e :
  metrics self !! Experiment.experiment_id e = None ->
  (create_experiment self e).1.1 = true ->
  exists v rest,
    Experiment.variants e = v :: rest
    /\ (get_winner (create_experiment self e).2
                   (Experiment.experiment_id e)).1
       = Some (ExperimentVariant.variant_id v).
Proof.
  intros Hfresh Haccepted.
  assert (validated e) as Hval.
  { unfold create_experiment in Haccepted.
    destruct (valid_total _) eqn:Hsum; cbn [negb] in Haccepted;
      [|discriminate].
    destruct (bool_decide_reflect (variant_id_set e ≠ split_id_set e))
      as [Hne|Heq]; [discriminate|].
    split; [exact Hsum|].
    destruct (decide (variant_id_set e = split_id_set e));
      [assumption | contradiction]. }
  rewrite (engine_facts.create_experiment_accepts self e Hval). cbn [snd].
  destruct (Experiment.variants e) as [|v rest] eqn:Hvs;
    [now destruct (assign_facts.validated_nonempty e Hval)|].
  exists v, rest. split; [reflexivity|].
  unfold get_winner, get_experiment_results. cbn [experiments metrics].
  rewrite lookup_insert_eq.
  rewrite engine_facts.init_metrics_cons, Hfresh.
  cbn [default from_option]. unfold odict.items, id.
  set (row := init_row (v :: rest) odict.empty).
  assert (Rows.well_formed row) as [Hnd _]
    by (apply (init_row_well_formed (v :: rest)), empty_well_formed).
  rewrite (fold_results row odict.empty) by exact Hnd.
  cbn [app fst].
  assert (Forall (fun kv => kv.2 = ExperimentMetrics.new kv.1) row) as Hnew
    by (apply init_row_keeps_new; constructor).
  destruct (init_row_keeps_head rest (ExperimentVariant.variant_id v)
              (ExperimentMetrics.new (ExperimentVariant.variant_id v)) [])
    as [m' [tail Hrow]].
  change (init_row rest
            [(ExperimentVariant.variant_id v,
              ExperimentMetrics.new (ExperimentVariant.variant_id v))])
    with row in Hrow.
  rewrite Hrow in *.
  inversion Hnew as [|? ? Hm' Htail]; subst. cbn [fst snd] in Hm'. subst m'.
  unfold odict.empty. cbn [app Rows.listed map fold_left fst snd].
  unfold winner_step at 2. cbn [fst snd].
  change (PrimFloat.ltb neg_infinity
            (score (result_of (ExperimentVariant.variant_id v)
                      (ExperimentMetrics.new
                         (ExperimentVariant.variant_id v)))))
    with true.
  cbv iota.
  change (map (fun kv : string * ExperimentMetrics.t =>
                 (kv.1, result_of kv.1 kv.2)) tail)
    with (Rows.listed tail).
  now rewrite winner_stays_among_new.
Qed.

Lemma untested_experiment_has_a_winner_witness :
  exists v rest,
    Experiment.variants Fixtures.test_experiment = v :: rest
    /\ (get_winner (create_experiment Fixtures.fresh
                                      Fixtures.test_experiment).2
                   (Experiment.experiment_id Fixtures.test_experiment)).1
       = Some (ExperimentVariant.variant_id v).
Proof.
  refine (untested_experiment_has_a_winner Fixtures.fresh
            Fixtures.test_experiment _ _); vm_compute; reflexivity.
Defined.

End engine_properties.

(* ===================================================================== *)
(** * Provider fail-over: what holds for every manager                    *)
(* ===================================================================== *)

Module provider_properties.
Import ProviderManager Traces.

Lemma select_model_in provider requested_model m :
  select_model_for_provider provider requested_model = Ok m ->
  In m (BaseProvider.supported_models provider).
Proof.
  unfold select_model_for_provider.
  assert (forall m,
            match BaseProvider.supported_models provider with
            | d :: _ => Ok d
            | [] => Error (ValueError ("No supported models for provider "
                                       +:+ BaseProvider.name provider))
            end = Ok m ->
            In m (BaseProvider.supported_models provider)) as Hdefault.
  { intros m'. destruct (BaseProvider.supported_models provider);
      [discriminate|]. intros [= <-]. now left. }
  destruct requested_model as [r|]; [|apply Hdefault].
  destruct (truthy (Some r) && existsb (String.eqb r) _) eqn:Hc;
    [|apply Hdefault].
  intros [= <-]. apply andb_prop in Hc. destruct Hc as [_ Hex].
  apply existsb_exists in Hex. destruct Hex as [x [Hin Heq]].
  apply String.eqb_eq in Heq. now subst.
Qed.

Lemma select_model_error provider requested_model e :
  select_model_for_provider provider requested_model = Error e ->
  BaseProvider.supported_models provider = []
  /\ e = ValueError ("No supported models for provider "
                     +:+ BaseProvider.name provider).
Proof.
  unfold select_model_for_provider.
  destruct (BaseProvider.supported_models provider) as [|d l].
  - destruct requested_model as [r|].
    + rewrite andb_false_r. now intros [= <-].
    + now intros [= <-].
  - destruct requested_model as [r|]; [destruct (_ && _)|]; discriminate.
Qed.

(** X9: [select_model_for_provider] never gives a model the provider does
    not support. It gives the requested model when that is a non-empty
    name of a supported model, the provider's first model for every other
    request, and raises [ValueError] exactly when the provider supports no
    model at all. *)
Theorem select_model_for_provider_cases provider requested_model :
  (forall m,
     select_model_for_provider provider requested_model = Ok m ->
     In m (BaseProvider.supported_models provider))
  /\ (forall m,
        requested_model = Some m -> m <> EmptyString ->
        In m (BaseProvider.supported_models provider) ->
        select_model_for_provider provider requested_model = Ok m)
  /\ (forall d rest,
        BaseProvider.supported_models provider = d :: rest ->
        (forall m, requested_model = Some m ->
                   m = EmptyString
                   \/ ~ In m (BaseProvider.supported_models provider)) ->
        select_model_for_provider provider requested_model = Ok d)
  /\ ((exists e,
         select_model_for_provider provider requested_model = Error e)
      <-> BaseProvider.supported_models provider = [])
  /\ (forall e,
        select_model_for_provider provider requested_model = Error e ->
        e = ValueError ("No supported models for provider "
                        +:+ BaseProvider.name provider)).
Proof.
  split; [intros m; apply select_model_in|].
  split.
  { intros m -> Hne Hin. unfold select_model_for_provider.
    assert (existsb (String.eqb m) (BaseProvider.supported_models provider)
            = true) as ->.
    { apply existsb_exists. exists m. split; [exact Hin|].
      apply String.eqb_refl. }
    destruct m; [easy|reflexivity]. }
  split.
  { intros d rest Hs Hreq. unfold select_model_for_provider.
    destruct requested_model as [m|]; [|now rewrite Hs].
    destruct (truthy (Some m) && existsb (String.eqb m) _) eqn:Hc;
      [|now rewrite Hs].
    apply andb_prop in Hc. destruct Hc as [Ht Hex].
    apply existsb_exists in Hex. destruct Hex as [x [Hin Heq]].
    apply String.eqb_eq in Heq. subst x.
    destruct (Hreq m eq_refl) as [->|Hn]; [discriminate Ht | easy]. }
  split.
  { split.
    - intros [e He]. now apply select_model_error in He.
    - intros Hs. unfold select_model_for_provider. rewrite Hs.
      destruct requested_model as [m|]; [|eauto].
      rewrite andb_false_r. eauto. }
  intros e He. now apply select_model_error in He.
Qed.

Lemma called_app evs1 evs2 :
  called (evs1 ++ evs2) = called evs1 ++ called evs2.
Proof.
  induction evs1 as [|[c m|w|ch] evs1 IH]; cbn [app called];
    [reflexivity | now rewrite IH | exact IH | exact IH].
Qed.

Lemma slept_app evs1 evs2 :
  slept (evs1 ++ evs2) = slept evs1 ++ slept evs2.
Proof.
  induction evs1 as [|[c m|w|ch] evs1 IH]; cbn [app slept];
    [reflexivity | exact IH | now rewrite IH | exact IH].
Qed.

Lemma yielded_app evs1 evs2 :
  yielded (evs1 ++ evs2) = yielded evs1 ++ yielded evs2.
Proof.
  induction evs1 as [|[c m|w|ch] evs1 IH]; cbn [app yielded];
    [reflexivity | exact IH | exact IH | now rewrite IH].
Qed.

Lemma called_yields chunks : called (map Yield chunks) = [].
Proof. now induction chunks. Qed.

Lemma slept_yields chunks : slept (map Yield chunks) = [].
Proof. now induction chunks. Qed.

Lemma yielded_yields chunks : yielded (map Yield chunks) = chunks.
Proof. induction chunks as [|c l IH]; [reflexivity|]. cbn. now rewrite IH. Qed.

Lemma called_pause n f : called (pause n f) = [].
Proof. now destruct f. Qed.

Lemma yielded_pause n f : yielded (pause n f) = [].
Proof. now destruct f. Qed.

Lemma wait_time_bounds n : 1 <= n -> 2 <= wait_time n <= 10.
Proof.
  intros Hn. unfold wait_time.
  assert (2 ^ 1 <= 2 ^ n) by (apply Z.pow_le_mono_r; lia).
  change (2 ^ 1) with 2 in *. lia.
Qed.

Section Loops.
Variable self : t.
Variable enable_fallback : bool.
Variable messages : list Message.t.
Variable model : option string.
Variable max_tokens : option Z.
Variable temperature : float.
Variable tools : option (list string).

Local Abbreviation complete_from total n order last_error attempts :=
  (complete_loop self enable_fallback messages model max_tokens temperature
                 tools total n order last_error attempts).
Local Abbreviation stream_from total n order last_error :=
  (stream_loop self enable_fallback messages model max_tokens temperature
               tools total n order last_error).

(** One round of either loop, case by case. *)
Ltac round c IH :=
  let provider := fresh "provider" in
  let Hp := fresh "Hp" in
  let pm := fresh "pm" in
  let Hpm := fresh "Hpm" in
  cbn [complete_loop stream_loop];
  destruct (providers self !! c) as [provider|] eqn:Hp;
  [destruct (select_model_for_provider provider model) as [pm|?] eqn:Hpm|].

Lemma complete_loop_called total : forall order n last_error attempts,
  called (complete_from total n order last_error attempts).1
    `sublist_of` order
  /\ Forall (registered self)
            (called (complete_from total n order last_error attempts).1).
Proof.
  induction order as [|c rest IH]; intros n last_error attempts.
  - split; [apply sublist_nil_l | constructor].
  - round c IH.
    + destruct (BaseProvider.complete provider _) as [response|f].
      * cbn [fst called]. split.
        -- apply sublist_skip, sublist_nil_l.
        -- repeat constructor. now exists provider.
      * destruct (enable_fallback && (n <? total)).
        -- unfold before. cbn [fst]. fold (pause n f).
           rewrite <- app_comm_cons. cbn [called].
           rewrite called_app, called_pause. cbn [app].
           destruct (IH (n + 1) (Some f)
                        (attempts ++ [attempt_line c f])) as [Hs Hr].
           split; [now apply sublist_skip|].
           constructor; [now exists provider | exact Hr].
        -- cbn [fst called]. split.
           ++ apply sublist_skip, sublist_nil_l.
           ++ repeat constructor. now exists provider.
    + cbn [fst called]. split; [apply sublist_nil_l | constructor].
    + destruct (IH (n + 1) last_error attempts) as [Hs Hr].
      split; [now apply sublist_cons | exact Hr].
Qed.

Lemma stream_loop_called total : forall order n last_error,
  called (stream_from total n order last_error).1 `sublist_of` order
  /\ Forall (registered self)
            (called (stream_from total n order last_error).1).
Proof.
  induction order as [|c rest IH]; intros n last_error.
  - split; [apply sublist_nil_l | constructor].
  - round c IH.
    + destruct (BaseProvider.stream_complete provider _) as [chunks [f|]].
      * destruct (enable_fallback && (n <? total)).
        -- unfold before. cbn [fst]. fold (pause n f).
           rewrite <- !app_comm_cons. cbn [called].
           rewrite !called_app, called_yields, called_pause. cbn [app].
           destruct (IH (n + 1) (Some f)) as [Hs Hr].
           split; [now apply sublist_skip|].
           constructor; [now exists provider | exact Hr].
        -- cbn [fst called]. rewrite called_yields. split.
           ++ apply sublist_skip, sublist_nil_l.
           ++ repeat constructor. now exists provider.
      * cbn [fst called]. rewrite called_yields. split.
        -- apply sublist_skip, sublist_nil_l.
        -- repeat constructor. now exists provider.
    + cbn [fst called]. split; [apply sublist_nil_l | constructor].
    + destruct (IH (n + 1) last_error) as [Hs Hr].
      split; [now apply sublist_cons | exact Hr].
Qed.

Lemma slept_pause_bounds n f total :
  1 <= n -> (n <? total) = true ->
  Forall (fun w => 2 <= w <= 10) (slept (pause n f))
  /\ Z.of_nat (length (slept (pause n f))) <= 1.
Proof.
  intros Hn _. destruct f; cbn [pause slept length].
  - split; [repeat constructor; apply wait_time_bounds, Hn | lia].
  - split; [constructor | lia].
Qed.

Lemma complete_loop_slept total : forall order n last_error attempts,
  1 <= n ->
  Forall (fun w => 2 <= w <= 10)
         (slept (complete_from total n order last_error attempts).1)
  /\ Z.of_nat
       (length (slept (complete_from total n order last_error attempts).1))
     <= Z.max 0 (total - n).
Proof.
  induction order as [|c rest IH]; intros n last_error attempts Hn.
  - cbn. split; [constructor | lia].
  - round c IH.
    + destruct (BaseProvider.complete provider _) as [response|f].
      * cbn. split; [constructor | lia].
      * destruct (enable_fallback && (n <? total)) eqn:Hc.
        -- apply andb_prop in Hc. destruct Hc as [_ Hlt].
           unfold before. cbn [fst]. fold (pause n f).
           rewrite <- app_comm_cons. cbn [slept].
           rewrite slept_app, length_app, Nat2Z.inj_add.
           destruct (slept_pause_bounds n f total Hn Hlt) as [Hb Hl].
           destruct (IH (n + 1) (Some f)
                        (attempts ++ [attempt_line c f])) as [Hs Hr];
             [lia|].
           split; [now apply Forall_app|].
           apply Z.ltb_lt in Hlt. lia.
        -- cbn. split; [constructor | lia].
    + cbn. split; [constructor | lia].
    + destruct (IH (n + 1) last_error attempts) as [Hs Hr]; [lia|].
      split; [exact Hs | lia].
Qed.

Lemma stream_loop_slept total : forall order n last_error,
  1 <= n ->
  Forall (fun w => 2 <= w <= 10)
         (slept (stream_from total n order last_error).1)
  /\ Z.of_nat (length (slept (stream_from total n order last_error).1))
     <= Z.max 0 (total - n).
Proof.
  induction order as [|c rest IH]; intros n last_error Hn.
  - cbn. split; [constructor | lia].
  - round c IH.
    + destruct (BaseProvider.stream_complete provider _) as [chunks [f|]].
      * destruct (enable_fallback && (n <? total)) eqn:Hc.
        -- apply andb_prop in Hc. destruct Hc as [_ Hlt].
           unfold before. cbn [fst]. fold (pause n f).
           rewrite <- !app_comm_cons. cbn [slept].
           rewrite !slept_app, slept_yields. cbn [app].
           rewrite length_app, Nat2Z.inj_add.
           destruct (slept_pause_bounds n f total Hn Hlt) as [Hb Hl].
           destruct (IH (n + 1) (Some f)) as [Hs Hr]; [lia|].
           split; [now apply Forall_app|].
           apply Z.ltb_lt in Hlt. lia.
        -- cbn [fst slept]. rewrite slept_yields.
           split; [constructor | cbn; lia].
      * cbn [fst slept]. rewrite slept_yields.
        split; [constructor | cbn; lia].
    + cbn. split; [constructor | lia].
    + destruct (IH (n + 1) last_error) as [Hs Hr]; [lia|].
      split; [exact Hs | lia].
Qed.

Lemma stream_loop_yielded total : forall order n last_error,
  yielded (stream_from total n order last_error).1
  = flat_map (streamed self messages max_tokens temperature tools)
             (stream_from total n order last_error).1.
Proof.
  assert (forall chunks,
            flat_map (streamed self messages max_tokens temperature tools)
                     (map Yield chunks) = []) as Hy
    by (now induction chunks).
  assert (forall n f,
            flat_map (streamed self messages max_tokens temperature tools)
                     (pause n f) = []) as Hpause
    by (now intros n []).
  induction order as [|c rest IH]; intros n last_error; [reflexivity|].
  round c IH.
  - destruct (BaseProvider.stream_complete provider _)
      as [chunks ending] eqn:Hs.
    assert (streamed self messages max_tokens temperature tools (Call c pm)
            = chunks) as Hcall.
    { unfold streamed. now rewrite Hp, Hs. }
    destruct ending as [f|].
    + destruct (enable_fallback && (n <? total)).
      * unfold before. cbn [fst]. fold (pause n f).
        rewrite <- !app_comm_cons. cbn [yielded flat_map].
        rewrite !yielded_app, !flat_map_app, yielded_yields, yielded_pause,
          Hy, Hpause, Hcall, IH.
        cbn [app]. now rewrite app_nil_r.
      * cbn [fst yielded flat_map].
        rewrite yielded_yields, Hy, Hcall. now rewrite app_nil_r.
    + cbn [fst yielded flat_map].
      rewrite yielded_yields, Hy, Hcall. now rewrite app_nil_r.
  - reflexivity.
  - apply IH.
Qed.

(** The report of a failed completion, for every manager. *)
Lemma complete_loop_report total : forall order n last_error attempts e,
  (complete_from total n order last_error attempts).2 = Error e ->
  (exists c provider,
     In c order
     /\ providers self !! c = Some provider
     /\ BaseProvider.supported_models provider = []
     /\ e = ValueError ("No supported models for provider "
                        +:+ BaseProvider.name provider))
  \/ (exists tried : list (string * BaseProvider.failure),
        e = all_failed
              (attempts ++ map (fun cf => attempt_line cf.1 cf.2) tried)
              (match last tried with
               | Some cf => Some cf.2
               | None => last_error
               end)
        /\ map fst tried
           = called (complete_from total n order last_error attempts).1
        /\ Forall
             (fun cf =>
                exists provider provider_model,
                  providers self !! cf.1 = Some provider
                  /\ select_model_for_provider provider model
                     = Ok provider_model
                  /\ BaseProvider.complete provider
                       (call_for messages max_tokens temperature tools
                                 provider_model)
                     = BaseProvider.Failed cf.2)
             tried).
Proof.
  induction order as [|c rest IH]; intros n last_error attempts e.
  - cbn [complete_loop snd fst]. intros [= <-]. right.
    exists []. cbn [map last called]. rewrite app_nil_r.
    repeat split. constructor.
  - round c IH.
    + destruct (BaseProvider.complete provider _) as [response|f] eqn:Hf;
        [discriminate|].
      assert (exists provider0 provider_model,
                providers self !! c = Some provider0
                /\ select_model_for_provider provider0 model
                   = Ok provider_model
                /\ BaseProvider.complete provider0
                     (call_for messages max_tokens temperature tools
                               provider_model)
                   = BaseProvider.Failed f) as Hc
        by (exists provider, pm; repeat split; assumption).
      destruct (enable_fallback && (n <? total)).
      * unfold before. cbn [fst snd]. intros Hres.
        destruct (IH _ _ _ _ Hres)
          as [[c' [p' [Hin H']]]|[tried [Hmsg [Hcalled Hall]]]].
        -- left. exists c', p'. split; [now right | exact H'].
        -- right. exists ((c, f) :: tried). split; [|split].
           ++ rewrite Hmsg. cbn [map fst snd]. rewrite <- app_assoc.
              cbn [app]. f_equal.
              rewrite last_cons. now destruct (last tried).
           ++ cbn [map fst]. fold (pause n f).
              rewrite <- app_comm_cons. cbn [called].
              rewrite called_app, called_pause. cbn [app].
              now rewrite Hcalled.
           ++ constructor; assumption.
      * cbn [fst snd]. intros [= <-]. right.
        exists [(c, f)]. split; [reflexivity|].
        split; [reflexivity|]. repeat constructor. exact Hc.
    + cbn [snd]. intros [= <-].
      apply select_model_error in Hpm. destruct Hpm as [Hs ->].
      left. exists c, provider. split; [now left|]. repeat split; assumption.
    + intros Hres.
      destruct (IH _ _ _ _ Hres)
        as [[c' [p' [Hin H']]]|[tried H']].
      * left. exists c', p'. split; [now right | exact H'].
      * right. exists tried. exact H'.
Qed.

(** Where a response comes from. *)
Lemma complete_loop_response total : forall order n last_error attempts r,
  (complete_from total n order last_error attempts).2 = Ok r ->
  exists c provider provider_model,
    In c order
    /\ providers self !! c = Some provider
    /\ select_model_for_provider provider model = Ok provider_model
    /\ BaseProvider.complete provider
         (call_for messages max_tokens temperature tools provider_model)
       = BaseProvider.Completed r
    /\ last (complete_from total n order last_error attempts).1
       = Some (Call c provider_model).
Proof.
  induction order as [|c rest IH]; intros n last_error attempts r.
  - discriminate.
  - round c IH.
    + destruct (BaseProvider.complete provider _) as [response|f] eqn:Hf.
      * cbn [fst snd]. intros [= <-].
        exists c, provider, pm. split; [now left|]. repeat split; assumption.
      * destruct (enable_fallback && (n <? total)); [|discriminate].
        unfold before. cbn [fst snd]. intros Hres.
        destruct (IH _ _ _ _ Hres)
          as [c' [p' [pm' [Hin [H1 [H2 [H3 Hlast]]]]]]].
        exists c', p', pm'. split; [now right|].
        repeat split; try assumption.
        rewrite last_app, Hlast. reflexivity.
    + discriminate.
    + intros Hres.
      destruct (IH _ _ _ _ Hres)
        as [c' [p' [pm' [Hin H']]]].
      exists c', p', pm'. split; [now right | exact H'].
Qed.

End Loops.

Lemma provider_order_nodup self provider_name :
  NoDup (fallback_order self) ->
  NoDup (provider_order self provider_name).
Proof.
  intros Hnd. unfold provider_order.
  destruct provider_name as [p|]; [|exact Hnd].
  destruct (truthy (Some p)); [|exact Hnd].
  apply NoDup_cons. split.
  - rewrite list_elem_of_In, filter_In. intros [_ H].
    now rewrite String.eqb_refl in H.
  - apply NoDup_ListNoDup, List.NoDup_filter. now apply NoDup_ListNoDup.
Qed.

(** X10: both entry points call registered providers only, and call them
    in the order of the attempt order, each name of it at most once: the
    providers called are a subsequence of the attempt order. When the
    registered names are distinct no provider is called twice for one
    request. *)
Theorem calls_follow_the_attempt_order self enable_fallback messages model
    max_tokens temperature tools provider_name :
  (called (complete_with_fallback self enable_fallback messages model
             max_tokens temperature tools provider_name).1
     `sublist_of` provider_order self provider_name
   /\ Forall (registered self)
        (called (complete_with_fallback self enable_fallback messages model
                   max_tokens temperature tools provider_name).1)
   /\ (NoDup (fallback_order self) ->
       NoDup (called (complete_with_fallback self enable_fallback messages
                        model max_tokens temperature tools
                        provider_name).1)))
  /\ (called (stream_with_fallback self enable_fallback messages model
                max_tokens temperature tools provider_name).1
        `sublist_of` provider_order self provider_name
      /\ Forall (registered self)
           (called (stream_with_fallback self enable_fallback messages
                      model max_tokens temperature tools provider_name).1)
      /\ (NoDup (fallback_order self) ->
          NoDup (called (stream_with_fallback self enable_fallback messages
                           model max_tokens temperature tools
                           provider_name).1))).
Proof.
  unfold complete_with_fallback, stream_with_fallback. split.
  - destruct (complete_loop_called self enable_fallback messages model
                max_tokens temperature tools
                (Z.of_nat (length (provider_order self provider_name)))
                (provider_order self provider_name) 1 None []) as [Hs Hr].
    split; [exact Hs|]. split; [exact Hr|].
    intros Hnd. eapply sublist_NoDup; [|exact Hs].
    now apply provider_order_nodup.
  - destruct (stream_loop_called self enable_fallback messages model
                max_tokens temperature tools
                (Z.of_nat (length (provider_order self provider_name)))
                (provider_order self provider_name) 1 None) as [Hs Hr].
    split; [exact Hs|]. split; [exact Hr|].
    intros Hnd. eapply sublist_NoDup; [|exact Hs].
    now apply provider_order_nodup.
Qed.

(** X11: every sleep of a request lasts between 2 and 10 seconds, and a
    request over an attempt order of k names sleeps at most k - 1 times,
    for a completion as for a stream. *)
Theorem backoff_is_bounded self enable_fallback messages model
    max_tokens temperature tools provider_name :
  (Forall (fun w => 2 <= w <= 10)
          (slept (complete_with_fallback self enable_fallback messages model
                    max_tokens temperature tools provider_name).1)
   /\ (length (slept (complete_with_fallback self enable_fallback messages
                        model max_tokens temperature tools
                        provider_name).1)
       <= length (provider_order self provider_name) - 1)%nat)
  /\ (Forall (fun w => 2 <= w <= 10)
             (slept (stream_with_fallback self enable_fallback messages
                       model max_tokens temperature tools provider_name).1)
      /\ (length (slept (stream_with_fallback self enable_fallback messages
                           model max_tokens temperature tools
                           provider_name).1)
          <= length (provider_order self provider_name) - 1)%nat).
Proof.
  unfold complete_with_fallback, stream_with_fallback. split.
  - destruct (complete_loop_slept self enable_fallback messages model
                max_tokens temperature tools
                (Z.of_nat (length (provider_order self provider_name)))
                (provider_order self provider_name) 1 None [])
      as [Hb Hl]; [lia|].
    split; [exact Hb | lia].
  - destruct (stream_loop_slept self enable_fallback messages model
                max_tokens temperature tools
                (Z.of_nat (length (provider_order self provider_name)))
                (provider_order self provider_name) 1 None)
      as [Hb Hl]; [lia|].
    split; [exact Hb | lia].
Qed.

Lemma complete_loop_disabled self messages model max_tokens temperature
    tools total : forall order n last_error attempts,
  (length (called (complete_loop self false messages model max_tokens
                     temperature tools total n order last_error
                     attempts).1) <= 1)%nat
  /\ slept (complete_loop self false messages model max_tokens temperature
              tools total n order last_error attempts).1 = [].
Proof.
  induction order as [|c rest IH]; intros n last_error attempts.
  - cbn. split; [lia | reflexivity].
  - cbn [complete_loop].
    destruct (providers self !! c) as [provider|]; [|apply IH].
    destruct (select_model_for_provider provider model) as [pm|];
      [|cbn; split; [lia | reflexivity]].
    destruct (BaseProvider.complete provider _);
      cbn; (split; [lia | reflexivity]).
Qed.

Lemma stream_loop_disabled self messages model max_tokens temperature
    tools total : forall order n last_error,
  (length (called (stream_loop self false messages model max_tokens
                     temperature tools total n order last_error).1)
   <= 1)%nat
  /\ slept (stream_loop self false messages model max_tokens temperature
              tools total n order last_error).1 = [].
Proof.
  induction order as [|c rest IH]; intros n last_error.
  - cbn. split; [lia | reflexivity].
  - cbn [stream_loop].
    destruct (providers self !! c) as [provider|]; [|apply IH].
    destruct (select_model_for_provider provider model) as [pm|];
      [|cbn; split; [lia | reflexivity]].
    destruct (BaseProvider.stream_complete provider _) as [chunks [f|]];
      cbn [andb fst called slept];
      rewrite called_yields, slept_yields;
      (split; [cbn; lia | reflexivity]).
Qed.

(** X12: with [enable_fallback] switched off a request calls at most one
    provider and never sleeps, for a completion as for a stream: the
    first registered candidate decides. *)
Theorem no_fallback_is_one_call self messages model max_tokens temperature
    tools provider_name :
  ((length (called (complete_with_fallback self false messages model
                      max_tokens temperature tools provider_name).1)
    <= 1)%nat
   /\ slept (complete_with_fallback self false messages model max_tokens
               temperature tools provider_name).1 = [])
  /\ ((length (called (stream_with_fallback self false messages model
                         max_tokens temperature tools provider_name).1)
       <= 1)%nat
      /\ slept (stream_with_fallback self false messages model max_tokens
                  temperature tools provider_name).1 = []).
Proof.
  split; [apply complete_loop_disabled | apply stream_loop_disabled].
Qed.

(** X13: when [complete_with_fallback] raises, the error is one of two.
    Either a registered candidate supports no model: the [ValueError] of
    [select_model_for_provider] ends the request at once, whatever was
    tried before and whoever is left. Or it is the report: one line for
    each provider that was called, in the order of the calls, each with
    the failure that provider's own [complete] raised on the arguments of
    the request, and the last of these failures as the last error. *)
Theorem complete_with_fallback_report self enable_fallback messages model
    max_tokens temperature tools provider_name e :
  (complete_with_fallback self enable_fallback messages model max_tokens
     temperature tools provider_name).2 = Error e ->
  (exists c provider,
     In c (provider_order self provider_name)
     /\ providers self !! c = Some provider
     /\ BaseProvider.supported_models provider = []
     /\ e = ValueError ("No supported models for provider "
                        +:+ BaseProvider.name provider))
  \/ (exists tried : list (string * BaseProvider.failure),
        e = all_failed (map (fun cf => attempt_line cf.1 cf.2) tried)
                       (option_map snd (last tried))
        /\ map fst tried
           = called (complete_with_fallback self enable_fallback messages
                       model max_tokens temperature tools provider_name).1
        /\ Forall
             (fun cf =>
                exists provider provider_model,
                  providers self !! cf.1 = Some provider
                  /\ select_model_for_provider provider model
                     = Ok provider_model
                  /\ BaseProvider.complete provider
                       (call_for messages max_tokens temperature tools
                                 provider_model)
                     = BaseProvider.Failed cf.2)
             tried).
Proof.
  unfold complete_with_fallback. intros Hres.
  destruct (complete_loop_report _ _ _ _ _ _ _ _ _ _ _ _ _ Hres)
    as [H|[tried [Hmsg H]]]; [now left|].
  right. exists tried. split; [|exact H].
  rewrite Hmsg. cbn [app]. now destruct (last tried).
Qed.

Lemma complete_with_fallback_report_witness :
  (exists c provider,
     In c (provider_order ProviderFixtures.both_failing None)
     /\ providers ProviderFixtures.both_failing !! c = Some provider
     /\ BaseProvider.supported_models provider = []
     /\ Exception
          ("All providers failed. Attempts: "
           +:+ "openai: OpenAI API error: connection reset; "
           +:+ "anthropic: Anthropic API error: overloaded. "
           +:+ "Last error: Anthropic API error: overloaded")
        = ValueError ("No supported models for provider "
                      +:+ BaseProvider.name provider))
  \/ (exists tried : list (string * BaseProvider.failure),
        Exception
          ("All providers failed. Attempts: "
           +:+ "openai: OpenAI API error: connection reset; "
           +:+ "anthropic: Anthropic API error: overloaded. "
           +:+ "Last error: Anthropic API error: overloaded")
        = all_failed (map (fun cf => attempt_line cf.1 cf.2) tried)
                     (option_map snd (last tried))
        /\ map fst tried
           = called (complete_with_fallback ProviderFixtures.both_failing
                       true ProviderFixtures.hello None None 0.7%float None
                       None).1
        /\ Forall
             (fun cf =>
                exists provider provider_model,
                  providers ProviderFixtures.both_failing !! cf.1
                  = Some provider
                  /\ select_model_for_provider provider None
                     = Ok provider_model
                  /\ BaseProvider.complete provider
                       (call_for ProviderFixtures.hello None 0.7%float None
                                 provider_model)
                     = BaseProvider.Failed cf.2)
             tried).
Proof.
  refine (complete_with_fallback_report ProviderFixtures.both_failing true
            ProviderFixtures.hello None None 0.7%float None None _ _).
  vm_compute. reflexivity.
Defined.

(** X14: a response that [complete_with_fallback] returns is the one the
    provider of its last call returned: that provider is a registered
    candidate, it was called with a model it supports and with the
    messages, token limit, temperature and tools of the request, and
    nothing follows its call. *)
Theorem response_is_of_the_last_call self enable_fallback messages model
    max_tokens temperature tools provider_name r :
  (complete_with_fallback self enable_fallback messages model max_tokens
     temperature tools provider_name).2 = Ok r ->
  exists c provider provider_model,
    In c (provider_order self provider_name)
    /\ providers self !! c = Some provider
    /\ In provider_model (BaseProvider.supported_models provider)
    /\ BaseProvider.complete provider
         {| BaseProvider.messages := messages;
            BaseProvider.model := provider_model;
            BaseProvider.max_tokens := max_tokens;
            BaseProvider.temperature := temperature;
            BaseProvider.tools := tools |}
       = BaseProvider.Completed r
    /\ last (complete_with_fallback self enable_fallback messages model
               max_tokens temperature tools provider_name).1
       = Some (Call c provider_model).
Proof.
  unfold complete_with_fallback. intros Hres.
  destruct (complete_loop_response _ _ _ _ _ _ _ _ _ _ _ _ _ Hres)
    as [c [provider [pm [Hin [Hp [Hpm [Hc Hlast]]]]]]].
  exists c, provider, pm. split; [exact Hin|]. split; [exact Hp|].
  split; [now apply select_model_in in Hpm|].
  split; [exact Hc | exact Hlast].
Qed.

Lemma response_is_of_the_last_call_witness :
  exists c provider provider_model,
    In c (provider_order ProviderFixtures.rate_limited_then_ok None)
    /\ providers ProviderFixtures.rate_limited_then_ok !! c = Some provider
    /\ In provider_model (BaseProvider.supported_models provider)
    /\ BaseProvider.complete provider
         {| BaseProvider.messages := ProviderFixtures.hello;
            BaseProvider.model := provider_model;
            BaseProvider.max_tokens := None;
            BaseProvider.temperature := 0.7%float;
            BaseProvider.tools := None |}
       = BaseProvider.Completed
           (ProviderFixtures.answer "anthropic" "claude-3-sonnet-20240229"
                                    "Hi.")
    /\ last (complete_with_fallback ProviderFixtures.rate_limited_then_ok
               true ProviderFixtures.hello None None 0.7%float None None).1
       = Some (Call c provider_model).
Proof.
  refine (response_is_of_the_last_call ProviderFixtures.rate_limited_then_ok
            true ProviderFixtures.hello None None 0.7%float None None _ _).
  vm_compute. reflexivity.
Defined.

(** X15: what [stream_with_fallback] hands downstream is, provider by
    provider in the order of the calls, every chunk that each called
    provider yielded on the arguments of the request, the chunks of a
    provider whose stream failed later included. Nothing is dropped,
    repeated or reordered. *)
Theorem stream_yields_all_chunks self enable_fallback messages model
    max_tokens temperature tools provider_name :
  yielded (stream_with_fallback self enable_fallback messages model
             max_tokens temperature tools provider_name).1
  = flat_map (streamed self messages max_tokens temperature tools)
             (stream_with_fallback self enable_fallback messages model
                max_tokens temperature tools provider_name).1.
Proof. apply stream_loop_yielded. Qed.

Import ProviderSetup.

(** What the three blocks of [_initialize_providers] build. *)
Lemma init_blocks s c :
  init s c
  = (let self :=
       try_register "azure"
         (azure_openai_api_key s ≫= fun key =>
          azure_openai_endpoint s ≫= fun endpoint =>
          if truthy (Some key) && truthy (Some endpoint)
          then AzureOpenAIProvider c key endpoint else None)
         (try_register "anthropic"
            (anthropic_api_key s ≫= fun key =>
             if truthy (Some key) then AnthropicProvider c key else None)
            (try_register "openai"
               (openai_api_key s ≫= fun key =>
                if truthy (Some key) then OpenAIProvider c key else None)
               empty)) in
     if bool_decide (providers self = ∅)
     then RuntimeError "No LLM providers configured"
     else Started self).
Proof.
  unfold init, _initialize_providers.
  destruct (openai_api_key s) as [k1|], (anthropic_api_key s) as [k2|],
    (azure_openai_api_key s) as [k3|], (azure_openai_endpoint s) as [k4|];
    cbn [mbind option_bind];
    repeat match goal with
           | |- context [truthy (Some ?k)] => destruct (truthy (Some k))
           end;
    reflexivity.
Qed.

Lemma blocks_facts o1 o2 o3 :
  let self :=
    try_register "azure" o3
      (try_register "anthropic" o2 (try_register "openai" o1 empty)) in
  providers self !! "openai" = o1
  /\ providers self !! "anthropic" = o2
  /\ providers self !! "azure" = o3
  /\ (forall name,
        name <> "openai" -> name <> "anthropic" -> name <> "azure" ->
        providers self !! name = None)
  /\ fallback_order self
     = present "openai" o1 ++ present "anthropic" o2 ++ present "azure" o3
  /\ (providers self = ∅ <-> o1 = None /\ o2 = None /\ o3 = None).
Proof.
  destruct o1 as [p1|], o2 as [p2|], o3 as [p3|];
    cbn [try_register providers fallback_order empty present app];
    (split; [|split; [|split; [|split; [|split]]]];
     [ now simplify_map_eq | now simplify_map_eq | now simplify_map_eq
     | intros name H1 H2 H3; now simplify_map_eq
     | reflexivity
     | split;
       [ intros H; first [now apply insert_non_empty in H | easy]
       | intros [H1 [H2 H3]]; first [discriminate | reflexivity] ] ]).
Qed.

Lemma present_sublist (a b d : string) o1 o2 o3 :
  present a o1 ++ present b o2 ++ present d o3 `sublist_of` [a; b; d].
Proof.
  destruct o1, o2, o3; cbn [present app];
    repeat first [apply sublist_nil_l | apply sublist_skip
                 | apply sublist_cons].
Qed.

Lemma start_registers_in_blocks s c :
  match init s c with
  | Started self =>
      providers self !! "openai"
      = (openai_api_key s ≫= fun key =>
         if truthy (Some key) then OpenAIProvider c key else None)
      /\ providers self !! "anthropic"
         = (anthropic_api_key s ≫= fun key =>
            if truthy (Some key) then AnthropicProvider c key else None)
      /\ providers self !! "azure"
         = (azure_openai_api_key s ≫= fun key =>
            azure_openai_endpoint s ≫= fun endpoint =>
            if truthy (Some key) && truthy (Some endpoint)
            then AzureOpenAIProvider c key endpoint else None)
      /\ (forall name,
            name <> "openai" -> name <> "anthropic" -> name <> "azure" ->
            providers self !! name = None)
      /\ fallback_order self
         = present "openai"
             (openai_api_key s ≫= fun key =>
              if truthy (Some key) then OpenAIProvider c key else None)
           ++ present "anthropic"
                (anthropic_api_key s ≫= fun key =>
                 if truthy (Some key) then AnthropicProvider c key
                 else None)
           ++ present "azure"
                (azure_openai_api_key s ≫= fun key =>
                 azure_openai_endpoint s ≫= fun endpoint =>
                 if truthy (Some key) && truthy (Some endpoint)
                 then AzureOpenAIProvider c key endpoint else None)
      /\ fallback_order self `sublist_of` ["openai"; "anthropic"; "azure"]
      /\ fallback_order self <> []
  | RuntimeError msg =>
      (openai_api_key s ≫= fun key =>
       if truthy (Some key) then OpenAIProvider c key else None) = None
      /\ (anthropic_api_key s ≫= fun key =>
          if truthy (Some key) then AnthropicProvider c key else None)
         = None
      /\ (azure_openai_api_key s ≫= fun key =>
          azure_openai_endpoint s ≫= fun endpoint =>
          if truthy (Some key) && truthy (Some endpoint)
          then AzureOpenAIProvider c key endpoint else None) = None
      /\ msg = "No LLM providers configured"
  end.
Proof.
  rewrite init_blocks. cbv zeta.
  match goal with
  | |- context [try_register "azure" ?o3
                  (try_register "anthropic" ?o2
                     (try_register "openai" ?o1 empty))] =>
      set (openai := o1); set (anthropic := o2); set (azure := o3)
  end.
  destruct (blocks_facts openai anthropic azure)
    as [H1 [H2 [H3 [Hother [Hfb Hempty]]]]].
  revert H1 H2 H3 Hother Hfb Hempty.
  set (m := try_register "azure" azure _).
  intros H1 H2 H3 Hother Hfb Hempty.
  destruct (bool_decide_reflect (providers m = ∅)) as [He|Hne].
  - apply Hempty in He. destruct He as [? [? ?]]. now repeat split.
  - repeat split; try assumption.
    + rewrite Hfb. apply present_sublist.
    + rewrite Hfb. intros Hnil. apply Hne, Hempty.
      destruct openai, anthropic, azure; try discriminate Hnil.
      now repeat split.
Qed.

Lemma in_present name a o :
  In name (present a o) <-> name = a /\ is_Some o.
Proof.
  destruct o as [p|]; cbn [present In]; split.
  - intros [<-|[]]. split; [reflexivity | now eexists].
  - intros [-> _]. now left.
  - intros [].
  - intros [_ [? H]]. discriminate H.
Qed.

Lemma started_registered s c self :
  init s c = Started self ->
  forall name, In name (fallback_order self) <-> registered self name.
Proof.
  intros Hinit name.
  pose proof (start_registers_in_blocks s c) as H. rewrite Hinit in H.
  destruct H as [H1 [H2 [H3 [Hother [Hfb _]]]]].
  rewrite <- H1, <- H2, <- H3 in Hfb. rewrite Hfb.
  rewrite !in_app_iff, !in_present. unfold registered. split.
  - intros [[-> H]|[[-> H]|[-> H]]]; exact H.
  - intros H.
    destruct (decide (name = "openai")) as [->|N1]; [now left|].
    destruct (decide (name = "anthropic")) as [->|N2]; [now right; left|].
    destruct (decide (name = "azure")) as [->|N3]; [now right; right|].
    rewrite (Hother name N1 N2 N3) in H. destruct H as [? H].
    discriminate H.
Qed.

(** X16: what [ProviderManager()] holds after its start. Each of the
    names "openai", "anthropic" and "azure" is registered exactly when
    its key (for Azure the key and the endpoint) is set and not empty and
    its constructor did not raise, and no other name is ever registered.
    The fallback order lists the registered names, in this fixed order,
    and is not empty. The start raises [RuntimeError] exactly when none
    of the three is registered. *)
Theorem start_registers_in_fixed_order s c :
  let openai :=
    openai_api_key s ≫= fun key =>
    if truthy (Some key) then OpenAIProvider c key else None in
  let anthropic :=
    anthropic_api_key s ≫= fun key =>
    if truthy (Some key) then AnthropicProvider c key else None in
  let azure :=
    azure_openai_api_key s ≫= fun key =>
    azure_openai_endpoint s ≫= fun endpoint =>
    if truthy (Some key) && truthy (Some endpoint)
    then AzureOpenAIProvider c key endpoint else None in
  match init s c with
  | Started self =>
      providers self !! "openai" = openai
      /\ providers self !! "anthropic" = anthropic
      /\ providers self !! "azure" = azure
      /\ (forall name,
            name <> "openai" -> name <> "anthropic" -> name <> "azure" ->
            providers self !! name = None)
      /\ fallback_order self
         = present "openai" openai ++ present "anthropic" anthropic
           ++ present "azure" azure
      /\ fallback_order self `sublist_of` ["openai"; "anthropic"; "azure"]
      /\ fallback_order self <> []
  | RuntimeError msg =>
      openai = None /\ anthropic = None /\ azure = None
      /\ msg = "No LLM providers configured"
  end.
Proof.
  intros openai anthropic azure. subst openai anthropic azure.
  exact (start_registers_in_blocks s c).
Qed.

(** X17: a manager that has started meets the condition under which the
    fail-over theorems speak: when each registered provider supports a
    model, every name of the attempt order can be tried, for a request
    that names no provider and for one that names a registered one. *)
Theorem started_manager_is_well_configured s c self provider_name :
  init s c = Started self ->
  (forall name provider,
     providers self !! name = Some provider ->
     BaseProvider.supported_models provider <> []) ->
  (forall p, provider_name = Some p ->
             p = EmptyString \/ registered self p) ->
  Spec.well_configured self provider_name.
Proof.
  intros Hinit Hmodels Hname.
  pose proof (started_registered s c self Hinit) as Hreg.
  assert (forall name, registered self name -> Spec.usable self name)
    as Husable.
  { intros name [provider Hp]. exists provider.
    split; [exact Hp | now apply (Hmodels name)]. }
  assert (Forall (Spec.usable self) (fallback_order self)) as Hfb.
  { apply List.Forall_forall. intros name Hin.
    now apply Husable, Hreg. }
  unfold Spec.well_configured, provider_order.
  destruct provider_name as [p|]; [|exact Hfb].
  destruct (truthy (Some p)) eqn:Ht; [|exact Hfb].
  constructor.
  - destruct (Hname p eq_refl) as [->|Hr]; [discriminate Ht|].
    now apply Husable.
  - apply List.Forall_forall. intros name Hin.
    apply filter_In in Hin. destruct Hin as [Hin _].
    now apply Husable, Hreg.
Qed.

Lemma started_manager_is_well_configured_witness :
  Spec.well_configured (SetupFixtures.manager SetupFixtures.both_keys)
                       (Some "anthropic").
Proof.
  refine (started_manager_is_well_configured SetupFixtures.both_keys
            SetupFixtures.working _ (Some "anthropic") _ _ _).
  - vm_compute. reflexivity.
  - intros name provider.
    change (providers (SetupFixtures.manager SetupFixtures.both_keys))
      with (<["anthropic" := ProviderFixtures.provider "anthropic"
                ProviderFixtures.anthropic_models
                (BaseProvider.Completed
                   (ProviderFixtures.answer "anthropic"
                      "claude-3-sonnet-20240229" "Hi."))
                ([ProviderFixtures.chunk "Hi"; ProviderFixtures.chunk "."],
                 None)]>
              (<["openai" := ProviderFixtures.provider "openai"
                   ProviderFixtures.openai_models
                   (BaseProvider.Failed
                      (BaseProvider.RateLimitError
                         "OpenAI rate limit exceeded: 429"))
                   ([], Some (BaseProvider.RateLimitError
                                "OpenAI rate limit exceeded: 429"))]>
                 (∅ : gmap string BaseProvider.t))).
    rewrite lookup_insert. case_decide; [intros [= <-]; discriminate|].
    rewrite lookup_insert. case_decide; [intros [= <-]; discriminate|].
    rewrite lookup_empty. discriminate.
  - intros p [= <-]. right. vm_compute. eexists. reflexivity.
Defined.

(** X18: with the default provider of [config.py] a manager that started
    without an Anthropic key has no provider for a request that names
    none: [get_provider] raises [ValueError] for it, whichever other
    providers are registered. *)
Theorem default_provider_needs_its_key s c self :
  init s c = Started self ->
  default_provider s = "anthropic" ->
  truthy (anthropic_api_key s) = false ->
  get_provider self s None
  = Error (ValueError
             ("Provider 'anthropic' not available. Available providers: "
              +:+ join ", " (fallback_order self)))
  /\ fallback_order self <> [].
Proof.
  intros Hinit Hdefault Hkey.
  pose proof (start_registers_in_blocks s c) as H.
  cbv zeta in H. rewrite Hinit in H.
  destruct H as [_ [H2 [_ [_ [_ [_ Hne]]]]]].
  split; [|exact Hne].
  unfold get_provider. rewrite Hdefault, H2.
  destruct (anthropic_api_key s) as [key|]; [|reflexivity].
  cbn [mbind option_bind]. now rewrite Hkey.
Qed.

Lemma default_provider_needs_its_key_witness :
  get_provider (SetupFixtures.manager SetupFixtures.openai_only)
               SetupFixtures.openai_only None
  = Error (ValueError
             ("Provider 'anthropic' not available. Available providers: "
              +:+ join ", "
                    (fallback_order
                       (SetupFixtures.manager SetupFixtures.openai_only))))
  /\ fallback_order (SetupFixtures.manager SetupFixtures.openai_only) <> [].
Proof.
  refine (default_provider_needs_its_key SetupFixtures.openai_only
            SetupFixtures.working _ _ _ _); vm_compute; reflexivity.
Defined.

End provider_properties.

(* ===================================================================== *)
(** * The handlers: which requests the experiment counts                  *)
(* ===================================================================== *)

Module handler_properties.
Import ABTestingManager Engine Handlers.

Lemma assigned_in_completion enable_ab_testing ab now h request v h' :
  Main.assign_and_override enable_ab_testing ab now h request
  = Ok (Some v, h') ->
  exists req experiment_id user_id,
    Main.requests h !! request = Some req
    /\ ChatRequest.experiment_id req = Some experiment_id
    /\ ChatRequest.user_id req = Some user_id
    /\ assign_variant ab now experiment_id user_id = Ok (Some v)
    /\ h' = Main.apply_variant h request v
    /\ recorded_for (Some v) h' request
       = Some (experiment_id, ExperimentVariant.variant_id v).
Proof.
  unfold Main.assign_and_override.
  destruct (Main.requests h !! request) as [req|] eqn:Hreq; [|discriminate].
  destruct (ChatRequest.experiment_id req) as [eid|] eqn:Heid;
    [|rewrite andb_false_r; discriminate].
  destruct (ChatRequest.user_id req) as [uid|] eqn:Huid;
    [|rewrite andb_false_r; discriminate].
  destruct (enable_ab_testing && ProviderManager.truthy (Some eid)
            && ProviderManager.truthy (Some uid)) eqn:Hc; [|discriminate].
  cbn [default from_option id].
  destruct (assign_variant ab now eid uid) as [[v'|]|] eqn:Hv;
    try discriminate.
  intros [= <- <-]. exists req, eid, uid.
  repeat (split; [reflexivity || assumption|]).
  unfold recorded_for, Main.apply_variant. rewrite Hreq.
  cbn [Main.requests]. rewrite lookup_insert_eq.
  cbn [Main.set_fields ChatRequest.experiment_id]. rewrite Heid.
  apply andb_prop in Hc. destruct Hc as [Hc _].
  apply andb_prop in Hc. destruct Hc as [_ ->]. reflexivity.
Qed.

Lemma assigned_in_stream enable_ab_testing ab now h request v h' :
  assign_and_override_stream enable_ab_testing ab now h request
  = Ok (Some v, h') ->
  exists req experiment_id user_id,
    Main.requests h !! request = Some req
    /\ ChatRequest.experiment_id req = Some experiment_id
    /\ ChatRequest.user_id req = Some user_id
    /\ assign_variant ab now experiment_id user_id = Ok (Some v)
    /\ h' = {| Main.requests :=
                 <[request := set_stream_fields v req]> (Main.requests h);
               Main.lists := Main.lists h |}
    /\ recorded_for (Some v) h' request
       = Some (experiment_id, ExperimentVariant.variant_id v).
Proof.
  unfold assign_and_override_stream.
  destruct (Main.requests h !! request) as [req|] eqn:Hreq; [|discriminate].
  destruct (ChatRequest.experiment_id req) as [eid|] eqn:Heid;
    [|rewrite andb_false_r; discriminate].
  destruct (ChatRequest.user_id req) as [uid|] eqn:Huid;
    [|rewrite andb_false_r; discriminate].
  destruct (enable_ab_testing && ProviderManager.truthy (Some eid)
            && ProviderManager.truthy (Some uid)) eqn:Hc; [|discriminate].
  cbn [default from_option id].
  destruct (assign_variant ab now eid uid) as [[v'|]|] eqn:Hv;
    try discriminate.
  intros [= <- <-]. exists req, eid, uid.
  repeat (split; [reflexivity || assumption|]).
  unfold recorded_for. cbn [Main.requests]. rewrite lookup_insert_eq.
  cbn [set_stream_fields ChatRequest.experiment_id]. rewrite Heid.
  apply andb_prop in Hc. destruct Hc as [Hc _].
  apply andb_prop in Hc. destruct Hc as [_ ->]. reflexivity.
Qed.

(** One call of [record_metrics] on a row that exists counts one
    request, whether the call returns or raises. *)
Lemma counted_record_metrics self eid vid n tokens cost latency_ms error :
  counted self eid vid = Some n ->
  counted (state_of (record_metrics self eid vid tokens cost latency_ms
                                    error)) eid vid
  = Some (n + 1).
Proof.
  unfold counted. destruct (Calls.row self eid vid) as [m|] eqn:Hm;
    [|discriminate].
  intros [= <-].
  destruct (engine_properties.record_metrics_counts self eid vid m tokens
              cost latency_ms error Hm) as [m' [-> [Hn _]]].
  cbn [option_map]. now rewrite Hn.
Qed.

Lemma counted_assigned ab now experiment_id user_id v :
  reachable ab ->
  assign_variant ab now experiment_id user_id = Ok (Some v) ->
  exists n,
    counted ab experiment_id (ExperimentVariant.variant_id v) = Some n.
Proof.
  intros Hreach Hv.
  destruct (engine_properties.assign_some_declared ab now experiment_id
              user_id v Hreach Hv) as [e [He Hin]].
  destruct (Rows.inv_cover ab (engine_properties.reachable_rows ab Hreach)
                           experiment_id e v He Hin) as [m Hm].
  exists (ExperimentMetrics.total_requests m). unfold counted.
  now rewrite Hm.
Qed.

(** X23: what [create_chat_completion] does to the request count of the
    variant it assigned. A response served from the cache is not counted
    at all: the engine is left as it was. A request whose handling raised
    is counted once. A request that was answered is counted once, and
    twice when the call that records it raises: the [except] clause
    records the same request again, as an error. *)
Theorem completion_counts_the_request enable_ab_testing ab now h request
    rest latency_ms latency_ms_error v h' :
  reachable ab ->
  Main.assign_and_override enable_ab_testing ab now h request
  = Ok (Some v, h') ->
  exists req experiment_id n,
    Main.requests h !! request = Some req
    /\ ChatRequest.experiment_id req = Some experiment_id
    /\ counted ab experiment_id (ExperimentVariant.variant_id v) = Some n
    /\ counted
         (create_chat_completion enable_ab_testing ab now h request rest
                                 latency_ms latency_ms_error).1.2
         experiment_id (ExperimentVariant.variant_id v)
       = Some
           (n + match rest h' with
                | CacheHit _ => 0
                | Raises _ => 1
                | Answered response =>
                    match record_metrics ab experiment_id
                            (ExperimentVariant.variant_id v)
                            (ChatResponse.total_tokens response)
                            (ChatResponse.estimated_cost response)
                            latency_ms false with
                    | Returned _ => 1
                    | Raised _ _ => 2
                    end
                end)
    /\ (forall cached_response,
          rest h' = CacheHit cached_response ->
          create_chat_completion enable_ab_testing ab now h request rest
                                 latency_ms latency_ms_error
          = (Returns cached_response, ab, h')).
Proof.
  intros Hreach Hassign.
  destruct (assigned_in_completion _ _ _ _ _ _ _ Hassign)
    as [req [eid [uid [Hreq [Heid [_ [Hv [_ Hids]]]]]]]].
  destruct (counted_assigned ab now eid uid v Hreach Hv) as [n Hn].
  exists req, eid, n. repeat (split; [assumption|]).
  unfold create_chat_completion. rewrite Hassign, Hids.
  split.
  - destruct (rest h') as [cached|response|e]; cbn [fst snd].
    + now rewrite Z.add_0_r.
    + pose proof (counted_record_metrics ab eid
                    (ExperimentVariant.variant_id v) n
                    (ChatResponse.total_tokens response)
                    (ChatResponse.estimated_cost response) latency_ms false
                    Hn) as H1.
      destruct (record_metrics ab eid (ExperimentVariant.variant_id v)
                  (ChatResponse.total_tokens response)
                  (ChatResponse.estimated_cost response) latency_ms false)
        as [ab1|e1 ab1]; cbn [state_of fst snd] in *; [exact H1|].
      unfold on_exception.
      pose proof (counted_record_metrics ab1 eid
                    (ExperimentVariant.variant_id v) (n + 1) 0 0%float
                    latency_ms_error true H1) as H2.
      destruct (record_metrics ab1 eid (ExperimentVariant.variant_id v) 0
                  0%float latency_ms_error true) as [ab2|e2 ab2];
        cbn [state_of fst snd] in *; rewrite H2; f_equal; lia.
    + unfold on_exception.
      pose proof (counted_record_metrics ab eid
                    (ExperimentVariant.variant_id v) n 0 0%float
                    latency_ms_error true Hn) as H1.
      destruct (record_metrics ab eid (ExperimentVariant.variant_id v) 0
                  0%float latency_ms_error true) as [ab1|e1 ab1];
        cbn [state_of fst snd] in *; exact H1.
  - intros cached ->. reflexivity.
Qed.

Lemma completion_counts_the_request_witness :
  exists req experiment_id n,
    Main.requests RequestFixtures.heap !! 1%nat = Some req
    /\ ChatRequest.experiment_id req = Some experiment_id
    /\ counted Fixtures.registered experiment_id "variant_a" = Some n
    /\ counted
         (create_chat_completion true Fixtures.registered 1700000000
            RequestFixtures.heap 1%nat
            (fun _ => CacheHit (ProviderFixtures.answer "anthropic"
                                  "claude-3-sonnet-20240229" "Hi."))
            350%float 350%float).1.2
         experiment_id "variant_a"
       = Some (n + 0).
Proof.
  destruct (completion_counts_the_request true Fixtures.registered
              1700000000 RequestFixtures.heap 1%nat
              (fun _ => CacheHit (ProviderFixtures.answer "anthropic"
                                    "claude-3-sonnet-20240229" "Hi."))
              350%float 350%float Fixtures.variant_a
              (Main.apply_variant RequestFixtures.heap 1%nat
                                  Fixtures.variant_a)
              ab_testing_properties.registered_reachable)
    as [req [eid [n [H1 [H2 [H3 [H4 _]]]]]]].
  - vm_compute. reflexivity.
  - exists req, eid, n. repeat split; assumption.
Defined.

(** X24: the streaming handler counts every request of an assigned
    variant exactly once, whether the stream ran to its end or failed,
    with the tokens of the last chunk that carried a usage (none when no
    chunk did). The variant reaches the stream by provider, model and
    temperature only: the message list and the token limit are the
    caller's, the variant's system prompt and [max_tokens] are not
    applied. *)
Theorem stream_counts_the_request enable_ab_testing ab now h request
    stream usage_total latency_ms v h' :
  reachable ab ->
  assign_and_override_stream enable_ab_testing ab now h request
  = Ok (Some v, h') ->
  exists req experiment_id m m',
    Main.requests h !! request = Some req
    /\ ChatRequest.experiment_id req = Some experiment_id
    /\ Calls.row ab experiment_id (ExperimentVariant.variant_id v) = Some m
    /\ Calls.row
         (event_generator enable_ab_testing ab now h request stream
                          usage_total latency_ms).1.1.2
         experiment_id (ExperimentVariant.variant_id v) = Some m'
    /\ ExperimentMetrics.total_requests m'
       = ExperimentMetrics.total_requests m + 1
    /\ ExperimentMetrics.total_tokens m'
       = ExperimentMetrics.total_tokens m
         + last_usage usage_total (stream h').1
    /\ Main.lists h' = Main.lists h
    /\ exists req',
         Main.requests h' !! request = Some req'
         /\ ChatRequest.max_tokens req' = ChatRequest.max_tokens req
         /\ ChatRequest.messages req' = ChatRequest.messages req
         /\ ChatRequest.provider req'
            = Some (ExperimentVariant.provider v)
         /\ ChatRequest.model req' = Some (ExperimentVariant.model v)
         /\ ChatRequest.temperature req'
            = Some (ExperimentVariant.temperature v).
Proof.
  intros Hreach Hassign.
  destruct (assigned_in_stream _ _ _ _ _ _ _ Hassign)
    as [req [eid [uid [Hreq [Heid [_ [Hv [Hh Hids]]]]]]]].
  destruct (engine_properties.assign_some_declared ab now eid uid v Hreach
                                                   Hv) as [e [He Hin]].
  destruct (Rows.inv_cover ab (engine_properties.reachable_rows ab Hreach)
                           eid e v He Hin) as [m Hm].
  unfold event_generator. rewrite Hassign.
  destruct (stream h') as [chunks ending]. cbn [fst].
  assert (forall error_occurred,
            exists m',
              Calls.row
                (state_of (record_metrics ab eid
                             (ExperimentVariant.variant_id v)
                             (last_usage usage_total chunks) 0%float
                             latency_ms error_occurred))
                eid (ExperimentVariant.variant_id v) = Some m'
              /\ ExperimentMetrics.total_requests m'
                 = ExperimentMetrics.total_requests m + 1
              /\ ExperimentMetrics.total_tokens m'
                 = ExperimentMetrics.total_tokens m
                   + last_usage usage_total chunks) as Hrec.
  { intros error_occurred.
    apply (engine_properties.record_metrics_counts ab eid
             (ExperimentVariant.variant_id v) m _ _ _ _ Hm). }
  assert (exists m',
            Calls.row
              (match ending with
               | None =>
                   match recorded_for (Some v) h' request with
                   | Some (experiment_id, variant_id) =>
                       match record_metrics ab experiment_id variant_id
                               (last_usage usage_total chunks) 0%float
                               latency_ms false with
                       | Returned ab0 =>
                           (map Data chunks ++ [Done], ab0, h', None)
                       | Raised e0 ab0 => (map Data chunks, ab0, h', Some e0)
                       end
                   | None => (map Data chunks ++ [Done], ab, h', None)
                   end
               | Some e0 =>
                   match recorded_for (Some v) h' request with
                   | Some (experiment_id, variant_id) =>
                       match record_metrics ab experiment_id variant_id
                               (last_usage usage_total chunks) 0%float
                               latency_ms true with
                       | Returned ab0 =>
                           ((map Data chunks ++ [ErrorData e0]) ++ [Done],
                            ab0, h', None)
                       | Raised e1 ab0 =>
                           (map Data chunks ++ [ErrorData e0], ab0, h',
                            Some e1)
                       end
                   | None =>
                       ((map Data chunks ++ [ErrorData e0]) ++ [Done], ab,
                        h', None)
                   end
               end).1.1.2 eid (ExperimentVariant.variant_id v) = Some m'
            /\ ExperimentMetrics.total_requests m'
               = ExperimentMetrics.total_requests m + 1
            /\ ExperimentMetrics.total_tokens m'
               = ExperimentMetrics.total_tokens m
                 + last_usage usage_total chunks) as [m' Hm'].
  { rewrite Hids. destruct ending as [e0|].
    - destruct (Hrec true) as [m' H'].
      destruct (record_metrics ab eid (ExperimentVariant.variant_id v)
                  (last_usage usage_total chunks) 0%float latency_ms true);
        now exists m'.
    - destruct (Hrec false) as [m' H'].
      destruct (record_metrics ab eid (ExperimentVariant.variant_id v)
                  (last_usage usage_total chunks) 0%float latency_ms false);
        now exists m'. }
  exists req, eid, m, m'.
  split; [exact Hreq|]. split; [exact Heid|]. split; [exact Hm|].
  destruct Hm' as [H1 [H2 H3]].
  split; [exact H1|]. split; [exact H2|]. split; [exact H3|].
  rewrite Hh. cbn [Main.lists Main.requests]. split; [reflexivity|].
  exists (set_stream_fields v req). rewrite lookup_insert_eq.
  repeat split.
Qed.

Lemma stream_counts_the_request_witness :
  exists req experiment_id m m',
    Main.requests RequestFixtures.heap !! 1%nat = Some req
    /\ ChatRequest.experiment_id req = Some experiment_id
    /\ Calls.row Fixtures.registered experiment_id "variant_a" = Some m
    /\ Calls.row
         (event_generator true Fixtures.registered 1700000000
            RequestFixtures.heap 1%nat
            (fun _ => ([ProviderFixtures.chunk "Hel"],
                       Some (Exception "connection reset")))
            (fun _ => None) 350%float).1.1.2
         experiment_id "variant_a" = Some m'
    /\ ExperimentMetrics.total_requests m'
       = ExperimentMetrics.total_requests m + 1.
Proof.
  destruct (stream_counts_the_request true Fixtures.registered 1700000000
              RequestFixtures.heap 1%nat
              (fun _ => ([ProviderFixtures.chunk "Hel"],
                         Some (Exception "connection reset")))
              (fun _ => None) 350%float Fixtures.variant_a
              {| Main.requests :=
                   <[1%nat := set_stream_fields Fixtures.variant_a
                                RequestFixtures.request]>
                     (Main.requests RequestFixtures.heap);
                 Main.lists := Main.lists RequestFixtures.heap |}
              ab_testing_properties.registered_reachable)
    as [req [eid [m [m' [H1 [H2 [H3 [H4 [H5 _]]]]]]]]].
  - vm_compute. reflexivity.
  - exists req, eid, m, m'. repeat split; assumption.
Defined.

End handler_properties.

(* ===================================================================== *)
(** * Context truncation: properties                                      *)
(* ===================================================================== *)

Module cost_optimizer_properties.
Import CostOptimizer.

Section Counting.
Variable count_tokens_fn : string -> Z.

Lemma total_tokens_from messages : forall start,
  fold_left (fun total msg => total + count_tokens_fn (Message.content msg))
            messages start
  = start + total_tokens count_tokens_fn messages.
Proof.
  unfold total_tokens.
  induction messages as [|msg rest IH]; intros start; cbn [fold_left].
  - lia.
  - rewrite IH, (IH (0 + _)). lia.
Qed.

Lemma total_tokens_cons msg rest :
  total_tokens count_tokens_fn (msg :: rest)
  = count_tokens_fn (Message.content msg)
    + total_tokens count_tokens_fn rest.
Proof.
  unfold total_tokens at 1. cbn [fold_left]. now rewrite total_tokens_from.
Qed.

Lemma total_tokens_app l1 l2 :
  total_tokens count_tokens_fn (l1 ++ l2)
  = total_tokens count_tokens_fn l1 + total_tokens count_tokens_fn l2.
Proof.
  induction l1 as [|msg rest IH]; [reflexivity|].
  cbn [app]. rewrite !total_tokens_cons, IH. lia.
Qed.

Lemma total_tokens_rev l :
  total_tokens count_tokens_fn (rev l) = total_tokens count_tokens_fn l.
Proof.
  induction l as [|msg rest IH]; [reflexivity|].
  cbn [rev]. rewrite total_tokens_app, !total_tokens_cons, IH.
  unfold total_tokens at 2. cbn [fold_left]. lia.
Qed.


(** The second loop: what it keeps, what it leaves, and why it stopped. *)
Lemma keep_recent_spec remaining_tokens :
  forall reversed truncated current_tokens,
  exists kept left_out,
    reversed = kept ++ left_out
    /\ keep_recent count_tokens_fn remaining_tokens reversed truncated
                   current_tokens
       = rev kept ++ truncated
    /\ (current_tokens <= remaining_tokens ->
        current_tokens + total_tokens count_tokens_fn kept
        <= remaining_tokens)
    /\ match left_out with
       | [] => True
       | msg :: _ =>
           remaining_tokens
           < current_tokens + total_tokens count_tokens_fn kept
             + count_tokens_fn (Message.content msg)
       end.
Proof.
  induction reversed as [|msg rest IH]; intros truncated current_tokens.
  - exists [], []. cbn. repeat split. unfold total_tokens. cbn. lia.
  - cbn [keep_recent].
    destruct (Z.leb_spec (current_tokens
                          + count_tokens_fn (Message.content msg))
                         remaining_tokens) as [Hfit|Hover].
    + destruct (IH (msg :: truncated)
                   (current_tokens
                    + count_tokens_fn (Message.content msg)))
        as [kept [left_out [Hsplit [Hres [Hsum Hstop]]]]].
      exists (msg :: kept), left_out.
      split; [now rewrite Hsplit|].
      split; [rewrite Hres; cbn [rev]; now rewrite <- app_assoc|].
      rewrite total_tokens_cons.
      split; [intros _; specialize (Hsum Hfit); lia|].
      destruct left_out; [exact I | lia].
    + exists [], (msg :: rest). cbn [app rev].
      split; [reflexivity|]. split; [reflexivity|].
      unfold total_tokens. cbn [fold_left]. split; lia.
Qed.

End Counting.

Lemma separate_filter keep_system messages :
  separate keep_system messages
  = (List.filter (fun msg => is_system msg && keep_system) messages,
     List.filter (fun msg => negb (is_system msg && keep_system)) messages).
Proof.
  unfold separate.
  assert (forall l a b,
            fold_left
              (fun lists msg =>
                 if is_system msg && keep_system
                 then (lists.1 ++ [msg], lists.2)
                 else (lists.1, lists.2 ++ [msg]))
              l (a, b)
            = (a ++ List.filter (fun msg => is_system msg && keep_system) l,
               b ++ List.filter
                      (fun msg => negb (is_system msg && keep_system)) l))
    as H.
  { induction l as [|msg rest IH]; intros a b; cbn [fold_left List.filter].
    - now rewrite !app_nil_r.
    - destruct (is_system msg && keep_system); cbn [fst snd negb];
        rewrite IH, <- app_assoc; reflexivity. }
  exact (H messages [] []).
Qed.

(** The shape of every result of [truncate_context]. *)
Lemma truncate_context_shape messages max_tokens count_tokens_fn
    keep_system :
  let system_messages :=
    List.filter (fun msg => is_system msg && keep_system) messages in
  let conversation_messages :=
    List.filter (fun msg => negb (is_system msg && keep_system)) messages in
  (max_tokens <= total_tokens count_tokens_fn system_messages
   /\ truncate_context messages max_tokens count_tokens_fn keep_system
      = firstn 1 system_messages)
  \/ (total_tokens count_tokens_fn system_messages < max_tokens
      /\ exists left_out kept,
           conversation_messages = left_out ++ kept
           /\ truncate_context messages max_tokens count_tokens_fn
                               keep_system
              = system_messages ++ kept
           /\ total_tokens count_tokens_fn (system_messages ++ kept)
              <= max_tokens
           /\ match last left_out with
              | None => True
              | Some msg =>
                  max_tokens
                  < total_tokens count_tokens_fn (system_messages ++ kept)
                    + count_tokens_fn (Message.content msg)
              end).
Proof.
  intros system_messages conversation_messages.
  unfold truncate_context. rewrite separate_filter.
  fold system_messages conversation_messages.
  destruct (Z.leb_spec (max_tokens
                        - total_tokens count_tokens_fn system_messages) 0)
    as [Hfull|Hroom].
  - left. split; [lia|]. now destruct system_messages.
  - right. split; [lia|].
    destruct (keep_recent_spec count_tokens_fn
                (max_tokens - total_tokens count_tokens_fn system_messages)
                (rev conversation_messages) [] 0)
      as [kept [left_out [Hsplit [Hres [Hsum Hstop]]]]].
    exists (rev left_out), (rev kept).
    split.
    { rewrite <- rev_app_distr, <- Hsplit. now rewrite rev_involutive. }
    split; [now rewrite Hres, app_nil_r|].
    rewrite total_tokens_app, total_tokens_rev.
    split; [specialize (Hsum ltac:(lia)); lia|].
    destruct left_out as [|msg rest]; [exact I|].
    cbn [rev]. rewrite last_snoc. lia.
Qed.

(** X19: [truncate_context] gives one of two results. When the system
    messages it keeps leave room below [max_tokens], the result is these
    system messages followed by the most recent conversation messages, an
    unbroken run up to the last one; its token count does not exceed
    [max_tokens], and the message just before the run, if there is one,
    would not have fitted. This holds for every token counter. When the
    system messages alone reach [max_tokens], the result is the first of
    them, or nothing: the whole conversation is dropped. *)
Theorem truncate_context_fits_or_drops messages max_tokens
    count_tokens_fn keep_system :
  let system_messages :=
    List.filter (fun msg => is_system msg && keep_system) messages in
  let conversation_messages :=
    List.filter (fun msg => negb (is_system msg && keep_system)) messages in
  (max_tokens <= total_tokens count_tokens_fn system_messages
   /\ truncate_context messages max_tokens count_tokens_fn keep_system
      = firstn 1 system_messages)
  \/ (total_tokens count_tokens_fn system_messages < max_tokens
      /\ exists left_out kept,
           conversation_messages = left_out ++ kept
           /\ truncate_context messages max_tokens count_tokens_fn
                               keep_system
              = system_messages ++ kept
           /\ total_tokens count_tokens_fn
                (truncate_context messages max_tokens count_tokens_fn
                                  keep_system)
              <= max_tokens
           /\ match last left_out with
              | None => True
              | Some msg =>
                  max_tokens
                  < total_tokens count_tokens_fn
                      (truncate_context messages max_tokens count_tokens_fn
                                        keep_system)
                    + count_tokens_fn (Message.content msg)
              end).
Proof.
  intros system_messages conversation_messages.
  destruct (truncate_context_shape messages max_tokens count_tokens_fn
                                   keep_system)
    as [H|[Hroom [left_out [kept [Hsplit [Hres [Hsum Hstop]]]]]]];
    [left; exact H|].
  right. split; [exact Hroom|].
  exists left_out, kept. rewrite Hres. repeat split; assumption.
Qed.



Lemma remove_duplicate_system_spec messages :
  List.filter is_system (remove_duplicate_system messages)
  = firstn 1 (List.filter is_system messages)
  /\ List.filter (fun msg => negb (is_system msg))
                 (remove_duplicate_system messages)
     = List.filter (fun msg => negb (is_system msg)) messages.
Proof.
  unfold remove_duplicate_system.
  assert (forall l acc seen,
            (seen = true -> exists s, List.filter is_system acc = [s]) ->
            (seen = false -> List.filter is_system acc = []) ->
            let r := (fold_left
                        (fun state msg =>
                           if is_system msg then
                             if negb state.2
                             then (state.1 ++ [msg], true) else state
                           else (state.1 ++ [msg], state.2))
                        l (acc, seen)).1 in
            List.filter is_system r
            = firstn 1 (List.filter is_system acc ++ List.filter is_system l)
            /\ List.filter (fun msg => negb (is_system msg)) r
               = List.filter (fun msg => negb (is_system msg)) acc
                 ++ List.filter (fun msg => negb (is_system msg)) l) as H.
  { induction l as [|msg rest IH]; intros acc seen Hseen Hnot.
    - cbn [fold_left fst List.filter]. rewrite !app_nil_r. split; [|easy].
      destruct seen.
      + destruct (Hseen eq_refl) as [s ->]. reflexivity.
      + now rewrite (Hnot eq_refl).
    - cbn [fold_left fst snd List.filter].
      destruct (is_system msg) eqn:Hsys; cbn [negb].
      + destruct seen; cbn [negb].
        * destruct (IH acc true Hseen Hnot) as [H1 H2].
          cbv zeta in H1, H2. rewrite H1, H2. split; [|reflexivity].
          destruct (Hseen eq_refl) as [s ->]. reflexivity.
        * destruct (IH (acc ++ [msg]) true) as [H1 H2].
          -- intros _. exists msg. rewrite List.filter_app, (Hnot eq_refl).
             cbn [List.filter]. now rewrite Hsys.
          -- discriminate.
          -- cbv zeta in H1, H2. rewrite H1, H2.
             rewrite !List.filter_app. cbn [List.filter].
             rewrite Hsys. cbn [negb]. rewrite app_nil_r.
             rewrite (Hnot eq_refl). split; reflexivity.
      + destruct (IH (acc ++ [msg]) seen) as [H1 H2].
        * intros Hs. destruct (Hseen Hs) as [s Hacc]. exists s.
          rewrite List.filter_app, Hacc. cbn [List.filter].
          now rewrite Hsys.
        * intros Hs. rewrite List.filter_app, (Hnot Hs). cbn [List.filter].
          now rewrite Hsys.
        * cbv zeta in H1, H2. rewrite H1, H2.
          rewrite !List.filter_app. cbn [List.filter].
          rewrite Hsys. cbn [negb]. rewrite app_nil_r, <- app_assoc.
          split; reflexivity. }
  destruct (H messages [] false) as [H1 H2]; [discriminate | reflexivity|].
  exact (conj H1 H2).
Qed.

Lemma filter_system_keep l :
  List.filter (fun msg => is_system msg && true) l = List.filter is_system l
  /\ List.filter (fun msg => negb (is_system msg && true)) l
     = List.filter (fun msg => negb (is_system msg)) l.
Proof.
  split; apply List.filter_ext; intros msg; now rewrite andb_true_r.
Qed.

Lemma filter_holds {A : Type} (p : A -> bool) l :
  Forall (fun x => p x = true) (List.filter p l).
Proof.
  apply List.Forall_forall. intros x Hin.
  apply filter_In in Hin. now destruct Hin.
Qed.

Lemma filter_all {A : Type} (p : A -> bool) l :
  Forall (fun x => p x = true) l -> List.filter p l = l.
Proof.
  induction 1 as [|x l Hx _ IH]; [reflexivity|].
  cbn [List.filter]. now rewrite Hx, IH.
Qed.

Lemma filter_none {A : Type} (p : A -> bool) l :
  Forall (fun x => p x = false) l -> List.filter p l = [].
Proof.
  induction 1 as [|x l Hx _ IH]; [reflexivity|].
  cbn [List.filter]. now rewrite Hx, IH.
Qed.

Lemma system_part l :
  Forall (fun msg => is_system msg = true) l ->
  List.filter is_system l = l
  /\ List.filter (fun msg => negb (is_system msg)) l = [].
Proof.
  intros H. split; [now apply filter_all|].
  apply filter_none. eapply Forall_impl; [exact H|].
  cbn. now intros msg ->.
Qed.

Lemma conversation_part l :
  Forall (fun msg => negb (is_system msg) = true) l ->
  List.filter is_system l = []
  /\ List.filter (fun msg => negb (is_system msg)) l = l.
Proof.
  intros H. split; [|now apply filter_all].
  apply filter_none. eapply Forall_impl; [exact H|].
  cbn. intros msg Hm. now destruct (is_system msg).
Qed.

(** What [optimize_messages] returns, for a given target. *)
Lemma optimize_messages_cases messages count_tokens_fn target_reduction
    optimized r :
  optimize_messages messages count_tokens_fn target_reduction
  = Ok (optimized, r) ->
  exists target,
    target_tokens (total_tokens count_tokens_fn messages) target_reduction
    = Ok target
    /\ optimized
       = (if target
             <? total_tokens count_tokens_fn
                  (remove_duplicate_system messages)
          then truncate_context (remove_duplicate_system messages) target
                                count_tokens_fn true
          else remove_duplicate_system messages)
    /\ CostOptimizationResult.original_tokens r
       = total_tokens count_tokens_fn messages
    /\ CostOptimizationResult.optimized_tokens r
       = total_tokens count_tokens_fn optimized
    /\ CostOptimizationResult.savings_tokens r
       = total_tokens count_tokens_fn messages
         - total_tokens count_tokens_fn optimized.
Proof.
  unfold optimize_messages.
  destruct (target_tokens _ target_reduction) as [target|]; [|discriminate].
  destruct (if 0 <? total_tokens count_tokens_fn messages then _ else _)
    as [percent|]; [|discriminate].
  intros [= <- <-]. exists target. repeat split.
Qed.

(** X21: a result of [optimize_messages] holds the first system message
    of the conversation, if there is one, and no other system message;
    of the other messages it holds the most recent ones, an unbroken run
    up to the last. The three token counts of its report are the counts
    of the two conversations and their difference. *)
Theorem optimize_messages_keeps_one_system_message messages
    count_tokens_fn target_reduction optimized r :
  optimize_messages messages count_tokens_fn target_reduction
  = Ok (optimized, r) ->
  List.filter is_system optimized
  = firstn 1 (List.filter is_system messages)
  /\ List.filter (fun msg => negb (is_system msg)) optimized
       `suffix_of` List.filter (fun msg => negb (is_system msg)) messages
  /\ CostOptimizationResult.original_tokens r
     = total_tokens count_tokens_fn messages
  /\ CostOptimizationResult.optimized_tokens r
     = total_tokens count_tokens_fn optimized
  /\ CostOptimizationResult.savings_tokens r
     = CostOptimizationResult.original_tokens r
       - CostOptimizationResult.optimized_tokens r.
Proof.
  intros Hres.
  destruct (optimize_messages_cases _ _ _ _ _ Hres)
    as [target [_ [Hopt [H1 [H2 H3]]]]].
  rewrite H1, H2, H3.
  destruct (remove_duplicate_system_spec messages) as [Hsys Hconv].
  assert (List.filter is_system optimized
          = firstn 1 (List.filter is_system messages)
          /\ List.filter (fun msg => negb (is_system msg)) optimized
               `suffix_of`
             List.filter (fun msg => negb (is_system msg)) messages)
    as [Hone Hrecent]; [|now repeat split].
  rewrite <- Hsys, <- Hconv.
  destruct (target <? _); [|now subst].
  destruct (filter_system_keep (remove_duplicate_system messages))
    as [Hs Hc].
  pose proof (filter_holds is_system (remove_duplicate_system messages))
    as Hsystem.
  pose proof (filter_holds (fun msg => negb (is_system msg))
                           (remove_duplicate_system messages))
    as Hconversation.
  destruct (truncate_context_shape (remove_duplicate_system messages)
              target count_tokens_fn true)
    as [[_ Ht]|[_ [left_out [kept [Hsplit [Ht _]]]]]];
    cbv zeta in *; rewrite Hopt, Ht; rewrite ?Hs, ?Hc in *.
  - assert (firstn 1 (List.filter is_system
                        (remove_duplicate_system messages))
            = List.filter is_system (remove_duplicate_system messages))
      as ->.
    { rewrite Hsys. now destruct (List.filter is_system messages). }
    destruct (system_part _ Hsystem) as [-> ->].
    split; [reflexivity | apply suffix_nil].
  - rewrite Hsplit in Hconversation.
    apply Forall_app in Hconversation.
    destruct Hconversation as [_ Hkept].
    rewrite !List.filter_app.
    destruct (system_part _ Hsystem) as [-> ->].
    destruct (conversation_part _ Hkept) as [-> ->].
    rewrite app_nil_r. split; [reflexivity|].
    cbn [app]. rewrite Hsplit. now exists left_out.
Qed.

Lemma optimize_messages_keeps_one_system_message_witness :
  List.filter is_system
    [CostFixtures.say "system" "You are a support agent for the web shop.";
     CostFixtures.say "assistant" "Let me look that up for you right away.";
     CostFixtures.say "user" "Thanks, the order number is 12345678."]
  = firstn 1 (List.filter is_system CostFixtures.chat).
Proof.
  refine (proj1 (optimize_messages_keeps_one_system_message
                   CostFixtures.chat CostFixtures.count_tokens 0.3%float
                   _ {| CostOptimizationResult.original_tokens := 45;
                        CostOptimizationResult.optimized_tokens := 28;
                        CostOptimizationResult.savings_tokens := 17;
                        CostOptimizationResult.savings_percent :=
                          PrimFloat.mul
                            (SF2Prim (binary_normalize prec emax 17 0 false)
                             / SF2Prim (binary_normalize prec emax 45 0
                                                         false))%float
                            100%float;
                        CostOptimizationResult.action_taken :=
                          Some "CONTEXT_TRUNCATION" |} _)).
  vm_compute. reflexivity.
Defined.

(** X22: when the first system message of the conversation leaves room in
    the target, that is below the integer part of the original count
    times one minus the reduction, the conversation [optimize_messages]
    returns is within this target. *)
Theorem optimize_messages_meets_the_target messages count_tokens_fn
    target_reduction optimized r target :
  optimize_messages messages count_tokens_fn target_reduction
  = Ok (optimized, r) ->
  target_tokens (total_tokens count_tokens_fn messages) target_reduction
  = Ok target ->
  total_tokens count_tokens_fn (firstn 1 (List.filter is_system messages))
  < target ->
  CostOptimizationResult.optimized_tokens r <= target.
Proof.
  intros Hres Htarget Hroom.
  destruct (optimize_messages_cases _ _ _ _ _ Hres)
    as [target' [Htarget' [Hopt [_ [H2 _]]]]].
  rewrite Htarget in Htarget'. injection Htarget' as <-.
  rewrite H2, Hopt.
  destruct (Z.ltb_spec target
              (total_tokens count_tokens_fn
                 (remove_duplicate_system messages))) as [Hover|Hfits];
    [|exact Hfits].
  destruct (remove_duplicate_system_spec messages) as [Hsys _].
  destruct (filter_system_keep (remove_duplicate_system messages))
    as [Hs _].
  destruct (truncate_context_shape (remove_duplicate_system messages)
              target count_tokens_fn true)
    as [[Hfull _]|[_ [left_out [kept [_ [Ht [Hsum _]]]]]]];
    cbv zeta in *; rewrite Hs, Hsys in *.
  - lia.
  - rewrite Ht. exact Hsum.
Qed.

Lemma optimize_messages_meets_the_target_witness :
  (CostOptimizationResult.optimized_tokens
    {| CostOptimizationResult.original_tokens := 45;
       CostOptimizationResult.optimized_tokens := 28;
       CostOptimizationResult.savings_tokens := 17;
       CostOptimizationResult.savings_percent :=
         PrimFloat.mul
           (SF2Prim (binary_normalize prec emax 17 0 false)
            / SF2Prim (binary_normalize prec emax 45 0 false))%float
           100%float;
       CostOptimizationResult.action_taken := Some "CONTEXT_TRUNCATION" |}
   <=? 31) = true.
Proof.
  apply Z.leb_le.
  refine (optimize_messages_meets_the_target CostFixtures.chat
            CostFixtures.count_tokens 0.3%float
            [CostFixtures.say "system"
               "You are a support agent for the web shop.";
             CostFixtures.say "assistant"
               "Let me look that up for you right away.";
             CostFixtures.say "user"
               "Thanks, the order number is 12345678."]
            _ 31 _ _ _); vm_compute; reflexivity.
Defined.

End cost_optimizer_properties.
